(** * Music library: data model, access rules and engagement operations

    A shallow embedding of [music/models.py], [music/forms.py] and
    [music/views.py], and of the account forms and views of [accounts/].

    - A table is the list of its rows in insertion order; a row is a record
      with the model's fields that the views read or write.  File and image
      columns are left out; lyrics, durations and the default order of
      albums are taken as given where a view reads them; the Comment and
      account tables are passed beside the store.
    - A view is a function of the requesting user, the store and the request
      parameters; it returns the response, the queued messages and the store
      after the request.  Every view is behind [login_required], so the
      requesting user is always given.
    - Time stamps are natural numbers handed to the views that write one.
    - The exceptions of the ORM and of the paginator are values of a sum
      type; an exception that leaves a view is the response [Raised].
    - Strings are byte strings; [strip] and [int] follow Python on ASCII
      input. *)

From Stdlib Require Import ZArith Arith List Bool String Ascii Lia Permutation Sorted.
From Stdlib Require Import DecimalString DecimalPos DecimalZ.
Import ListNotations.

Local Open Scope string_scope.
Local Open Scope list_scope.

(** ** Python built-ins used by the views and forms *)

Module Py.

(** [str.isspace] on the ASCII range: TAB..CR, FS..US and SPACE. *)
Definition isspace (c : ascii) : bool :=
  let n := nat_of_ascii c in
  (((9 <=? n) && (n <=? 13)) || ((28 <=? n) && (n <=? 32)))%nat.

Fixpoint lstrip_chars (l : list ascii) : list ascii :=
  match l with
  | c :: r => if isspace c then lstrip_chars r else l
  | [] => []
  end.

Definition strip_chars (l : list ascii) : list ascii :=
  rev (lstrip_chars (rev (lstrip_chars l))).

(** [s.strip()] *)
Definition strip (s : string) : string :=
  string_of_list_ascii (strip_chars (list_ascii_of_string s)).

Definition isdigit (c : ascii) : bool :=
  let n := nat_of_ascii c in ((48 <=? n) && (n <=? 57))%nat.

(** [str.isascii] *)
Definition isascii (s : string) : bool :=
  forallb (fun c => (nat_of_ascii c <? 128)%nat) (list_ascii_of_string s).

(** The white space that [int] skips around a numeral in ASCII text: TAB..CR
    and SPACE.  Unlike [str.strip] it does not skip FS..US. *)
Definition isspace_int (c : ascii) : bool :=
  let n := nat_of_ascii c in
  (((9 <=? n) && (n <=? 13)) || Nat.eqb n 32)%nat.

Fixpoint lskip_chars (l : list ascii) : list ascii :=
  match l with
  | c :: r => if isspace_int c then lskip_chars r else l
  | [] => []
  end.

Definition skip_chars (l : list ascii) : list ascii :=
  rev (lskip_chars (rev (lskip_chars l))).

Definition is_underscore (c : ascii) : bool := Ascii.eqb c "_".

(** The digit part of an integer literal: digits, with single underscores
    allowed between two digits only. *)
Fixpoint digits_ok (prev_digit : bool) (l : list ascii) : bool :=
  match l with
  | [] => prev_digit
  | c :: r =>
      if isdigit c then digits_ok true r
      else if is_underscore c then prev_digit && digits_ok false r
      else false
  end.

Definition drop_underscores (l : list ascii) : list ascii :=
  filter (fun c => negb (is_underscore c)) l.

Definition parse_digits (l : list ascii) : option Z :=
  if digits_ok false l then
    match NilEmpty.uint_of_string (string_of_list_ascii (drop_underscores l)) with
    | Some d => Some (Z.of_int (Decimal.Pos d))
    | None => None
    end
  else None.

(** [int(s)] for a string argument, base ten; [None] stands for the
    [ValueError] it raises.  The interpreter also refuses a numeral of more
    than 4300 digits; that limit is not part of this function, and the
    statements that need it assume a text of at most 4300 characters. *)
Definition int (s : string) : option Z :=
  match skip_chars (list_ascii_of_string s) with
  | "-"%char :: r => option_map Z.opp (parse_digits r)
  | "+"%char :: r => parse_digits r
  | l => parse_digits l
  end.

(** [str(n)] for an integer. *)
Definition str (n : Z) : string := NilZero.string_of_int (Z.to_int n).

End Py.

(** ** Models (music/models.py, accounts/models.py) *)

Module User.
Record t := mk { pk : nat; username : string; is_staff : bool }.
End User.

Module Genre.
Record t := mk { pk : nat; name : string }.
End Genre.

Module Artist.
Record t := mk { pk : nat; name : string }.
End Artist.

Module Album.
Record t := mk { pk : nat; title : string; artist : nat }.
End Album.

Module Song.
Record t := mk {
  pk : nat;
  title : string;
  artist : nat;
  album : option nat;
  genre : option nat;
  uploaded_by : nat;
  upload_date : nat;
  play_count : Z;
  download_count : Z;
  is_public : bool;
  is_featured : bool
}.

(** Field defaults of the model. *)
Definition play_count_default : Z := 0.
Definition download_count_default : Z := 0.
Definition is_public_default : bool := true.
Definition is_featured_default : bool := false.

(** [Song(...)]: a field the caller leaves out takes its default. *)
Definition init (pk : nat) (title : string) (artist : nat) (album genre : option nat)
           (uploaded_by upload_date : nat) (is_public : option bool) : t :=
  mk pk title artist album genre uploaded_by upload_date
     play_count_default download_count_default
     (match is_public with Some b => b | None => is_public_default end)
     is_featured_default.

Definition set_play_count (v : Z) (s : t) : t :=
  mk (pk s) (title s) (artist s) (album s) (genre s) (uploaded_by s)
     (upload_date s) v (download_count s) (is_public s) (is_featured s).

Definition set_download_count (v : Z) (s : t) : t :=
  mk (pk s) (title s) (artist s) (album s) (genre s) (uploaded_by s)
     (upload_date s) (play_count s) v (is_public s) (is_featured s).
End Song.

Module Playlist.
Record t := mk {
  pk : nat;
  name : string;
  user : nat;
  songs : list nat;
  is_public : bool;
  is_collaborative : bool;
  created_at : nat
}.

Definition is_public_default : bool := false.
Definition is_collaborative_default : bool := false.

(** [Playlist(...)]: a field the caller leaves out takes its default. *)
Definition init (pk : nat) (name : string) (user created_at : nat)
           (is_public is_collaborative : option bool) : t :=
  mk pk name user []
     (match is_public with Some b => b | None => is_public_default end)
     (match is_collaborative with Some b => b | None => is_collaborative_default end)
     created_at.
End Playlist.

Module Favorite.
Record t := mk { pk : nat; user : nat; song : nat; added_at : nat }.
End Favorite.

Module PlayHistory.
Record t := mk { pk : nat; user : nat; song : nat; played_at : nat; completed : bool }.
Definition completed_default : bool := false.
End PlayHistory.

Module Rating.
Record t := mk {
  pk : nat; song : nat; user : nat; rating : Z;
  created_at : nat; updated_at : nat
}.

(** [choices=[(i, i) for i in range(1, 6)]] *)
Definition choices : list Z := [1; 2; 3; 4; 5]%Z.

Definition set_rating (v : Z) (now : nat) (r : t) : t :=
  mk (pk r) (song r) (user r) v (created_at r) now.
End Rating.

(** The relational store: one list of rows per table. *)
Record DB := mkDB {
  songs : list Song.t;
  artists : list Artist.t;
  albums : list Album.t;
  genres : list Genre.t;
  playlists : list Playlist.t;
  favorites : list Favorite.t;
  playhistory : list PlayHistory.t;
  ratings : list Rating.t
}.

Definition empty_db : DB := mkDB [] [] [] [] [] [] [] [].

Definition with_songs (l : list Song.t) (db : DB) : DB :=
  mkDB l (artists db) (albums db) (genres db) (playlists db)
       (favorites db) (playhistory db) (ratings db).
Definition with_artists (l : list Artist.t) (db : DB) : DB :=
  mkDB (songs db) l (albums db) (genres db) (playlists db)
       (favorites db) (playhistory db) (ratings db).
Definition with_albums (l : list Album.t) (db : DB) : DB :=
  mkDB (songs db) (artists db) l (genres db) (playlists db)
       (favorites db) (playhistory db) (ratings db).
Definition with_genres (l : list Genre.t) (db : DB) : DB :=
  mkDB (songs db) (artists db) (albums db) l (playlists db)
       (favorites db) (playhistory db) (ratings db).
Definition with_playlists (l : list Playlist.t) (db : DB) : DB :=
  mkDB (songs db) (artists db) (albums db) (genres db) l
       (favorites db) (playhistory db) (ratings db).
Definition with_favorites (l : list Favorite.t) (db : DB) : DB :=
  mkDB (songs db) (artists db) (albums db) (genres db) (playlists db)
       l (playhistory db) (ratings db).
Definition with_playhistory (l : list PlayHistory.t) (db : DB) : DB :=
  mkDB (songs db) (artists db) (albums db) (genres db) (playlists db)
       (favorites db) l (ratings db).
Definition with_ratings (l : list Rating.t) (db : DB) : DB :=
  mkDB (songs db) (artists db) (albums db) (genres db) (playlists db)
       (favorites db) (playhistory db) l.

(** ** The ORM calls the code relies on *)

Module ORM.

Inductive error := DoesNotExist | MultipleObjectsReturned | IntegrityError.

(** [Model.objects.get] with a lookup: the single row matching the lookup. *)
Definition get {A : Type} (p : A -> bool) (rows : list A) : error + A :=
  match filter p rows with
  | [] => inl DoesNotExist
  | [x] => inr x
  | _ :: _ :: _ => inl MultipleObjectsReturned
  end.

(** A key for a new row: one more than the largest key in the table.  The
    database draws from a sequence that also never gives a deleted key out
    again; the store keeps rows only, so what the properties of new rows
    rely on is that the key is one no row has. *)
Definition next_pk {A : Type} (pk : A -> nat) (rows : list A) : nat :=
  S (fold_right Nat.max 0 (map pk rows)).

(** [queryset.count()] *)
Definition count {A : Type} (p : A -> bool) (rows : list A) : nat :=
  List.length (filter p rows).

(** [queryset.order_by(key)]: a stable insertion sort; [le a b] says that
    [a] may come before [b].  Rows that compare equal keep the order they
    had, which the store itself does not promise. *)
Section OrderBy.
Context {A : Type} (le : A -> A -> bool).

Fixpoint insert (x : A) (l : list A) : list A :=
  match l with
  | [] => [x]
  | y :: r => if le x y then x :: l else y :: insert x r
  end.

Definition order_by (l : list A) : list A := fold_right insert [] l.
End OrderBy.

End ORM.

(** ** django.core.paginator *)

Module Paginator.

Inductive exn := PageNotAnInteger | EmptyPage.

(** What the code passes as a page number: the raw query-string value
    (a string, or [None] when the parameter is missing) or an integer. *)
Inductive number_arg := PyNone | PyStr (s : string) | PyInt (n : Z).

Record Page (A : Type) := mkPage {
  object_list : list A;
  number : Z
}.
Arguments mkPage {A} _ _.
Arguments object_list {A} _.
Arguments number {A} _.

Section WithObjects.
Context {A : Type} (objects : list A) (per_page : Z).

Definition orphans : Z := 0.

Definition count : Z := Z.of_nat (List.length objects).

(** [ceil(hits / per_page)] with [hits = max(1, count - orphans)]. *)
Definition num_pages : Z :=
  let hits := Z.max 1 (count - orphans) in
  (hits + per_page - 1) / per_page.

(** [int(number)]; a failure is reported as [PageNotAnInteger]. *)
Definition to_int (number : number_arg) : option Z :=
  match number with
  | PyNone => None
  | PyStr s => Py.int s
  | PyInt n => Some n
  end.

Definition validate_number (number : number_arg) : exn + Z :=
  match to_int number with
  | None => inl PageNotAnInteger
  | Some n =>
      if (n <? 1)%Z then inl EmptyPage
      else if (n >? num_pages)%Z then inl EmptyPage
      else inr n
  end.

(** [objects[bottom:top]] *)
Definition slice (bottom top : Z) : list A :=
  firstn (Z.to_nat (top - bottom)) (skipn (Z.to_nat bottom) objects).

Definition page (number : number_arg) : exn + Page A :=
  match validate_number number with
  | inl e => inl e
  | inr n =>
      let bottom := ((n - 1) * per_page)%Z in
      let top := (bottom + per_page)%Z in
      let top := if (top + orphans >=? count)%Z then count else top in
      inr (mkPage (slice bottom top) n)
  end.

(** The try/except block that song_list, artist_list and play_history
    share: the requested page, page 1 when the parameter is not an
    integer, the last page when it is out of range. *)
Definition get_page (page_param : option string) : exn + Page A :=
  let arg := match page_param with Some s => PyStr s | None => PyNone end in
  match page arg with
  | inr pg => inr pg
  | inl PageNotAnInteger => page (PyInt 1)
  | inl EmptyPage => page (PyInt num_pages)
  end.
End WithObjects.

End Paginator.

(** ** Requests and responses *)

Inductive Method := GET | POST.

Inductive Exception :=
| Http404
| ValueError
| AttributeError
| QueryError (e : ORM.error)
| PageError (e : Paginator.exn).

Inductive level := error | success | info | warning.

(** A flash message queued with [messages.error], [messages.success], ... *)
Definition message : Type := level * string.

Inductive HttpResponse (R : Type) :=
| Content (body : R)                        (* render, JsonResponse, FileResponse *)
| Redirect (to : string) (pk : option nat)  (* redirect(name, pk=...) *)
| NotAllowed                                (* require_POST on another method *)
| Raised (e : Exception).                   (* an exception that leaves the view *)
Arguments Content {R} _.
Arguments Redirect {R} _ _.
Arguments NotAllowed {R}.
Arguments Raised {R} _.

(** What a view leaves behind: the response, the queued messages and the
    store after the request. *)
Record Result (R : Type) := mkResult {
  response : HttpResponse R;
  flashed : list message;
  store : DB
}.
Arguments mkResult {R} _ _ _.
Arguments response {R} _.
Arguments flashed {R} _.
Arguments store {R} _.

Definition quote : string := String (ascii_of_nat 34) EmptyString.

(** The PermissionDenied condition as the views signal it: an error message
    that starts with "You do not have permission" and a redirect away. *)
Definition permission_denied {R : Type} (r : Result R) : bool :=
  match response r, flashed r with
  | Redirect _ _, [(error, m)] => String.prefix "You do not have permission" m
  | _, _ => false
  end.

Definition not_found {R : Type} (r : Result R) : bool :=
  match response r with
  | Raised Http404 => true
  | _ => false
  end.

(** [get_object_or_404(Model, lookup)] *)
Definition get_object_or_404 {A : Type} (p : A -> bool) (rows : list A)
  : Exception + A :=
  match ORM.get p rows with
  | inr x => inr x
  | inl ORM.DoesNotExist => inl Http404
  | inl e => inl (QueryError e)
  end.

(** ** Catalog rows: inserts and get-or-create *)

(** A new Artist row.  The model puts no unique constraint on [name] (it is
    indexed only), so the insert always goes through. *)
Definition Artist_create (name : string) (db : DB) : Artist.t * DB :=
  let a := Artist.mk (ORM.next_pk Artist.pk (artists db)) name in
  (a, with_artists (artists db ++ [a]) db).

(** [Artist.objects.get_or_create(name=...)] *)
Definition Artist_get_or_create (name : string) (db : DB)
  : ORM.error + (Artist.t * bool * DB) :=
  match ORM.get (fun a => String.eqb (Artist.name a) name) (artists db) with
  | inr a => inr (a, false, db)
  | inl ORM.DoesNotExist =>
      let '(a, db') := Artist_create name db in inr (a, true, db')
  | inl e => inl e
  end.

(** A new Album row; no unique constraint on (title, artist) either. *)
Definition Album_create (title : string) (artist : Artist.t) (db : DB) : Album.t * DB :=
  let a := Album.mk (ORM.next_pk Album.pk (albums db)) title (Artist.pk artist) in
  (a, with_albums (albums db ++ [a]) db).

(** [Album.objects.get_or_create(title=..., artist=...)] *)
Definition Album_get_or_create (title : string) (artist : Artist.t) (db : DB)
  : ORM.error + (Album.t * bool * DB) :=
  match ORM.get (fun a => String.eqb (Album.title a) title
                          && Nat.eqb (Album.artist a) (Artist.pk artist))
                (albums db) with
  | inr a => inr (a, false, db)
  | inl ORM.DoesNotExist =>
      let '(a, db') := Album_create title artist db in inr (a, true, db')
  | inl e => inl e
  end.

(** A new Genre row, under the model's [unique=True] on [name]. *)
Definition Genre_create (name : string) (db : DB) : ORM.error + (Genre.t * DB) :=
  if existsb (fun g => String.eqb (Genre.name g) name) (genres db)
  then inl ORM.IntegrityError
  else
    let g := Genre.mk (ORM.next_pk Genre.pk (genres db)) name in
    inr (g, with_genres (genres db ++ [g]) db).

(** [Genre.objects.get_or_create(name=...)]: a uniqueness violation on the
    insert is answered by reading the row again. *)
Definition Genre_get_or_create (name : string) (db : DB)
  : ORM.error + (Genre.t * bool * DB) :=
  let lookup := ORM.get (fun g => String.eqb (Genre.name g) name) in
  match lookup (genres db) with
  | inr g => inr (g, false, db)
  | inl ORM.DoesNotExist =>
      match Genre_create name db with
      | inr (g, db') => inr (g, true, db')
      | inl e =>
          match lookup (genres db) with
          | inr g => inr (g, false, db)
          | inl _ => inl e
          end
      end
  | inl e => inl e
  end.

(** The get-or-create steps of [SongUploadForm.clean] for a typed name:
    the name is stripped, then looked up or inserted. *)
Definition resolve_artist (artist_name : string) (db : DB)
  : ORM.error + (Artist.t * bool * DB) :=
  Artist_get_or_create (Py.strip artist_name) db.

Definition resolve_album (album_title : string) (artist : Artist.t) (db : DB)
  : ORM.error + (Album.t * bool * DB) :=
  Album_get_or_create (Py.strip album_title) artist db.

Definition resolve_genre (genre_name : string) (db : DB)
  : ORM.error + (Genre.t * bool * DB) :=
  Genre_get_or_create (Py.strip genre_name) db.

(** ** Forms (music/forms.py) *)

Module SongUploadForm.

(** [cleaned_data] after the per-field cleaning and before [clean]: a
    model choice is the selected row or [None], an empty text field is the
    empty string, [field_errors] records that some field of the form was
    rejected on its own. *)
Record data := mk {
  title : string;
  artist : option Artist.t;
  album : option Album.t;
  genre : option Genre.t;
  audio_file_size : option Z;
  is_public : bool;
  artist_name : string;
  album_title : string;
  genre_name : string;
  field_errors : bool
}.

Inductive outcome :=
| ValidationError (msg : string)
| Cleaned (artist : option Artist.t) (album : option Album.t) (genre : option Genre.t).

Definition truthy (s : string) : bool := negb (String.eqb s "").

Definition max_audio_size : Z := 50 * 1024 * 1024.

(** [SongUploadForm.clean] *)
Definition clean (d : data) (db : DB) : ORM.error + (outcome * DB) :=
  if match artist d with Some _ => false | None => negb (truthy (artist_name d)) end
  then inr (ValidationError "Please select an artist or enter a new artist name.", db)
  else
    (* Create new artist if name provided *)
    match
      match artist d with
      | Some a => inr (Some a, db)
      | None =>
          match resolve_artist (artist_name d) db with
          | inr (a, _, db1) => inr (Some a, db1)
          | inl e => inl e
          end
      end
    with
    | inl e => inl e
    | inr (artist1, db1) =>
        (* Create new album if title provided *)
        match
          match album d, truthy (album_title d), artist1 with
          | None, true, Some a =>
              match resolve_album (album_title d) a db1 with
              | inr (al, _, db2) => inr (Some al, db2)
              | inl e => inl e
              end
          | al, _, _ => inr (al, db1)
          end
        with
        | inl e => inl e
        | inr (album2, db2) =>
            (* Create new genre if name provided *)
            match
              match genre d, truthy (genre_name d) with
              | None, true =>
                  match resolve_genre (genre_name d) db2 with
                  | inr (g, _, db3) => inr (Some g, db3)
                  | inl e => inl e
                  end
              | g, _ => inr (g, db2)
              end
            with
            | inl e => inl e
            | inr (genre3, db3) =>
                (* Validate audio file size (50MB limit) *)
                if match audio_file_size d with
                   | Some n => (n >? max_audio_size)%Z
                   | None => false
                   end
                then inr (ValidationError "Audio file size cannot exceed 50MB.", db3)
                else inr (Cleaned artist1 album2 genre3, db3)
            end
        end
    end.

(** [form.is_valid()] followed by the values a save would write. *)
Definition is_valid (d : data) (db : DB)
  : ORM.error + (option (Artist.t * option Album.t * option Genre.t) * DB) :=
  match clean d db with
  | inl e => inl e
  | inr (Cleaned (Some a) al g, db') =>
      inr (if field_errors d then None else Some (a, al, g), db')
  | inr (_, db') => inr (None, db')
  end.

End SongUploadForm.

Module RatingForm.

(** The posted [rating] field is valid when it is the text of one of the
    model's choices; the cleaned value is that choice. *)
Definition is_valid (posted : option string) : option Z :=
  match posted with
  | None => None
  | Some s => find (fun k => String.eqb (Py.str k) s) Rating.choices
  end.

End RatingForm.

(** ** Views (music/views.py) *)

Section Views.

(** [request.user]; every view is behind [login_required]. *)
Variable user : User.t.

(** [Q(is_public=True) | Q(uploaded_by=request.user)] *)
Definition visible (s : Song.t) : bool :=
  Song.is_public s || Nat.eqb (Song.uploaded_by s) (User.pk user).

(** The orderings a song queryset can take. *)
Definition by_upload_date_desc (a b : Song.t) : bool :=
  Nat.leb (Song.upload_date b) (Song.upload_date a).
Definition by_title (a b : Song.t) : bool :=
  String.leb (Song.title a) (Song.title b).
Definition by_play_count_desc (a b : Song.t) : bool :=
  Z.leb (Song.play_count b) (Song.play_count a).
Definition artist__name (db : DB) (s : Song.t) : string :=
  match find (fun a => Nat.eqb (Artist.pk a) (Song.artist s)) (artists db) with
  | Some a => Artist.name a
  | None => ""
  end.
Definition by_artist_name (db : DB) (a b : Song.t) : bool :=
  String.leb (artist__name db a) (artist__name db b).

(** [Song.Meta.ordering = ['-upload_date']] *)
Definition Song_objects (db : DB) : list Song.t :=
  ORM.order_by by_upload_date_desc (songs db).

(** [songs.filter(field_id=value)] for a value taken from the query
    string; the value is converted with [int].  An integer outside the
    64-bit range of the key column is not modelled: the properties that
    depend on it take filter values of at most 18 characters. *)
Definition filter_id (param : option string) (field : Song.t -> option nat)
           (qs : list Song.t) : Exception + list Song.t :=
  match param with
  | None => inr qs
  | Some s =>
      if String.eqb s "" then inr qs
      else match Py.int s with
           | None => inl ValueError
           | Some n =>
               inr (filter (fun x => match field x with
                                     | Some k => Z.eqb (Z.of_nat k) n
                                     | None => false
                                     end) qs)
           end
  end.

Definition valid_sorts : list string :=
  ["-upload_date"; "title"; "-play_count"; "artist__name"].

(** [songs.order_by(sort_by)] for the keys of [valid_sorts]. *)
Definition order_songs (db : DB) (sort_by : string) (qs : list Song.t) : list Song.t :=
  if String.eqb sort_by "-upload_date" then ORM.order_by by_upload_date_desc qs
  else if String.eqb sort_by "title" then ORM.order_by by_title qs
  else if String.eqb sort_by "-play_count" then ORM.order_by by_play_count_desc qs
  else if String.eqb sort_by "artist__name" then ORM.order_by (by_artist_name db) qs
  else qs.

(** The queryset of song_list before pagination. *)
Definition song_list_queryset (db : DB) (genre artist album sort : option string)
  : Exception + list Song.t :=
  let songs := filter visible (Song_objects db) in
  match filter_id genre Song.genre songs with
  | inl e => inl e
  | inr songs =>
      match filter_id artist (fun s => Some (Song.artist s)) songs with
      | inl e => inl e
      | inr songs =>
          match filter_id album Song.album songs with
          | inl e => inl e
          | inr songs =>
              let sort_by := match sort with Some s => s | None => "-upload_date" end in
              inr (if existsb (String.eqb sort_by) valid_sorts
                   then order_songs db sort_by songs
                   else songs)
          end
      end
  end.

(** The context of song_list.  The three option lists hold the rows of
    their tables; the order in which each model's default ordering lists
    them is not modelled, and no property reads it. *)
Record song_list_context := mk_song_list_context {
  ctx_songs : Paginator.Page Song.t;
  ctx_genres : list Genre.t;
  ctx_artists : list Artist.t;
  ctx_albums : list Album.t;
  current_sort : string
}.

Definition songs_per_page : Z := 20.
Definition artists_per_page : Z := 24.
Definition history_per_page : Z := 50.

Definition song_list (db : DB) (genre artist album sort page : option string)
  : Result song_list_context :=
  match song_list_queryset db genre artist album sort with
  | inl e => mkResult (Raised e) [] db
  | inr songs =>
      match Paginator.get_page songs songs_per_page page with
      | inl e => mkResult (Raised (PageError e)) [] db
      | inr pg =>
          mkResult
            (Content (mk_song_list_context pg (genres db) (artists db) (albums db)
                        (match sort with Some s => s | None => "-upload_date" end)))
            [] db
      end
  end.

Record song_detail_context := mk_song_detail_context {
  ctx_song : Song.t;
  is_favorite : bool;
  user_rating : option Rating.t;
  rating_count : nat;
  related_songs : list Song.t
}.

Definition song_detail (db : DB) (pk : nat) : Result song_detail_context :=
  match get_object_or_404 (fun s => Nat.eqb (Song.pk s) pk) (songs db) with
  | inl e => mkResult (Raised e) [] db
  | inr song =>
      (* Check if user can access this song *)
      if negb (Song.is_public song)
         && negb (Nat.eqb (Song.uploaded_by song) (User.pk user))
      then mkResult (Redirect "music:home" None)
                    [(error, "You do not have permission to view this song.")] db
      else
        let mine (u s : nat) := Nat.eqb u (User.pk user) && Nat.eqb s (Song.pk song) in
        mkResult
          (Content
             (mk_song_detail_context song
                (existsb (fun f => mine (Favorite.user f) (Favorite.song f)) (favorites db))
                (hd_error
                   (ORM.order_by
                      (fun a b => Nat.leb (Rating.created_at b) (Rating.created_at a))
                      (filter (fun r => mine (Rating.user r) (Rating.song r)) (ratings db))))
                (ORM.count (fun r => Nat.eqb (Rating.song r) (Song.pk song)) (ratings db))
                (firstn 6
                   (filter Song.is_public
                      (filter (fun s => negb (Nat.eqb (Song.pk s) (Song.pk song)))
                         (filter (fun s => Nat.eqb (Song.artist s) (Song.artist song)
                                           || match Song.genre s, Song.genre song with
                                              | Some g, Some g' => Nat.eqb g g'
                                              | None, None => true
                                              | _, _ => false
                                              end)
                            (Song_objects db)))))))
          [] db
  end.

(** Rendering of a form page: unbound, showing the initial state of the
    is_public checkbox (the instance's value, which for a new instance is
    the model default), or bound with its errors. *)
Inductive form_page := Unbound (initial_is_public : bool) | Invalid.

(** [song.save()] for a new row. *)
Definition Song_insert (now : nat) (d : SongUploadForm.data)
           (a : Artist.t) (al : option Album.t) (g : option Genre.t) (db : DB)
  : Song.t * DB :=
  let song :=
    Song.init (ORM.next_pk Song.pk (songs db)) (SongUploadForm.title d) (Artist.pk a)
              (option_map Album.pk al) (option_map Genre.pk g) (User.pk user) now
              (Some (SongUploadForm.is_public d)) in
  (song, with_songs (songs db ++ [song]) db).

(** [form.save()] on an existing row: the form's fields are written. *)
Definition Song_update (song : Song.t) (d : SongUploadForm.data)
           (a : Artist.t) (al : option Album.t) (g : option Genre.t) (db : DB) : DB :=
  with_songs
    (map (fun s =>
            if Nat.eqb (Song.pk s) (Song.pk song)
            then Song.mk (Song.pk s) (SongUploadForm.title d) (Artist.pk a)
                         (option_map Album.pk al) (option_map Genre.pk g)
                         (Song.uploaded_by song) (Song.upload_date s)
                         (Song.play_count song) (Song.download_count song)
                         (SongUploadForm.is_public d) (Song.is_featured song)
            else s)
         (songs db))
    db.

Definition upload_song (now : nat) (db : DB) (method : Method)
           (posted : SongUploadForm.data) : Result form_page :=
  match method with
  | POST =>
      match SongUploadForm.is_valid posted db with
      | inl e => mkResult (Raised (QueryError e)) [] db
      | inr (Some (a, al, g), db1) =>
          let '(song, db2) := Song_insert now posted a al g db1 in
          mkResult (Redirect "music:song_detail" (Some (Song.pk song)))
                   [(success, ("Song " ++ quote ++ Song.title song ++ quote
                               ++ " uploaded successfully!")%string)]
                   db2
      | inr (None, db1) =>
          mkResult (Content Invalid) [(error, "Please correct the errors below.")] db1
      end
  | GET => mkResult (Content (Unbound Song.is_public_default)) [] db
  end.

Definition edit_song (db : DB) (pk : nat) (method : Method)
           (posted : SongUploadForm.data) : Result form_page :=
  match get_object_or_404 (fun s => Nat.eqb (Song.pk s) pk) (songs db) with
  | inl e => mkResult (Raised e) [] db
  | inr song =>
      (* Only uploader can edit *)
      if negb (Nat.eqb (Song.uploaded_by song) (User.pk user))
         && negb (User.is_staff user)
      then mkResult (Redirect "music:song_detail" (Some (Song.pk song)))
                    [(error, "You do not have permission to edit this song.")] db
      else
        match method with
        | POST =>
            match SongUploadForm.is_valid posted db with
            | inl e => mkResult (Raised (QueryError e)) [] db
            | inr (Some (a, al, g), db1) =>
                mkResult (Redirect "music:song_detail" (Some (Song.pk song)))
                         [(success, ("Song " ++ quote ++ SongUploadForm.title posted
                                     ++ quote ++ " updated successfully!")%string)]
                         (Song_update song posted a al g db1)
            | inr (None, db1) => mkResult (Content Invalid) [] db1
            end
        | GET => mkResult (Content (Unbound (Song.is_public song))) [] db
        end
  end.

(** [song.delete()]: the row and, by cascade, the rows that refer to it. *)
Definition Song_delete (song : Song.t) (db : DB) : DB :=
  let other (k : nat) := negb (Nat.eqb k (Song.pk song)) in
  mkDB (filter (fun s => other (Song.pk s)) (songs db))
       (artists db) (albums db) (genres db)
       (map (fun p => Playlist.mk (Playlist.pk p) (Playlist.name p) (Playlist.user p)
                        (filter other (Playlist.songs p)) (Playlist.is_public p)
                        (Playlist.is_collaborative p) (Playlist.created_at p))
            (playlists db))
       (filter (fun f => other (Favorite.song f)) (favorites db))
       (filter (fun h => other (PlayHistory.song h)) (playhistory db))
       (filter (fun r => other (Rating.song r)) (ratings db)).

Definition delete_song (db : DB) (pk : nat) (method : Method) : Result unit :=
  match method with
  | GET => mkResult NotAllowed [] db
  | POST =>
      match get_object_or_404 (fun s => Nat.eqb (Song.pk s) pk) (songs db) with
      | inl e => mkResult (Raised e) [] db
      | inr song =>
          (* Only uploader or admin can delete *)
          if negb (Nat.eqb (Song.uploaded_by song) (User.pk user))
             && negb (User.is_staff user)
          then mkResult (Redirect "music:song_detail" (Some (Song.pk song)))
                        [(error, "You do not have permission to delete this song.")] db
          else mkResult (Redirect "music:song_list" None)
                        [(success, ("Song " ++ quote ++ Song.title song ++ quote
                                    ++ " deleted successfully.")%string)]
                        (Song_delete song db)
      end
  end.

(** [self.save(update_fields=[...])]: the named column of the row with
    this primary key is overwritten with the instance's value. *)
Definition Song_save (write : Song.t -> Song.t) (song : Song.t) (db : DB) : DB :=
  with_songs
    (map (fun s => if Nat.eqb (Song.pk s) (Song.pk song) then write s else s) (songs db))
    db.

(** [Song.increment_play_count] *)
Definition increment_play_count (song : Song.t) (db : DB) : Song.t * DB :=
  let song := Song.set_play_count (Song.play_count song + 1) song in
  (song, Song_save (Song.set_play_count (Song.play_count song)) song db).

(** [Song.increment_download_count] *)
Definition increment_download_count (song : Song.t) (db : DB) : Song.t * DB :=
  let song := Song.set_download_count (Song.download_count song + 1) song in
  (song, Song_save (Song.set_download_count (Song.download_count song)) song db).

(** [PlayHistory.objects.create(user=..., song=...)] *)
Definition PlayHistory_create (now : nat) (song : Song.t) (db : DB) : DB :=
  with_playhistory
    (playhistory db
     ++ [PlayHistory.mk (ORM.next_pk PlayHistory.pk (playhistory db))
                        (User.pk user) (Song.pk song) now
                        PlayHistory.completed_default])
    db.

Record play_json := mk_play_json {
  status : string;
  json_play_count : Z;
  json_message : string
}.

Definition play_song (now : nat) (db : DB) (pk : nat) : Result play_json :=
  match get_object_or_404 (fun s => Nat.eqb (Song.pk s) pk) (songs db) with
  | inl e => mkResult (Raised e) [] db
  | inr song =>
      (* Increment play count *)
      let '(song, db1) := increment_play_count song db in
      (* Create play history record *)
      let db2 := PlayHistory_create now song db1 in
      mkResult (Content (mk_play_json "success" (Song.play_count song)
                                      ("Playing " ++ Song.title song)%string))
               [] db2
  end.

Definition download_song (db : DB) (pk : nat) : Result Song.t :=
  match get_object_or_404 (fun s => Nat.eqb (Song.pk s) pk) (songs db) with
  | inl e => mkResult (Raised e) [] db
  | inr song =>
      (* Check permissions *)
      if negb (Song.is_public song)
         && negb (Nat.eqb (Song.uploaded_by song) (User.pk user))
      then mkResult (Redirect "music:home" None)
                    [(error, "You do not have permission to download this song.")] db
      else
        let '(song, db1) := increment_download_count song db in
        mkResult (Content song) [] db1
  end.

(** *** Playlists *)

Record playlist_detail_context := mk_playlist_detail_context {
  ctx_playlist : Playlist.t;
  ctx_playlist_songs : list Song.t;
  is_owner : bool
}.

Definition playlist_detail (db : DB) (pk : nat) : Result playlist_detail_context :=
  match get_object_or_404 (fun p => Nat.eqb (Playlist.pk p) pk) (playlists db) with
  | inl e => mkResult (Raised e) [] db
  | inr playlist =>
      (* Check permission *)
      if negb (Playlist.is_public playlist)
         && negb (Nat.eqb (Playlist.user playlist) (User.pk user))
      then mkResult (Redirect "music:playlist_list" None)
                    [(error, "You do not have permission to view this playlist.")] db
      else
        mkResult
          (Content
             (mk_playlist_detail_context playlist
                (filter (fun s => existsb (Nat.eqb (Song.pk s)) (Playlist.songs playlist))
                        (Song_objects db))
                (Nat.eqb (Playlist.user playlist) (User.pk user))))
          [] db
  end.

(** [PlaylistForm]: the posted fields after cleaning; [field_errors]
    covers [clean_cover_image] and the per-field checks. *)
Record playlist_data := mk_playlist_data {
  posted_name : string;
  posted_is_public : bool;
  posted_is_collaborative : bool;
  playlist_field_errors : bool
}.

Definition Playlist_update (playlist : Playlist.t) (d : playlist_data) (db : DB) : DB :=
  with_playlists
    (map (fun p =>
            if Nat.eqb (Playlist.pk p) (Playlist.pk playlist)
            then Playlist.mk (Playlist.pk p) (posted_name d) (Playlist.user playlist)
                             (Playlist.songs p) (posted_is_public d)
                             (posted_is_collaborative d) (Playlist.created_at playlist)
            else p)
         (playlists db))
    db.

(** [playlist.save()] for a new row owned by the requester. *)
Definition Playlist_insert (now : nat) (d : playlist_data) (db : DB) : Playlist.t * DB :=
  let playlist :=
    Playlist.init (ORM.next_pk Playlist.pk (playlists db)) (posted_name d)
                  (User.pk user) now
                  (Some (posted_is_public d)) (Some (posted_is_collaborative d)) in
  (playlist, with_playlists (playlists db ++ [playlist]) db).

Definition create_playlist (now : nat) (db : DB) (method : Method) (posted : playlist_data)
  : Result form_page :=
  match method with
  | POST =>
      if playlist_field_errors posted then mkResult (Content Invalid) [] db
      else
        let '(playlist, db1) := Playlist_insert now posted db in
        mkResult (Redirect "music:playlist_detail" (Some (Playlist.pk playlist)))
                 [(success, ("Playlist " ++ quote ++ Playlist.name playlist ++ quote
                             ++ " created successfully!")%string)]
                 db1
  | GET => mkResult (Content (Unbound Playlist.is_public_default)) [] db
  end.

(** The lookup [pk=pk, user=request.user] of edit_playlist and
    delete_playlist. *)
Definition own_playlist (pk : nat) (p : Playlist.t) : bool :=
  Nat.eqb (Playlist.pk p) pk && Nat.eqb (Playlist.user p) (User.pk user).

Definition edit_playlist (db : DB) (pk : nat) (method : Method) (posted : playlist_data)
  : Result form_page :=
  match get_object_or_404 (own_playlist pk) (playlists db) with
  | inl e => mkResult (Raised e) [] db
  | inr playlist =>
      match method with
      | POST =>
          if playlist_field_errors posted then mkResult (Content Invalid) [] db
          else mkResult (Redirect "music:playlist_detail" (Some (Playlist.pk playlist)))
                        [(success, ("Playlist " ++ quote ++ posted_name posted ++ quote
                                    ++ " updated successfully!")%string)]
                        (Playlist_update playlist posted db)
      | GET => mkResult (Content (Unbound (Playlist.is_public playlist))) [] db
      end
  end.

Definition delete_playlist (db : DB) (pk : nat) (method : Method) : Result unit :=
  match method with
  | GET => mkResult NotAllowed [] db
  | POST =>
      match get_object_or_404 (own_playlist pk) (playlists db) with
      | inl e => mkResult (Raised e) [] db
      | inr playlist =>
          mkResult (Redirect "music:playlist_list" None)
                   [(success, ("Playlist " ++ quote ++ Playlist.name playlist ++ quote
                               ++ " deleted successfully.")%string)]
                   (with_playlists
                      (filter (fun p => negb (Nat.eqb (Playlist.pk p) (Playlist.pk playlist)))
                              (playlists db))
                      db)
      end
  end.

(** *** Favorites *)

Definition favorite_of (song : Song.t) (f : Favorite.t) : bool :=
  Nat.eqb (Favorite.user f) (User.pk user) && Nat.eqb (Favorite.song f) (Song.pk song).

(** The insert, under [unique_together = ('user', 'song')]. *)
Definition Favorite_create (now : nat) (song : Song.t) (db : DB)
  : ORM.error + (Favorite.t * DB) :=
  if existsb (favorite_of song) (favorites db) then inl ORM.IntegrityError
  else
    let f := Favorite.mk (ORM.next_pk Favorite.pk (favorites db))
                         (User.pk user) (Song.pk song) now in
    inr (f, with_favorites (favorites db ++ [f]) db).

(** [Favorite.objects.get_or_create(user=request.user, song=song)] *)
Definition Favorite_get_or_create (now : nat) (song : Song.t) (db : DB)
  : ORM.error + (Favorite.t * bool * DB) :=
  match ORM.get (favorite_of song) (favorites db) with
  | inr f => inr (f, false, db)
  | inl ORM.DoesNotExist =>
      match Favorite_create now song db with
      | inr (f, db') => inr (f, true, db')
      | inl e =>
          match ORM.get (favorite_of song) (favorites db) with
          | inr f => inr (f, false, db)
          | inl _ => inl e
          end
      end
  | inl e => inl e
  end.

(** [favorite.delete()] *)
Definition Favorite_delete (f : Favorite.t) (db : DB) : DB :=
  with_favorites
    (filter (fun g => negb (Nat.eqb (Favorite.pk g) (Favorite.pk f))) (favorites db)) db.

(** The JSON body [{'is_favorite': ...}] of an AJAX call; other calls are
    redirected to the song's page. *)
Definition toggle_favorite (now : nat) (db : DB) (song_pk : nat)
           (method : Method) (ajax : bool) : Result bool :=
  match method with
  | GET => mkResult NotAllowed [] db
  | POST =>
      match get_object_or_404 (fun s => Nat.eqb (Song.pk s) song_pk) (songs db) with
      | inl e => mkResult (Raised e) [] db
      | inr song =>
          match Favorite_get_or_create now song db with
          | inl e => mkResult (Raised (QueryError e)) [] db
          | inr (favorite, created, db1) =>
              let '(is_favorite, msg, db2) :=
                if negb created
                then (false,
                      (info, ("Removed " ++ quote ++ Song.title song ++ quote
                              ++ " from favorites")%string),
                      Favorite_delete favorite db1)
                else (true,
                      (success, ("Added " ++ quote ++ Song.title song ++ quote
                                 ++ " to favorites")%string),
                      db1) in
              mkResult (if ajax then Content is_favorite
                        else Redirect "music:song_detail" (Some (Song.pk song)))
                       [msg] db2
          end
      end
  end.

(** *** Ratings *)

Definition rating_of (song : Song.t) (r : Rating.t) : bool :=
  Nat.eqb (Rating.user r) (User.pk user) && Nat.eqb (Rating.song r) (Song.pk song).

(** The insert, under [unique_together = ('user', 'song')]. *)
Definition Rating_create (now : nat) (song : Song.t) (value : Z) (db : DB)
  : ORM.error + (Rating.t * DB) :=
  if existsb (rating_of song) (ratings db) then inl ORM.IntegrityError
  else
    let r := Rating.mk (ORM.next_pk Rating.pk (ratings db))
                       (Song.pk song) (User.pk user) value now now in
    inr (r, with_ratings (ratings db ++ [r]) db).

(** [Rating.objects.update_or_create(user=..., song=...,
    defaults={'rating': value})]: the existing row gets the new value and
    a new [updated_at]; without one, a row is created. *)
Definition Rating_update_or_create (now : nat) (song : Song.t) (value : Z) (db : DB)
  : ORM.error + (Rating.t * bool * DB) :=
  let update (r : Rating.t) :=
    let r' := Rating.set_rating value now r in
    inr (r', false,
         with_ratings
           (map (fun x => if Nat.eqb (Rating.pk x) (Rating.pk r) then r' else x)
                (ratings db))
           db) in
  match ORM.get (rating_of song) (ratings db) with
  | inr r => update r
  | inl ORM.DoesNotExist =>
      match Rating_create now song value db with
      | inr (r, db') => inr (r, true, db')
      | inl e =>
          match ORM.get (rating_of song) (ratings db) with
          | inr r => update r
          | inl _ => inl e
          end
      end
  | inl e => inl e
  end.

Definition add_rating (now : nat) (db : DB) (song_pk : nat) (method : Method)
           (posted_rating : option string) : Result unit :=
  match method with
  | GET => mkResult NotAllowed [] db
  | POST =>
      match get_object_or_404 (fun s => Nat.eqb (Song.pk s) song_pk) (songs db) with
      | inl e => mkResult (Raised e) [] db
      | inr song =>
          match RatingForm.is_valid posted_rating with
          | Some rating_value =>
              match Rating_update_or_create now song rating_value db with
              | inl e => mkResult (Raised (QueryError e)) [] db
              | inr (_, created, db1) =>
                  mkResult (Redirect "music:song_detail" (Some (Song.pk song)))
                           [(success,
                             if created
                             then ("Rated " ++ quote ++ Song.title song ++ quote ++ " "
                                   ++ Py.str rating_value ++ "/5 stars!")%string
                             else ("Updated rating to " ++ Py.str rating_value
                                   ++ "/5 stars!")%string)]
                           db1
              end
          | None => mkResult (Redirect "music:song_detail" (Some (Song.pk song))) [] db
          end
      end
  end.

(** *** Artists, history and statistics *)

(** The queryset of artist_list:
    [Artist.objects.annotate(song_count=Count('songs')).order_by('name')]. *)
Definition artist_list_queryset (db : DB) : list (Artist.t * nat) :=
  ORM.order_by
    (fun a b => String.leb (Artist.name (fst a)) (Artist.name (fst b)))
    (map (fun a => (a, ORM.count (fun s => Nat.eqb (Song.artist s) (Artist.pk a))
                                 (songs db)))
         (artists db)).

(** artist_list.  The paginator only counts the queryset; the rows of the
    page are built when the page is rendered.  Building an Artist from an
    annotated row sets the attribute [song_count] on the instance, and
    [Artist.song_count] is a property without a setter: the first row
    raises AttributeError.  A page without rows renders. *)
Definition artist_list (db : DB) (page : option string)
  : Result (Paginator.Page (Artist.t * nat)) :=
  let artists := artist_list_queryset db in
  match Paginator.get_page artists artists_per_page page with
  | inl e => mkResult (Raised (PageError e)) [] db
  | inr pg =>
      match Paginator.object_list pg with
      | [] => mkResult (Content pg) [] db
      | _ :: _ => mkResult (Raised AttributeError) [] db
      end
  end.

Definition by_user (h : PlayHistory.t) : bool :=
  Nat.eqb (PlayHistory.user h) (User.pk user).

Definition play_history (db : DB) (page : option string)
  : Result (Paginator.Page PlayHistory.t) :=
  let history :=
    ORM.order_by
      (fun a b => Nat.leb (PlayHistory.played_at b) (PlayHistory.played_at a))
      (filter by_user (playhistory db)) in
  match Paginator.get_page history history_per_page page with
  | inl e => mkResult (Raised (PageError e)) [] db
  | inr pg => mkResult (Content pg) [] db
  end.

(** [.values('song').annotate(play_count=Count('song'))]: one row per
    distinct song with the number of history rows of that song.  The query
    names no order among the groups; they are taken by descending song key,
    which is the order in which SQLite, the database of a stock Django
    project, returns groups of equal count for this query. *)
Definition values_song_count (rows : list PlayHistory.t) : list (nat * nat) :=
  map (fun k => (k, count_occ Nat.eq_dec (map PlayHistory.song rows) k))
      (ORM.order_by (fun a b => Nat.leb b a)
                    (nodup Nat.eq_dec (map PlayHistory.song rows))).

Definition by_count_desc (a b : nat * nat) : bool := Nat.leb (snd b) (snd a).

(** The [most_played] queryset of user_stats. *)
Definition most_played (db : DB) : list (nat * nat) :=
  firstn 10
    (ORM.order_by by_count_desc
       (values_song_count (filter by_user (playhistory db)))).

Fixpoint most_played_songs (db : DB) (items : list (nat * nat))
  : Exception + list (Song.t * nat) :=
  match items with
  | [] => inr []
  | (song_pk, plays) :: rest =>
      match ORM.get (fun s => Nat.eqb (Song.pk s) song_pk) (songs db) with
      | inl e => inl (QueryError e)
      | inr song =>
          match most_played_songs db rest with
          | inl e => inl e
          | inr l => inr ((song, plays) :: l)
          end
      end
  end.

Record user_stats_context := mk_user_stats_context {
  total_uploads : nat;
  total_playlists : nat;
  total_favorites : nat;
  total_plays : nat;
  ctx_most_played_songs : list (Song.t * nat)
}.

Definition user_stats (db : DB) : Result user_stats_context :=
  match most_played_songs db (most_played db) with
  | inl e => mkResult (Raised e) [] db
  | inr l =>
      mkResult
        (Content
           (mk_user_stats_context
              (ORM.count (fun s => Nat.eqb (Song.uploaded_by s) (User.pk user)) (songs db))
              (ORM.count (fun p => Nat.eqb (Playlist.user p) (User.pk user)) (playlists db))
              (ORM.count (fun f => Nat.eqb (Favorite.user f) (User.pk user)) (favorites db))
              (ORM.count by_user (playhistory db))
              l))
        [] db
  end.

End Views.


(** ** Vocabulary of the statements *)

(** The songs on the page a listing request shows. *)
Definition listed (r : Result song_list_context) (s : Song.t) : Prop :=
  match response r with
  | Content c => In s (Paginator.object_list (ctx_songs c))
  | _ => False
  end.

(** A page parameter that [int] rejects, or none at all. *)
Definition not_an_integer (param : option string) : Prop :=
  match param with
  | None => True
  | Some s => Py.int s = None
  end.

(** The row of a song, looked up by primary key. *)
Definition song_by_pk (db : DB) (pk : nat) : ORM.error + Song.t :=
  ORM.get (fun s => Nat.eqb (Song.pk s) pk) (songs db).

(** The number of PlayHistory rows of a user and a song. *)
Definition plays_of (user : User.t) (db : DB) (song_pk : nat) : nat :=
  ORM.count (fun h => Nat.eqb (PlayHistory.user h) (User.pk user)
                      && Nat.eqb (PlayHistory.song h) song_pk)
            (playhistory db).

(** One call of play_song per time stamp, in sequence. *)
Fixpoint play_times (user : User.t) (nows : list nat) (db : DB) (pk : nat) : DB :=
  match nows with
  | [] => db
  | now :: rest => play_times user rest (store (play_song user now db pk)) pk
  end.


(** The number of Favorite rows of a user and a song. *)
Definition favorite_count (user : User.t) (db : DB) (song_pk : nat) : nat :=
  ORM.count (fun f => Nat.eqb (Favorite.user f) (User.pk user)
                      && Nat.eqb (Favorite.song f) song_pk)
            (favorites db).

(** The Rating rows of a user and a song. *)
Definition ratings_of (user : User.t) (db : DB) (song_pk : nat) : list Rating.t :=
  filter (fun r => Nat.eqb (Rating.user r) (User.pk user)
                   && Nat.eqb (Rating.song r) song_pk)
         (ratings db).

(** ** A small store for the examples *)

Definition alice : User.t := User.mk 1 "alice" false.
Definition bob : User.t := User.mk 2 "bob" false.
Definition admin : User.t := User.mk 3 "admin" true.

Definition creep : Song.t := Song.mk 1 "Creep" 1 None None 1 10 0 0 true false.
Definition airbag : Song.t := Song.mk 2 "Airbag" 1 None None 1 20 0 0 false false.
Definition mix : Playlist.t := Playlist.mk 1 "Mix" 1 [1] false false 5.

Definition sample_db : DB :=
  mkDB [creep; airbag] [Artist.mk 1 "Radiohead"] [] [] [mix] [] [] [].


(** The row of a playlist, looked up by primary key. *)
Definition playlist_by_pk (db : DB) (pk : nat) : ORM.error + Playlist.t :=
  ORM.get (fun p => Nat.eqb (Playlist.pk p) pk) (playlists db).

(** Some posted form contents for the examples. *)
Definition renamed_mix : playlist_data := mk_playlist_data "Stolen" true false false.


(** A playlist created without saying whether it is public. *)
Definition fresh_playlist : Playlist.t := Playlist.init 7 "New" 1 60 None None.
Definition fresh_db : DB := with_playlists [fresh_playlist] sample_db.


(** The catalog rows with a given natural key. *)
Definition artists_named (db : DB) (name : string) : list Artist.t :=
  filter (fun a => String.eqb (Artist.name a) name) (artists db).

Definition albums_named (db : DB) (title : string) (artist_pk : nat) : list Album.t :=
  filter (fun a => String.eqb (Album.title a) title && Nat.eqb (Album.artist a) artist_pk)
         (albums db).

Definition genres_named (db : DB) (name : string) : list Genre.t :=
  filter (fun g => String.eqb (Genre.name g) name) (genres db).


(** ** most_played as the specification words it *)

(** The latest play of a song among some history rows. *)
Definition last_played (rows : list PlayHistory.t) (song_pk : nat) : nat :=
  fold_right Nat.max 0
    (map PlayHistory.played_at
         (filter (fun h => Nat.eqb (PlayHistory.song h) song_pk) rows)).

(** Group the user's history by song, count, order by count descending with
    ties broken by the most recent play first, keep [limit] rows. *)
Definition most_played_spec (user : User.t) (db : DB) (limit : nat) : list (nat * nat) :=
  let rows := filter (by_user user) (playhistory db) in
  firstn limit
    (ORM.order_by
       (fun a b => Nat.ltb (snd b) (snd a)
                   || (Nat.eqb (snd a) (snd b)
                       && Nat.leb (last_played rows (fst b)) (last_played rows (fst a))))
       (values_song_count rows)).

(** Stores with play history for the examples: alice played song 1 three
    times, song 2 five times and song 3 once; then two songs once each, song
    1 last; then eleven songs once each. *)
Definition played (pk song at_time : nat) : PlayHistory.t :=
  PlayHistory.mk pk 1 song at_time false.

Definition stats_db : DB :=
  mkDB [creep; airbag; Song.mk 3 "Lucky" 1 None None 2 30 0 0 true false]
       [Artist.mk 1 "Radiohead"] [] [] [] []
       [played 1 1 100; played 2 2 101; played 3 2 102; played 4 1 103;
        played 5 3 104; played 6 2 105; played 7 2 106; played 8 1 107;
        played 9 2 108]
       [].

Definition tie_db : DB :=
  mkDB [creep; airbag] [Artist.mk 1 "Radiohead"] [] [] [] []
       [played 1 2 100; played 2 1 101] [].

Definition eleven_db : DB :=
  mkDB [] [] [] [] [] [] (map (fun k => played k k (100 + k)) (seq 1 11)) [].


(** * The remaining views *)

Section MoreViews.

Variable user : User.t.

(** [Playlist.Meta.ordering = ['-created_at']] *)
Definition Playlist_objects (db : DB) : list Playlist.t :=
  ORM.order_by (fun a b => Nat.leb (Playlist.created_at b) (Playlist.created_at a))
               (playlists db).

(** [request.user.playlists.all()] *)
Definition user_playlists (db : DB) : list Playlist.t :=
  filter (fun p => Nat.eqb (Playlist.user p) (User.pk user)) (Playlist_objects db).

(** [PlayHistory.Meta.ordering = ['-played_at']] *)
Definition PlayHistory_objects (db : DB) : list PlayHistory.t :=
  ORM.order_by (fun a b => Nat.leb (PlayHistory.played_at b) (PlayHistory.played_at a))
               (playhistory db).

Record home_context := mk_home_context {
  recent_songs : list Song.t;
  popular_songs : list Song.t;
  featured_songs : list Song.t;
  home_user_playlists : list Playlist.t;
  recent_plays : list PlayHistory.t;
  total_songs : nat;
  total_artists : nat;
  total_albums : nat
}.

Definition home (db : DB) : Result home_context :=
  mkResult
    (Content
       (mk_home_context
          (* Get recent songs (last 10) *)
          (firstn 10 (ORM.order_by by_upload_date_desc (filter Song.is_public (songs db))))
          (* Get popular songs (by play count) *)
          (firstn 10 (ORM.order_by by_play_count_desc (filter Song.is_public (songs db))))
          (* Get featured songs *)
          (firstn 5 (filter (fun s => Song.is_public s && Song.is_featured s)
                            (Song_objects db)))
          (firstn 5 (user_playlists db))
          (firstn 5 (filter (by_user user) (PlayHistory_objects db)))
          (ORM.count Song.is_public (songs db))
          (List.length (artists db))
          (List.length (albums db))))
    [] db.

Record playlist_list_context := mk_playlist_list_context {
  my_playlists : list Playlist.t;
  public_playlists : list Playlist.t
}.

Definition playlist_list (db : DB) : Result playlist_list_context :=
  mkResult
    (Content
       (mk_playlist_list_context
          (* User's own playlists *)
          (user_playlists db)
          (* Public playlists from other users *)
          (firstn 10
             (filter (fun p => negb (Nat.eqb (Playlist.user p) (User.pk user)))
                     (filter Playlist.is_public (Playlist_objects db))))))
    [] db.

(** [get_object_or_404(Playlist, pk=playlist_id, user=request.user)] with the
    key as posted: a missing key matches no row, a key that is not an
    integer makes the lookup raise. *)
Definition posted_playlist (db : DB) (playlist_id : option string)
  : Exception + Playlist.t :=
  match playlist_id with
  | None => inl Http404
  | Some s =>
      match Py.int s with
      | None => inl ValueError
      | Some n =>
          get_object_or_404
            (fun p => Z.eqb (Z.of_nat (Playlist.pk p)) n
                      && Nat.eqb (Playlist.user p) (User.pk user))
            (playlists db)
      end
  end.

(** [playlist.songs.add(song)] and [playlist.songs.remove(song)] *)
Definition Playlist_set_songs (playlist : Playlist.t) (members : list nat) (db : DB) : DB :=
  with_playlists
    (map (fun p =>
            if Nat.eqb (Playlist.pk p) (Playlist.pk playlist)
            then Playlist.mk (Playlist.pk p) (Playlist.name p) (Playlist.user p)
                             members (Playlist.is_public p)
                             (Playlist.is_collaborative p) (Playlist.created_at p)
            else p)
         (playlists db))
    db.

Record add_to_playlist_context := mk_add_to_playlist_context {
  add_song : Song.t;
  add_playlists : list Playlist.t
}.

Definition add_to_playlist (db : DB) (song_pk : nat) (method : Method)
           (playlist_id : option string) : Result add_to_playlist_context :=
  match get_object_or_404 (fun s => Nat.eqb (Song.pk s) song_pk) (songs db) with
  | inl e => mkResult (Raised e) [] db
  | inr song =>
      match method with
      | POST =>
          match posted_playlist db playlist_id with
          | inl e => mkResult (Raised e) [] db
          | inr playlist =>
              (* Check if song already in playlist *)
              if existsb (Nat.eqb (Song.pk song)) (Playlist.songs playlist)
              then mkResult (Redirect "music:song_detail" (Some (Song.pk song)))
                            [(warning, (quote ++ Song.title song ++ quote
                                        ++ " is already in " ++ quote
                                        ++ Playlist.name playlist ++ quote)%string)]
                            db
              else mkResult (Redirect "music:song_detail" (Some (Song.pk song)))
                            [(success, ("Added " ++ quote ++ Song.title song ++ quote
                                        ++ " to " ++ quote ++ Playlist.name playlist
                                        ++ quote)%string)]
                            (Playlist_set_songs playlist
                               (Playlist.songs playlist ++ [Song.pk song]) db)
          end
      | GET =>
          mkResult (Content (mk_add_to_playlist_context song (user_playlists db))) [] db
      end
  end.

Definition remove_from_playlist (db : DB) (playlist_pk song_pk : nat) (method : Method)
  : Result unit :=
  match method with
  | GET => mkResult NotAllowed [] db
  | POST =>
      match get_object_or_404 (own_playlist user playlist_pk) (playlists db) with
      | inl e => mkResult (Raised e) [] db
      | inr playlist =>
          match get_object_or_404 (fun s => Nat.eqb (Song.pk s) song_pk) (songs db) with
          | inl e => mkResult (Raised e) [] db
          | inr song =>
              mkResult (Redirect "music:playlist_detail" (Some (Playlist.pk playlist)))
                       [(success, ("Removed " ++ quote ++ Song.title song ++ quote
                                   ++ " from " ++ quote ++ Playlist.name playlist
                                   ++ quote)%string)]
                       (Playlist_set_songs playlist
                          (filter (fun k => negb (Nat.eqb k (Song.pk song)))
                                  (Playlist.songs playlist))
                          db)
          end
      end
  end.

(** The view [favorites]: the requester's Favorite rows, newest first. *)
Definition favorites_page (db : DB) : Result (list Favorite.t) :=
  mkResult
    (Content
       (filter (fun f => Nat.eqb (Favorite.user f) (User.pk user))
               (ORM.order_by (fun a b => Nat.leb (Favorite.added_at b) (Favorite.added_at a))
                             (favorites db))))
    [] db.

End MoreViews.


(** ** Views and model properties that read columns the records leave out *)

(** Case-insensitive containment, as [icontains] on ASCII text. *)
Definition lower (c : ascii) : ascii :=
  let n := nat_of_ascii c in
  if ((65 <=? n) && (n <=? 90))%nat then ascii_of_nat (n + 32) else c.

Fixpoint starts_with (needle hay : list ascii) : bool :=
  match needle, hay with
  | [], _ => true
  | _ :: _, [] => false
  | a :: n, b :: h => Ascii.eqb a b && starts_with n h
  end.

Fixpoint contains_chars (needle hay : list ascii) : bool :=
  starts_with needle hay
  || match hay with
     | [] => false
     | _ :: h => contains_chars needle h
     end.

Definition icontains (field query : string) : bool :=
  contains_chars (map lower (list_ascii_of_string query))
                 (map lower (list_ascii_of_string field)).

Section Columns.

(** [Song.lyrics], [Song.duration] (a timedelta, in microseconds) and the
    default ordering of Album ([-release_date], then [title]) depend on
    columns that the records do not carry; they are taken as given.
    [Album_objects db] stands for the rows of [albums db] in that order;
    where a property needs this it says so. *)
Variable lyrics : Song.t -> string.
Variable duration : Song.t -> option Z.
Variable Album_objects : DB -> list Album.t.

Variable user : User.t.

(** [Artist.Meta.ordering = ['name']] *)
Definition Artist_objects (db : DB) : list Artist.t :=
  ORM.order_by (fun a b => String.leb (Artist.name a) (Artist.name b)) (artists db).

(** [album__title] through the nullable foreign key. *)
Definition album__title (db : DB) (s : Song.t) : option string :=
  match Song.album s with
  | None => None
  | Some k => option_map Album.title (find (fun a => Nat.eqb (Album.pk a) k) (albums db))
  end.

Definition album_artist__name (db : DB) (a : Album.t) : string :=
  match find (fun x => Nat.eqb (Artist.pk x) (Album.artist a)) (artists db) with
  | Some x => Artist.name x
  | None => ""
  end.

(** The four-way match of the song search. *)
Definition song_matches (db : DB) (query : string) (s : Song.t) : bool :=
  icontains (Song.title s) query
  || icontains (artist__name db s) query
  || match album__title db s with
     | Some t => icontains t query
     | None => false
     end
  || icontains (lyrics s) query.

Record search_context := mk_search_context {
  search_query : string;
  search_songs : list Song.t;
  search_artists : list Artist.t;
  search_albums : list Album.t;
  song_count : nat;
  artist_count : nat;
  album_count : nat
}.

Definition search (db : DB) (q : option string) : Result search_context :=
  let query := Py.strip (match q with Some s => s | None => "" end) in
  let '(songs, artists, albums) :=
    if negb (String.eqb query "")
    then
      (firstn 50 (filter (visible user) (filter (song_matches db query) (Song_objects db))),
       firstn 20 (filter (fun a => icontains (Artist.name a) query) (Artist_objects db)),
       firstn 20 (filter (fun a => icontains (Album.title a) query
                                   || icontains (album_artist__name db a) query)
                         (Album_objects db)))
    else ([], [], []) in
  mkResult
    (Content (mk_search_context query songs artists albums
                                (List.length songs) (List.length artists)
                                (List.length albums)))
    [] db.

Record artist_detail_context := mk_artist_detail_context {
  detail_artist : Artist.t;
  detail_artist_songs : list Song.t;
  detail_artist_albums : list Album.t
}.

Definition artist_detail (db : DB) (pk : nat) : Result artist_detail_context :=
  match get_object_or_404 (fun a => Nat.eqb (Artist.pk a) pk) (artists db) with
  | inl e => mkResult (Raised e) [] db
  | inr artist =>
      mkResult
        (Content
           (mk_artist_detail_context artist
              (filter (visible user)
                      (filter (fun s => Nat.eqb (Song.artist s) (Artist.pk artist))
                              (Song_objects db)))
              (filter (fun a => Nat.eqb (Album.artist a) (Artist.pk artist))
                      (Album_objects db))))
        [] db
  end.

Definition album_detail (db : DB) (pk : nat) : Result (Album.t * list Song.t) :=
  match get_object_or_404 (fun a => Nat.eqb (Album.pk a) pk) (albums db) with
  | inl e => mkResult (Raised e) [] db
  | inr album =>
      mkResult
        (Content
           (album,
            filter (visible user)
                   (filter (fun s => match Song.album s with
                                     | Some k => Nat.eqb k (Album.pk album)
                                     | None => false
                                     end)
                           (Song_objects db))))
        [] db
  end.

(** [format(n, '02d')] *)
Definition format_02d (n : Z) : string :=
  if (n <? 0)%Z then Py.str n
  else if (n <? 10)%Z then ("0" ++ Py.str n)%string
  else Py.str n.

(** [int(td.total_seconds())] for a timedelta of [us] microseconds.  The
    code divides in floating point and truncates; that is the quotient
    below for durations under 2^34 seconds, which is as far as the
    properties use it: from 17179869184999999 microseconds on the float
    can round up to the next second. *)
Definition total_seconds (us : Z) : Z := Z.quot us 1000000.

(** [Song.duration_formatted] *)
Definition duration_formatted (s : Song.t) : string :=
  match duration s with
  | Some us =>
      if Z.eqb us 0 then "0:00"
      else
        let total := total_seconds us in
        let minutes := (total / 60)%Z in
        let seconds := (total mod 60)%Z in
        (Py.str minutes ++ ":" ++ format_02d seconds)%string
  | None => "0:00"
  end.

(** [playlist.songs.all()] *)
Definition Playlist_songs (db : DB) (p : Playlist.t) : list Song.t :=
  filter (fun s => existsb (Nat.eqb (Song.pk s)) (Playlist.songs p)) (Song_objects db).

(** [Playlist.total_duration]; the loop adds from the left. *)
Definition Playlist_total_duration (db : DB) (p : Playlist.t) : Z :=
  fold_left (fun total song =>
               match duration song with
               | Some us => if Z.eqb us 0 then total else (total + us)%Z
               | None => total
               end)
            (Playlist_songs db p) 0%Z.

(** [Playlist.total_duration_formatted] *)
Definition Playlist_total_duration_formatted (db : DB) (p : Playlist.t) : string :=
  let total := total_seconds (Playlist_total_duration db p) in
  let hours := (total / 3600)%Z in
  let minutes := ((total mod 3600) / 60)%Z in
  if (hours >? 0)%Z then (Py.str hours ++ "h " ++ Py.str minutes ++ "m")%string
  else (Py.str minutes ++ "m")%string.

End Columns.


(** ** Comments *)

Module Comment.
Record t := mk {
  pk : nat; song : nat; user : nat; text : string;
  created_at : nat; updated_at : nat; is_edited : bool
}.
Definition is_edited_default : bool := false.
End Comment.

Module CommentForm.

Definition max_length : nat := 1000.

(** The [text] field on its own: stripped, required, free of NUL
    characters, at most 1000 characters.  A string is its bytes here, so
    the lengths below are those of the code for ASCII text only. *)
Definition clean_field (posted : option string) : option string :=
  match posted with
  | None => None
  | Some raw =>
      let value := Py.strip raw in
      if String.eqb value "" then None
      else if existsb (Ascii.eqb zero) (list_ascii_of_string value) then None
      else if (max_length <? String.length value)%nat then None
      else Some value
  end.

(** [CommentForm.clean_text] *)
Definition clean_text (text : string) : option string :=
  if negb (String.eqb text "") then
    let text := Py.strip text in
    if (String.length text <? 2)%nat then None else Some text
  else Some text.

(** [form.is_valid()] and the cleaned text. *)
Definition is_valid (posted : option string) : option string :=
  match clean_field posted with
  | Some value => clean_text value
  | None => None
  end.

End CommentForm.

(** add_comment; the Comment table is passed beside the store. *)
Definition add_comment (user : User.t) (now : nat) (db : DB) (comments : list Comment.t)
           (song_pk : nat) (method : Method) (posted_text : option string)
  : Result unit * list Comment.t :=
  match method with
  | GET => (mkResult NotAllowed [] db, comments)
  | POST =>
      match get_object_or_404 (fun s => Nat.eqb (Song.pk s) song_pk) (songs db) with
      | inl e => (mkResult (Raised e) [] db, comments)
      | inr song =>
          match CommentForm.is_valid posted_text with
          | Some text =>
              (mkResult (Redirect "music:song_detail" (Some (Song.pk song)))
                        [(success, "Comment added successfully!")] db,
               comments
               ++ [Comment.mk (ORM.next_pk Comment.pk comments) (Song.pk song)
                              (User.pk user) text now now Comment.is_edited_default])
          | None =>
              (mkResult (Redirect "music:song_detail" (Some (Song.pk song)))
                        [(error, "Error adding comment.")] db,
               comments)
          end
      end
  end.

(** ** Accounts (accounts/models.py, accounts/forms.py, accounts/views.py) *)

Module Accounts.

Record account := mk_account {
  pk : nat;
  username : string;
  email : string;
  first_name : string;
  last_name : string
}.

(** [User.full_name] *)
Definition full_name (u : account) : string :=
  if negb (String.eqb (first_name u) "") && negb (String.eqb (last_name u) "")
  then (first_name u ++ " " ++ last_name u)%string
  else if negb (String.eqb (first_name u) "") then first_name u
  else username u.

(** The posted fields after their own cleaning; [field_errors] stands for
    a failure of the checks the form inherits (password rules, formats).
    The user name arrives normalised from its form field, so the second
    normalisation in the model's [clean] leaves it as it is. *)
Record posted := mk_posted {
  posted_username : string;
  posted_email : string;
  posted_first_name : string;
  posted_last_name : string;
  field_errors : bool
}.

(** [UserRegisterForm.clean_email] and [clean_username]: [None] is the
    ValidationError. *)
Definition register_clean_email (users : list account) (e : string) : option string :=
  if existsb (fun u => String.eqb (email u) e) users then None else Some e.

Definition register_clean_username (users : list account) (n : string) : option string :=
  if existsb (fun u => String.eqb (username u) n) users then None else Some n.

(** [UserUpdateForm.clean_email] and [clean_username]: the instance's own
    row is excluded. *)
Definition update_clean_email (users : list account) (instance : account) (e : string)
  : option string :=
  if existsb (fun u => String.eqb (email u) e)
             (filter (fun u => negb (Nat.eqb (pk u) (pk instance))) users)
  then None else Some e.

Definition update_clean_username (users : list account) (instance : account) (n : string)
  : option string :=
  if existsb (fun u => String.eqb (username u) n)
             (filter (fun u => negb (Nat.eqb (pk u) (pk instance))) users)
  then None else Some n.

(** [BaseUserManager.normalize_email], which [AbstractUser.clean] applies
    to the address while the form validates: the stripped address with
    the part after its last [@] in lower case; an address without [@] is
    left as it is.  [rsplit_at] is [rsplit("@", 1)]. *)
Fixpoint rsplit_at (l : list ascii) : option (list ascii * list ascii) :=
  match l with
  | [] => None
  | c :: r =>
      match rsplit_at r with
      | Some (email_name, domain_part) => Some (c :: email_name, domain_part)
      | None => if Ascii.eqb c "@" then Some ([], r) else None
      end
  end.

Definition normalize_email (email : string) : string :=
  match rsplit_at (list_ascii_of_string (Py.strip email)) with
  | Some (email_name, domain_part) =>
      string_of_list_ascii (email_name ++ "@"%char :: map lower domain_part)
  | None => email
  end.

(** [Model.validate_unique], which the model form runs last, for the
    unique columns [username] and [email]: [true] when another row has the
    value.  [skip] is the key of the instance being updated, [None] for a
    row being added. *)
Definition unique_error (users : list account) (skip : option nat) (n e : string) : bool :=
  let others :=
    match skip with
    | Some k => filter (fun u => negb (Nat.eqb (pk u) k)) users
    | None => users
    end in
  existsb (fun u => String.eqb (username u) n) others
  || existsb (fun u => String.eqb (email u) e) others.

Inductive reply :=
| Page (form_errors : bool)      (* render(...) *)
| Go (to : string).              (* redirect(...) *)

(** register: [logged_in] is [request.user.is_authenticated].  The row is
    saved with the normalised address. *)
Definition register (users : list account) (logged_in : bool) (method : Method)
           (d : posted) : reply * list message * list account :=
  if logged_in then (Go "music:home", [], users)
  else
    match method with
    | POST =>
        match register_clean_email users (posted_email d),
              register_clean_username users (posted_username d),
              field_errors d with
        | Some e, Some n, false =>
            let e := normalize_email e in
            if unique_error users None n e
            then (Page true, [(error, "Please correct the errors below.")], users)
            else
              let user := mk_account (ORM.next_pk pk users) n e
                                     (posted_first_name d) (posted_last_name d) in
              (Go "music:home",
               [(success, ("Account created successfully for " ++ n
                           ++ "! You can now log in.")%string)],
               users ++ [user])
        | _, _, _ =>
            (Page true, [(error, "Please correct the errors below.")], users)
        end
    | GET => (Page false, [], users)
    end.

(** profile, for the logged-in [instance]. *)
Definition profile (users : list account) (instance : account) (method : Method)
           (d : posted) : reply * list message * list account :=
  match method with
  | POST =>
      match update_clean_email users instance (posted_email d),
            update_clean_username users instance (posted_username d),
            field_errors d with
      | Some e, Some n, false =>
          let e := normalize_email e in
          if unique_error users (Some (pk instance)) n e
          then (Page true, [(error, "Please correct the errors below.")], users)
          else
            (Go "accounts:profile",
             [(success, "Your profile has been updated successfully!")],
             map (fun u => if Nat.eqb (pk u) (pk instance)
                           then mk_account (pk u) n e
                                           (posted_first_name d) (posted_last_name d)
                           else u)
                 users)
      | _, _, _ =>
          (Page true, [(error, "Please correct the errors below.")], users)
      end
  | GET => (Page false, [], users)
  end.

End Accounts.


(** ** Requests that write, and what the store keeps *)

(** The writing routes of [music/urls.py] with their arguments. *)
Inductive request :=
| Play (pk : nat)
| Download (pk : nat)
| Upload (m : Method) (d : SongUploadForm.data)
| EditSong (pk : nat) (m : Method) (d : SongUploadForm.data)
| DeleteSong (pk : nat) (m : Method)
| CreatePlaylist (m : Method) (d : playlist_data)
| EditPlaylist (pk : nat) (m : Method) (d : playlist_data)
| DeletePlaylist (pk : nat) (m : Method)
| AddToPlaylist (song_pk : nat) (m : Method) (playlist_id : option string)
| RemoveFromPlaylist (playlist_pk song_pk : nat) (m : Method)
| ToggleFavorite (song_pk : nat) (m : Method) (ajax : bool)
| AddRating (song_pk : nat) (m : Method) (posted : option string).

(** The store after a request is served. *)
Definition handle (user : User.t) (now : nat) (r : request) (db : DB) : DB :=
  match r with
  | Play pk => store (play_song user now db pk)
  | Download pk => store (download_song user db pk)
  | Upload m d => store (upload_song user now db m d)
  | EditSong pk m d => store (edit_song user db pk m d)
  | DeleteSong pk m => store (delete_song user db pk m)
  | CreatePlaylist m d => store (create_playlist user now db m d)
  | EditPlaylist pk m d => store (edit_playlist user db pk m d)
  | DeletePlaylist pk m => store (delete_playlist user db pk m)
  | AddToPlaylist song_pk m playlist_id =>
      store (add_to_playlist user db song_pk m playlist_id)
  | RemoveFromPlaylist playlist_pk song_pk m =>
      store (remove_from_playlist user db playlist_pk song_pk m)
  | ToggleFavorite song_pk m ajax => store (toggle_favorite user now db song_pk m ajax)
  | AddRating song_pk m posted => store (add_rating user now db song_pk m posted)
  end.

(** Primary keys are distinct in every table. *)
Definition keys_ok (db : DB) : Prop :=
  NoDup (map Song.pk (songs db))
  /\ NoDup (map Artist.pk (artists db))
  /\ NoDup (map Album.pk (albums db))
  /\ NoDup (map Genre.pk (genres db))
  /\ NoDup (map Playlist.pk (playlists db))
  /\ NoDup (map Favorite.pk (favorites db))
  /\ NoDup (map PlayHistory.pk (playhistory db))
  /\ NoDup (map Rating.pk (ratings db)).

(** The unique constraints of the models: Favorite and Rating on
    (user, song), Genre on name. *)
Definition unique_ok (db : DB) : Prop :=
  NoDup (map (fun f => (Favorite.user f, Favorite.song f)) (favorites db))
  /\ NoDup (map (fun r => (Rating.user r, Rating.song r)) (ratings db))
  /\ NoDup (map Genre.name (genres db)).

(** Every reference to a song, artist, album or genre points at a row. *)
Definition refs_ok (db : DB) : Prop :=
  (forall s, In s (songs db) -> In (Song.artist s) (map Artist.pk (artists db)))
  /\ (forall s k, In s (songs db) -> Song.album s = Some k ->
                  In k (map Album.pk (albums db)))
  /\ (forall s k, In s (songs db) -> Song.genre s = Some k ->
                  In k (map Genre.pk (genres db)))
  /\ (forall a, In a (albums db) -> In (Album.artist a) (map Artist.pk (artists db)))
  /\ (forall p k, In p (playlists db) -> In k (Playlist.songs p) ->
                  In k (map Song.pk (songs db)))
  /\ (forall f, In f (favorites db) -> In (Favorite.song f) (map Song.pk (songs db)))
  /\ (forall h, In h (playhistory db) -> In (PlayHistory.song h) (map Song.pk (songs db)))
  /\ (forall r, In r (ratings db) -> In (Rating.song r) (map Song.pk (songs db))).

(** The rows a form offers for selection are rows of the store. *)
Definition selection_ok (db : DB) (d : SongUploadForm.data) : Prop :=
  (forall a, SongUploadForm.artist d = Some a -> In a (artists db))
  /\ (forall a, SongUploadForm.album d = Some a -> In a (albums db))
  /\ (forall g, SongUploadForm.genre d = Some g -> In g (genres db)).

Definition request_ok (db : DB) (r : request) : Prop :=
  match r with
  | Upload _ d => selection_ok db d
  | EditSong _ _ d => selection_ok db d
  | _ => True
  end.

(** A session: who asked what and when, served in order. *)
Fixpoint run (trace : list (User.t * nat * request)) (db : DB) : DB :=
  match trace with
  | [] => db
  | (user, now, r) :: rest => run rest (handle user now r db)
  end.

Fixpoint trace_ok (trace : list (User.t * nat * request)) (db : DB) : Prop :=
  match trace with
  | [] => True
  | (user, now, r) :: rest => request_ok db r /\ trace_ok rest (handle user now r db)
  end.


(** ** Vocabulary of the further statements *)

(** The objects of page [n], and the pages 1 .. num_pages in order. *)
Definition page_objects {A : Type} (objects : list A) (per_page : Z) (n : Z) : list A :=
  match Paginator.page objects per_page (Paginator.PyInt n) with
  | inr pg => Paginator.object_list pg
  | inl _ => []
  end.

Definition all_pages {A : Type} (objects : list A) (per_page : Z) : list (list A) :=
  map (fun n => page_objects objects per_page (Z.of_nat n))
      (seq 1 (Z.to_nat (Paginator.num_pages objects per_page))).


(** The songs a listing response shows, and the page parameter that asks
    for page [n]. *)
Definition shown_songs (r : Result song_list_context) : list Song.t :=
  match response r with
  | Content c => Paginator.object_list (ctx_songs c)
  | _ => []
  end.

Definition page_param (n : nat) : option string := Some (Py.str (Z.of_nat n)).


(** [l'] is [l], or [l] followed by one new row with property [P]. *)
Definition appended {A : Type} (l l' : list A) (P : A -> Prop) : Prop :=
  l' = l \/ exists x, l' = l ++ [x] /\ P x.

(** What a run of [SongUploadForm.clean] may do to the store: nothing
    outside the catalog, and per catalog table at most one new row, with the
    next primary key and the stripped text of the typed name. *)
Definition catalog_step (d : SongUploadForm.data) (db db' : DB) : Prop :=
  songs db' = songs db /\ playlists db' = playlists db
  /\ favorites db' = favorites db /\ playhistory db' = playhistory db
  /\ ratings db' = ratings db
  /\ appended (artists db) (artists db')
       (fun a => SongUploadForm.artist d = None
                 /\ a = Artist.mk (ORM.next_pk Artist.pk (artists db))
                                  (Py.strip (SongUploadForm.artist_name d)))
  /\ appended (albums db) (albums db')
       (fun a => SongUploadForm.album d = None
                 /\ Album.pk a = ORM.next_pk Album.pk (albums db)
                 /\ Album.title a = Py.strip (SongUploadForm.album_title d)
                 /\ In (Album.artist a) (map Artist.pk (artists db')))
  /\ appended (genres db) (genres db')
       (fun g => SongUploadForm.genre d = None
                 /\ g = Genre.mk (ORM.next_pk Genre.pk (genres db))
                                 (Py.strip (SongUploadForm.genre_name d))
                 /\ ~ In (Genre.name g) (map Genre.name (genres db))).


(** The three get-or-create steps of [SongUploadForm.clean], one by one. *)
Definition clean_artist (d : SongUploadForm.data) (db : DB)
  : ORM.error + (option Artist.t * DB) :=
  match SongUploadForm.artist d with
  | Some a => inr (Some a, db)
  | None =>
      match resolve_artist (SongUploadForm.artist_name d) db with
      | inr (a, _, db1) => inr (Some a, db1)
      | inl e => inl e
      end
  end.

Definition clean_album (d : SongUploadForm.data) (artist1 : option Artist.t) (db1 : DB)
  : ORM.error + (option Album.t * DB) :=
  match SongUploadForm.album d,
        SongUploadForm.truthy (SongUploadForm.album_title d), artist1 with
  | None, true, Some a =>
      match resolve_album (SongUploadForm.album_title d) a db1 with
      | inr (al, _, db2) => inr (Some al, db2)
      | inl e => inl e
      end
  | al, _, _ => inr (al, db1)
  end.

Definition clean_genre (d : SongUploadForm.data) (db2 : DB)
  : ORM.error + (option Genre.t * DB) :=
  match SongUploadForm.genre d, SongUploadForm.truthy (SongUploadForm.genre_name d) with
  | None, true =>
      match resolve_genre (SongUploadForm.genre_name d) db2 with
      | inr (g, _, db3) => inr (Some g, db3)
      | inl e => inl e
      end
  | g, _ => inr (g, db2)
  end.


(** Ratings carry one of the model's choices. *)
Definition ratings_in_range (db : DB) : Prop :=
  Forall (fun r => (1 <= Rating.rating r <= 5)%Z) (ratings db).

(** Everything the tables promise, together. *)
Definition store_ok (db : DB) : Prop :=
  keys_ok db /\ unique_ok db /\ refs_ok db /\ ratings_in_range db.


(** An upload form as posted for the examples: a new song with a typed
    artist, album and genre. *)
Definition creep_upload : SongUploadForm.data :=
  SongUploadForm.mk "Creep" None None None (Some 1000%Z) true
                    " Radiohead " "Pablo Honey" "Rock" false.

Definition sample_session : list (User.t * nat * request) :=
  [(alice, 1, Upload POST creep_upload);
   (bob, 2, ToggleFavorite 1 POST true);
   (bob, 3, AddRating 1 POST (Some "4"));
   (bob, 4, Play 1);
   (bob, 5, CreatePlaylist POST renamed_mix);
   (bob, 6, AddToPlaylist 1 POST (Some "1"));
   (alice, 7, DeleteSong 1 POST)].


(** What the account table promises: distinct keys, user names and email
    addresses ([username] and [email] are unique columns). *)
Definition accounts_ok (users : list Accounts.account) : Prop :=
  NoDup (map Accounts.pk users)
  /\ NoDup (map Accounts.username users)
  /\ NoDup (map Accounts.email users).


(** How a song row of the store after a request relates to the store before
    it: it continues a row with the same key, uploader, upload time and
    featured mark, whose counters have each grown by 0 or 1; or it is a new
    row under a fresh key, uploaded by the requester at the time of the
    request, with both counters at 0 and not featured. *)
Definition song_kept (user : User.t) (now : nat) (db : DB) (s' : Song.t) : Prop :=
  (exists s, In s (songs db) /\ Song.pk s = Song.pk s'
             /\ Song.uploaded_by s = Song.uploaded_by s'
             /\ Song.upload_date s = Song.upload_date s'
             /\ Song.is_featured s = Song.is_featured s'
             /\ (Song.play_count s <= Song.play_count s' <= Song.play_count s + 1)%Z
             /\ (Song.download_count s <= Song.download_count s'
                 <= Song.download_count s + 1)%Z)
  \/ (~ In (Song.pk s') (map Song.pk (songs db))
      /\ Song.uploaded_by s' = User.pk user /\ Song.upload_date s' = now
      /\ Song.is_featured s' = false
      /\ Song.play_count s' = 0%Z /\ Song.download_count s' = 0%Z).


(** The rows an index response shows. *)
Definition shown_rows {A : Type} (r : Result (Paginator.Page A)) : list A :=
  match response r with
  | Content pg => Paginator.object_list pg
  | _ => []
  end.

(** The number of the last page when [count] objects are cut into pages of
    [per_page], and the objects on page [k]. *)
Definition last_page_number (count per_page : Z) : Z :=
  (Z.max 1 count + per_page - 1) / per_page.

Definition rows_of_page {A : Type} (objects : list A) (per_page k : Z) : list A :=
  firstn (Z.to_nat per_page) (skipn (Z.to_nat ((k - 1) * per_page)) objects).

(** A page parameter written in ASCII. *)
Definition ascii_param (param : option string) : Prop :=
  match param with
  | None => True
  | Some s => Py.isascii s = true
  end.

(** A page parameter that [int] reads as [Py.int] does: none, or ASCII text
    of at most 4300 characters. *)
Definition plain_page (param : option string) : Prop :=
  match param with
  | None => True
  | Some s => Py.isascii s = true /\ String.length s <= 4300
  end.

(** A filter value that is absent, or ASCII text of at most 18 characters:
    where it is an integer it fits the 64-bit key column it is compared to. *)
Definition short_id (param : option string) : Prop :=
  match param with
  | None => True
  | Some s => Py.isascii s = true /\ String.length s <= 18
  end.

(** * Properties *)

(** ** Ordering and lookup lemmas *)

Section OrderByFacts.
Context {A : Type} (le : A -> A -> bool).

Lemma insert_perm (x : A) (l : list A) : Permutation (ORM.insert le x l) (x :: l).
Proof.
  induction l as [|y r IH]; simpl; [reflexivity|].
  destruct (le x y); [reflexivity|].
  rewrite IH. apply perm_swap.
Qed.

Lemma order_by_perm (l : list A) : Permutation (ORM.order_by le l) l.
Proof.
  induction l as [|x r IH]; simpl; [constructor|].
  rewrite insert_perm. now constructor.
Qed.

Lemma order_by_In (l : list A) (x : A) : In x (ORM.order_by le l) <-> In x l.
Proof.
  split; apply Permutation_in; [|symmetry]; apply order_by_perm.
Qed.

Lemma order_by_length (l : list A) : List.length (ORM.order_by le l) = List.length l.
Proof. apply Permutation_length, order_by_perm. Qed.

Hypothesis le_total : forall a b, le a b = true \/ le b a = true.

Lemma insert_sorted (x : A) (l : list A) :
  Sorted (fun a b => le a b = true) l ->
  Sorted (fun a b => le a b = true) (ORM.insert le x l).
Proof.
  induction 1 as [|y r Hs IH Hhd]; simpl.
  - repeat constructor.
  - destruct (le x y) eqn:E.
    + constructor; [now constructor|now constructor].
    + constructor; [exact IH|].
      destruct (le_total x y) as [C|C]; [congruence|].
      destruct r as [|z r']; simpl; [now constructor|].
      destruct (le x z); constructor; [exact C|].
      now inversion Hhd.
Qed.

Lemma order_by_sorted (l : list A) :
  Sorted (fun a b => le a b = true) (ORM.order_by le l).
Proof.
  induction l as [|x r IH]; simpl; [constructor|now apply insert_sorted].
Qed.

End OrderByFacts.

Lemma get_inr_In {A : Type} (p : A -> bool) (rows : list A) (x : A) :
  ORM.get p rows = inr x -> In x rows /\ p x = true.
Proof.
  unfold ORM.get. intros H.
  destruct (filter p rows) as [|y [|z t]] eqn:E; try discriminate.
  injection H as ->. apply filter_In. rewrite E. now left.
Qed.

Lemma get_inr_filter {A : Type} (p : A -> bool) (rows : list A) (x : A) :
  ORM.get p rows = inr x <-> filter p rows = [x].
Proof.
  unfold ORM.get.
  destruct (filter p rows) as [|y [|z t]]; split; intros H; try discriminate;
    try (injection H as ->; reflexivity).
Qed.

Lemma get_404_inr {A : Type} (p : A -> bool) (rows : list A) (x : A) :
  get_object_or_404 p rows = inr x <-> ORM.get p rows = inr x.
Proof.
  unfold get_object_or_404.
  destruct (ORM.get p rows) as [[]|y]; split; intros H; try discriminate;
    injection H as ->; reflexivity.
Qed.

(** ** Pagination *)

Section PaginatorFacts.
Context {A : Type} (objects : list A) (per_page : Z).
Hypothesis per_page_pos : (0 < per_page)%Z.

Lemma num_pages_pos : (1 <= Paginator.num_pages objects per_page)%Z.
Proof.
  unfold Paginator.num_pages, Paginator.orphans, Paginator.count.
  apply Z.div_le_lower_bound; lia.
Qed.

Lemma page_int_ok (n : Z) :
  (1 <= n <= Paginator.num_pages objects per_page)%Z ->
  exists l, Paginator.page objects per_page (Paginator.PyInt n)
            = inr (Paginator.mkPage l n).
Proof.
  intros [H1 H2]. unfold Paginator.page, Paginator.validate_number. simpl.
  destruct (n <? 1)%Z eqn:E1; [apply Z.ltb_lt in E1; lia|].
  destruct (n >? Paginator.num_pages objects per_page)%Z eqn:E2;
    [apply Z.gtb_lt in E2; lia|].
  eexists. reflexivity.
Qed.

(** The view's pagination step always produces a page. *)
Lemma get_page_total (param : option string) :
  exists pg, Paginator.get_page objects per_page param = inr pg.
Proof.
  unfold Paginator.get_page.
  destruct (Paginator.page objects per_page _) as [[]|pg] eqn:E.
  - destruct (page_int_ok 1) as [l ->]; [pose proof num_pages_pos; lia|]. eauto.
  - destruct (page_int_ok (Paginator.num_pages objects per_page)) as [l ->];
      [pose proof num_pages_pos; lia|]. eauto.
  - eauto.
Qed.

Lemma slice_incl (b t : Z) (x : A) : In x (Paginator.slice objects b t) -> In x objects.
Proof.
  unfold Paginator.slice. intros H.
  apply In_nth_error in H as [i H].
  rewrite nth_error_firstn in H.
  destruct (i <? Z.to_nat (t - b))%nat; [|discriminate].
  rewrite nth_error_skipn in H. eapply nth_error_In; eauto.
Qed.

Lemma page_incl (arg : Paginator.number_arg) (pg : Paginator.Page A) (x : A) :
  Paginator.page objects per_page arg = inr pg ->
  In x (Paginator.object_list pg) -> In x objects.
Proof.
  unfold Paginator.page.
  destruct (Paginator.validate_number objects per_page arg); [discriminate|].
  intros [= <-]. simpl. apply slice_incl.
Qed.

Lemma get_page_incl (param : option string) (pg : Paginator.Page A) (x : A) :
  Paginator.get_page objects per_page param = inr pg ->
  In x (Paginator.object_list pg) -> In x objects.
Proof.
  unfold Paginator.get_page.
  destruct (Paginator.page objects per_page _) as [[]|pg'] eqn:E; intros H.
  - eapply page_incl; eauto.
  - eapply page_incl; eauto.
  - injection H as ->. eapply page_incl; eauto.
Qed.

End PaginatorFacts.

(** ** [int] reads back what [str] prints *)

Section PyFacts.

Lemma digit_not_space (c : ascii) : Py.isdigit c = true -> Py.isspace c = false.
Proof. destruct c as [[|] [|] [|] [|] [|] [|] [|] [|]]; vm_compute; congruence. Qed.

Lemma digit_not_underscore (c : ascii) :
  Py.isdigit c = true -> Py.is_underscore c = false.
Proof. destruct c as [[|] [|] [|] [|] [|] [|] [|] [|]]; vm_compute; congruence. Qed.

Lemma lstrip_digits (l : list ascii) :
  Forall (fun c => Py.isdigit c = true) l -> Py.lstrip_chars l = l.
Proof.
  destruct 1 as [|c r Hc _]; simpl; [reflexivity|].
  now rewrite (digit_not_space c Hc).
Qed.

Lemma strip_digits (l : list ascii) :
  Forall (fun c => Py.isdigit c = true) l -> Py.strip_chars l = l.
Proof.
  intros H. unfold Py.strip_chars.
  rewrite (lstrip_digits l H), lstrip_digits by now apply Forall_rev.
  apply rev_involutive.
Qed.

Lemma digit_not_space_int (c : ascii) :
  Py.isdigit c = true -> Py.isspace_int c = false.
Proof. destruct c as [[|] [|] [|] [|] [|] [|] [|] [|]]; vm_compute; congruence. Qed.

Lemma lskip_digits (l : list ascii) :
  Forall (fun c => Py.isdigit c = true) l -> Py.lskip_chars l = l.
Proof.
  destruct 1 as [|c r Hc _]; simpl; [reflexivity|].
  now rewrite (digit_not_space_int c Hc).
Qed.

Lemma skip_digits (l : list ascii) :
  Forall (fun c => Py.isdigit c = true) l -> Py.skip_chars l = l.
Proof.
  intros H. unfold Py.skip_chars.
  rewrite (lskip_digits l H), lskip_digits by now apply Forall_rev.
  apply rev_involutive.
Qed.

Lemma digits_ok_digits (l : list ascii) (b : bool) :
  Forall (fun c => Py.isdigit c = true) l ->
  Py.digits_ok b l = (b || negb (Nat.eqb (List.length l) 0)).
Proof.
  intros H. revert b. induction H as [|c r Hc _ IH]; intros b; simpl.
  - now rewrite orb_false_r.
  - rewrite Hc, IH. simpl. now rewrite orb_true_r.
Qed.

Lemma drop_underscores_digits (l : list ascii) :
  Forall (fun c => Py.isdigit c = true) l -> Py.drop_underscores l = l.
Proof.
  induction 1 as [|c r Hc _ IH]; simpl; [reflexivity|].
  rewrite (digit_not_underscore c Hc). simpl. now rewrite IH.
Qed.

Lemma string_of_uint_digits (d : Decimal.uint) :
  Forall (fun c => Py.isdigit c = true)
         (list_ascii_of_string (NilEmpty.string_of_uint d)).
Proof. induction d; simpl; constructor; auto. Qed.

Lemma int_of_digits (l : list ascii) (c : ascii) :
  Forall (fun c => Py.isdigit c = true) (c :: l) ->
  Py.int (string_of_list_ascii (c :: l))
  = match NilEmpty.uint_of_string (string_of_list_ascii (c :: l)) with
    | Some d => Some (Z.of_int (Decimal.Pos d))
    | None => None
    end.
Proof.
  intros H. unfold Py.int.
  rewrite list_ascii_of_string_of_list_ascii, (skip_digits _ H).
  assert (E : Py.parse_digits (c :: l)
              = match NilEmpty.uint_of_string (string_of_list_ascii (c :: l)) with
                | Some d => Some (Z.of_int (Decimal.Pos d))
                | None => None
                end).
  { unfold Py.parse_digits.
    rewrite (digits_ok_digits _ false H), (drop_underscores_digits _ H).
    reflexivity. }
  rewrite <- E. inversion H as [|c' l' Hc _]; subst.
  destruct c as [[|] [|] [|] [|] [|] [|] [|] [|]]; try reflexivity;
    vm_compute in Hc; discriminate.
Qed.

Lemma int_string_of_uint (d : Decimal.uint) :
  d <> Decimal.Nil ->
  Py.int (NilEmpty.string_of_uint d) = Some (Z.of_int (Decimal.Pos d)).
Proof.
  intros Hd.
  pose proof (string_of_uint_digits d) as H.
  rewrite <- (string_of_list_ascii_of_string (NilEmpty.string_of_uint d)).
  destruct (list_ascii_of_string (NilEmpty.string_of_uint d)) as [|c l] eqn:E.
  - destruct d; simpl in E; congruence.
  - rewrite (int_of_digits l c H), <- E, string_of_list_ascii_of_string.
    now rewrite NilEmpty.usu.
Qed.

(** [int(str(n)) == n] for a page number or a rating. *)
Lemma int_str (n : Z) : (0 <= n)%Z -> Py.int (Py.str n) = Some n.
Proof.
  intros Hn. unfold Py.str.
  rewrite <- (DecimalZ.of_to n) at 2.
  destruct n as [|p|p]; [reflexivity| |lia].
  simpl Z.to_int. unfold NilZero.string_of_int, NilZero.string_of_uint.
  destruct (Pos.to_uint p) eqn:E;
    try (rewrite <- E; apply int_string_of_uint; rewrite E; discriminate).
  exfalso. now apply (DecimalPos.Unsigned.to_uint_nonnil p).
Qed.

End PyFacts.

Section PaginatorCover.
Context {A : Type} (objects : list A) (per_page : Z).
Hypothesis per_page_pos : (0 < per_page)%Z.

(** Every object lies on one of the pages [1 .. num_pages]. *)
Lemma page_covers (x : A) :
  In x objects ->
  exists n l, (1 <= n <= Paginator.num_pages objects per_page)%Z
              /\ Paginator.page objects per_page (Paginator.PyInt n)
                 = inr (Paginator.mkPage l n)
              /\ In x l.
Proof.
  intros Hx. apply In_nth_error in Hx as [i Hi].
  assert (Hlen : (i < List.length objects)%nat)
    by (apply nth_error_Some; congruence).
  set (q := (Z.of_nat i / per_page)%Z).
  assert (Hq0 : (0 <= q)%Z) by (apply Z.div_pos; lia).
  assert (Hlo : (q * per_page <= Z.of_nat i)%Z)
    by (rewrite Z.mul_comm; apply Z.mul_div_le; lia).
  assert (Hhi : (Z.of_nat i < q * per_page + per_page)%Z).
  { pose proof (Z.mul_succ_div_gt (Z.of_nat i) per_page per_page_pos). fold q in H. lia. }
  assert (Hn : (1 <= q + 1 <= Paginator.num_pages objects per_page)%Z).
  { split; [lia|].
    unfold Paginator.num_pages, Paginator.orphans, Paginator.count.
    replace (q + 1)%Z with ((Z.of_nat i + 1 * per_page) / per_page)%Z
      by (rewrite Z.div_add by lia; reflexivity).
    apply Z.div_le_mono; lia. }
  exists (q + 1)%Z.
  unfold Paginator.page, Paginator.validate_number. simpl.
  destruct (q + 1 <? 1)%Z eqn:E1; [apply Z.ltb_lt in E1; lia|].
  destruct (q + 1 >? Paginator.num_pages objects per_page)%Z eqn:E2;
    [apply Z.gtb_lt in E2; lia|].
  eexists. split; [exact Hn|]. split; [reflexivity|].
  unfold Paginator.slice, Paginator.orphans, Paginator.count.
  replace (q + 1 - 1)%Z with q by lia.
  set (top := if (q * per_page + per_page + 0 >=? Z.of_nat (List.length objects))%Z
              then Z.of_nat (List.length objects) else (q * per_page + per_page)%Z).
  assert (Htop : (Z.of_nat i < top)%Z).
  { unfold top. destruct (_ >=? _)%Z; lia. }
  apply nth_error_In with (n := (i - Z.to_nat (q * per_page))%nat).
  rewrite nth_error_firstn.
  replace (_ <? _)%nat with true by (symmetry; apply Nat.ltb_lt; lia).
  rewrite nth_error_skipn.
  replace (Z.to_nat (q * per_page) + (i - Z.to_nat (q * per_page)))%nat with i by lia.
  exact Hi.
Qed.

(** ... and the view reaches that page through its [page] parameter. *)
Lemma get_page_covers (x : A) :
  In x objects ->
  exists param pg, Paginator.get_page objects per_page (Some param) = inr pg
                   /\ In x (Paginator.object_list pg).
Proof.
  intros Hx. destruct (page_covers x Hx) as (n & l & Hn & Hp & Hl).
  exists (Py.str n), (Paginator.mkPage l n). split; [|exact Hl].
  unfold Paginator.get_page.
  assert (E : Paginator.page objects per_page (Paginator.PyStr (Py.str n))
              = Paginator.page objects per_page (Paginator.PyInt n)).
  { unfold Paginator.page, Paginator.validate_number. simpl.
    now rewrite int_str by lia. }
  now rewrite E, Hp.
Qed.

End PaginatorCover.

(** ** The song listing shows exactly the visible songs *)

Section Listing.
Variables (user : User.t) (db : DB).

Lemma visible_iff (s : Song.t) :
  visible user s = true
  <-> Song.is_public s = true \/ Song.uploaded_by s = User.pk user.
Proof.
  unfold visible. rewrite orb_true_iff, Nat.eqb_eq. reflexivity.
Qed.

Lemma Song_objects_In (s : Song.t) : In s (Song_objects db) <-> In s (songs db).
Proof. apply order_by_In. Qed.

Lemma order_songs_In (sort_by : string) (qs : list Song.t) (s : Song.t) :
  In s (order_songs db sort_by qs) <-> In s qs.
Proof.
  unfold order_songs.
  repeat (destruct (String.eqb sort_by _); [apply order_by_In|]).
  reflexivity.
Qed.

Lemma filter_id_incl (param : option string) (field : Song.t -> option nat)
      (qs qs' : list Song.t) (s : Song.t) :
  filter_id param field qs = inr qs' -> In s qs' -> In s qs.
Proof.
  unfold filter_id. destruct param as [p|]; [|now intros [= <-]].
  destruct (String.eqb p ""); [now intros [= <-]|].
  destruct (Py.int p); [|discriminate].
  intros [= <-] H. now apply filter_In in H.
Qed.

Lemma queryset_sound (genre artist album sort : option string)
      (qs : list Song.t) (s : Song.t) :
  song_list_queryset user db genre artist album sort = inr qs ->
  In s qs -> In s (songs db) /\ visible user s = true.
Proof.
  unfold song_list_queryset.
  destruct (filter_id genre _ _) as [|q1] eqn:E1; [discriminate|].
  destruct (filter_id artist _ _) as [|q2] eqn:E2; [discriminate|].
  destruct (filter_id album _ _) as [|q3] eqn:E3; [discriminate|].
  intros [= <-] H.
  assert (H3 : In s q3).
  { match type of H with
    | In _ (if ?c then _ else _) => destruct c
    end; [now apply order_songs_In in H|exact H]. }
  apply (filter_id_incl _ _ _ _ _ E3), (filter_id_incl _ _ _ _ _ E2),
    (filter_id_incl _ _ _ _ _ E1), filter_In in H3.
  now rewrite Song_objects_In in H3.
Qed.

Lemma queryset_unfiltered (sort : option string) :
  exists qs, song_list_queryset user db None None None sort = inr qs
             /\ forall s, In s qs <-> In s (songs db) /\ visible user s = true.
Proof.
  unfold song_list_queryset, filter_id.
  eexists. split; [reflexivity|]. intros s.
  rewrite <- Song_objects_In, <- filter_In.
  match goal with
  | |- In _ (if ?c then _ else _) <-> _ => destruct c
  end; [apply order_songs_In|reflexivity].
Qed.

End Listing.

(** C2.  For every requesting user and every song, the listing without
    filters shows the song on one of its pages exactly when the song is in
    the store and is public or was uploaded by the requesting user; with any
    filters, sort key and page, a listed song is always such a song. *)
Theorem song_list_contains_iff_visible (user : User.t) (db : DB) (s : Song.t) :
  (forall sort,
      (exists page, listed (song_list user db None None None sort page) s)
      <-> In s (songs db)
          /\ (Song.is_public s = true \/ Song.uploaded_by s = User.pk user))
  /\ (forall genre artist album sort page,
         listed (song_list user db genre artist album sort page) s ->
         In s (songs db)
         /\ (Song.is_public s = true \/ Song.uploaded_by s = User.pk user)).
Proof.
  assert (Hpp : (0 < songs_per_page)%Z) by reflexivity.
  split.
  - intros sort. rewrite <- visible_iff.
    destruct (queryset_unfiltered user db sort) as (qs & Hq & Hin).
    unfold listed, song_list. rewrite Hq. split.
    + intros [page H].
      destruct (Paginator.get_page qs songs_per_page page) as [|pg] eqn:E;
        simpl in H; [contradiction|].
      apply Hin. eapply get_page_incl; eauto.
    + intros H. apply Hin in H.
      destruct (get_page_covers qs songs_per_page Hpp s H) as (param & pg & Hp & Hs).
      exists (Some param). now rewrite Hp.
  - intros genre artist album sort page. rewrite <- visible_iff.
    unfold listed, song_list.
    destruct (song_list_queryset user db genre artist album sort) as [|qs] eqn:Hq;
      simpl; [contradiction|].
    destruct (Paginator.get_page qs songs_per_page page) as [|pg] eqn:E;
      simpl; [contradiction|].
    intros H. eapply queryset_sound; eauto. eapply get_page_incl; eauto.
Qed.

(** ** Pagination never fails on the page parameter *)

Section GetPage.
Context {A : Type} (objects : list A) (per_page : Z).
Hypothesis per_page_pos : (0 < per_page)%Z.

Lemma first_page :
  Paginator.page objects per_page (Paginator.PyInt 1)
  = inr (Paginator.mkPage (firstn (Z.to_nat per_page) objects) 1).
Proof.
  destruct (page_int_ok objects per_page 1) as [l Hl];
    [pose proof (num_pages_pos objects per_page per_page_pos); lia|].
  rewrite Hl. f_equal. f_equal.
  revert Hl. unfold Paginator.page, Paginator.validate_number. simpl.
  destruct (1 >? Paginator.num_pages objects per_page)%Z; [discriminate|].
  intros [= <-]. unfold Paginator.slice, Paginator.orphans, Paginator.count. simpl.
  destruct (per_page + 0 >=? Z.of_nat (List.length objects))%Z eqn:E.
  - apply Z.geb_le in E.
    rewrite Z.sub_0_r, Nat2Z.id, firstn_all, firstn_all2 by lia. reflexivity.
  - now rewrite Z.sub_0_r.
Qed.

Lemma get_page_not_an_integer (param : option string) :
  not_an_integer param ->
  Paginator.get_page objects per_page param
  = inr (Paginator.mkPage (firstn (Z.to_nat per_page) objects) 1).
Proof.
  intros H. unfold Paginator.get_page.
  assert (E : Paginator.page objects per_page
                (match param with
                 | Some s => Paginator.PyStr s
                 | None => Paginator.PyNone
                 end) = inl Paginator.PageNotAnInteger).
  { unfold Paginator.page, Paginator.validate_number.
    destruct param as [s|]; simpl in *; [now rewrite H|reflexivity]. }
  rewrite E. apply first_page.
Qed.

Lemma get_page_beyond_last (s : string) (n : Z) :
  Py.int s = Some n -> (Paginator.num_pages objects per_page < n)%Z ->
  exists l, Paginator.get_page objects per_page (Some s)
            = inr (Paginator.mkPage l (Paginator.num_pages objects per_page))
            /\ Paginator.page objects per_page
                 (Paginator.PyInt (Paginator.num_pages objects per_page))
               = inr (Paginator.mkPage l (Paginator.num_pages objects per_page)).
Proof.
  intros Hs Hn.
  pose proof (num_pages_pos objects per_page per_page_pos) as Hp.
  destruct (page_int_ok objects per_page (Paginator.num_pages objects per_page))
    as [l Hl]; [lia|].
  exists l. split; [|exact Hl].
  unfold Paginator.get_page.
  assert (E : Paginator.page objects per_page (Paginator.PyStr s)
              = inl Paginator.EmptyPage).
  { unfold Paginator.page, Paginator.validate_number. simpl. rewrite Hs.
    destruct (n <? 1)%Z eqn:E1; [reflexivity|].
    destruct (n >? Paginator.num_pages objects per_page)%Z eqn:E2; [reflexivity|].
    rewrite Z.gtb_ltb in E2. apply Z.ltb_ge in E2. lia. }
  rewrite E. exact Hl.
Qed.

End GetPage.

(** ** Recording a play *)

Lemma filter_map_same {A : Type} (p : A -> bool) (f : A -> A) (l : list A) :
  (forall x, p (f x) = p x) -> filter p (map f l) = map f (filter p l).
Proof.
  intros H. induction l as [|x r IH]; simpl; [reflexivity|].
  rewrite H. destruct (p x); simpl; now rewrite IH.
Qed.

Lemma filter_app_one {A : Type} (p : A -> bool) (l : list A) (x : A) :
  filter p (l ++ [x]) = filter p l ++ (if p x then [x] else []).
Proof. rewrite filter_app. reflexivity. Qed.

Section RecordPlay.
Variables (user : User.t) (pk : nat).

Lemma play_song_found (now : nat) (db : DB) (s : Song.t) :
  song_by_pk db pk = inr s ->
  let r := play_song user now db pk in
  response r = Content (mk_play_json "success" (Song.play_count s + 1)
                                     ("Playing " ++ Song.title s)%string)
  /\ song_by_pk (store r) pk = inr (Song.set_play_count (Song.play_count s + 1) s)
  /\ plays_of user (store r) pk = S (plays_of user db pk)
  /\ exists h, playhistory (store r) = playhistory db ++ [h]
               /\ PlayHistory.user h = User.pk user /\ PlayHistory.song h = pk
               /\ PlayHistory.played_at h = now.
Proof.
  intros Hs. pose proof Hs as Hg. unfold song_by_pk in Hg.
  destruct (get_inr_In _ _ _ Hg) as [_ Hpk]. apply Nat.eqb_eq in Hpk.
  unfold play_song. rewrite (proj2 (get_404_inr _ _ _) Hg). simpl.
  split; [reflexivity|]. split; [|split].
  - unfold song_by_pk. simpl. apply get_inr_filter.
    apply get_inr_filter in Hg.
    rewrite filter_map_same.
    + rewrite Hg. simpl. now rewrite Hpk, Nat.eqb_refl.
    + intros x. destruct (Nat.eqb (Song.pk x) (Song.pk s)); reflexivity.
  - unfold plays_of, ORM.count. simpl.
    rewrite filter_app_one. simpl.
    rewrite Hpk, !Nat.eqb_refl. simpl.
    rewrite length_app. simpl. lia.
  - eexists. split; [reflexivity|]. simpl. auto.
Qed.

Lemma play_song_missing (now : nat) (db : DB) :
  (forall s, song_by_pk db pk <> inr s) ->
  store (play_song user now db pk) = db.
Proof.
  intros H. unfold play_song, get_object_or_404.
  fold (song_by_pk db pk).
  destruct (song_by_pk db pk) as [[]|s]; try reflexivity.
  now destruct (H s).
Qed.

Lemma play_times_found (nows : list nat) :
  forall (db : DB) (s : Song.t),
    song_by_pk db pk = inr s ->
    song_by_pk (play_times user nows db pk) pk
    = inr (Song.set_play_count (Song.play_count s + Z.of_nat (List.length nows)) s)
    /\ plays_of user (play_times user nows db pk) pk
       = (plays_of user db pk + List.length nows)%nat.
Proof.
  induction nows as [|now rest IH]; intros db s Hs.
  - simpl. rewrite Hs, Z.add_0_r, Nat.add_0_r. now destruct s.
  - destruct (play_song_found now db s Hs) as (_ & Hs1 & Hc1 & _).
    destruct (IH _ _ Hs1) as [Hs2 Hc2].
    cbn [play_times List.length]. rewrite Hs2, Hc2, Hc1. split; [|lia].
    f_equal. unfold Song.set_play_count. simpl. f_equal. lia.
Qed.

End RecordPlay.

(** C6.  When the song exists, one call of play_song answers with the new
    counter, raises the song's play_count by exactly one and adds exactly one
    PlayHistory row of this user and song; when it does not exist the store
    is left as it was, so the two effects come together or not at all.  After
    N calls in sequence the counter has grown by N and the user has N more
    history rows of the song. *)
Theorem play_song_counts (user : User.t) (pk : nat) (db : DB) (s : Song.t)
        (now : nat) (nows : list nat) :
  song_by_pk db pk = inr s ->
  (let r := play_song user now db pk in
   response r = Content (mk_play_json "success" (Song.play_count s + 1)
                                      ("Playing " ++ Song.title s)%string)
   /\ song_by_pk (store r) pk = inr (Song.set_play_count (Song.play_count s + 1) s)
   /\ plays_of user (store r) pk = S (plays_of user db pk)
   /\ exists h, playhistory (store r) = playhistory db ++ [h]
                /\ PlayHistory.user h = User.pk user /\ PlayHistory.song h = pk
                /\ PlayHistory.played_at h = now)
  /\ (song_by_pk (play_times user nows db pk) pk
      = inr (Song.set_play_count (Song.play_count s + Z.of_nat (List.length nows)) s)
      /\ plays_of user (play_times user nows db pk) pk
         = (plays_of user db pk + List.length nows)%nat)
  /\ (forall db0, (forall s0, song_by_pk db0 pk <> inr s0) ->
                  store (play_song user now db0 pk) = db0).
Proof.
  intros Hs. split; [now apply play_song_found|].
  split; [now apply play_times_found|].
  intros db0. apply play_song_missing.
Qed.

Lemma play_song_counts_witness :
  song_by_pk sample_db 1 = inr creep
  /\ plays_of alice (play_times alice [30; 31; 32] sample_db 1) 1 = 3.
Proof.
  split; [reflexivity|].
  exact (proj2 (proj1 (proj2
           (play_song_counts alice 1 sample_db creep 30 [30; 31; 32] eq_refl)))).
Defined.

Lemma song_list_contains_iff_visible_witness :
  exists page, listed (song_list bob sample_db None None None None page) creep.
Proof.
  apply (proj1 (song_list_contains_iff_visible bob sample_db creep)).
  split; [simpl; auto|left; reflexivity].
Defined.


(** ** Toggling a favorite *)

Lemma count_0_filter {A : Type} (p : A -> bool) (l : list A) :
  ORM.count p l = 0 -> filter p l = [].
Proof. unfold ORM.count. now destruct (filter p l). Qed.

Lemma count_1_get {A : Type} (p : A -> bool) (l : list A) :
  ORM.count p l = 1 -> exists x, ORM.get p l = inr x /\ filter p l = [x].
Proof.
  unfold ORM.count, ORM.get.
  destruct (filter p l) as [|x [|y t]]; try discriminate. eauto.
Qed.

Lemma filter_nil_existsb {A : Type} (p : A -> bool) (l : list A) :
  filter p l = [] -> existsb p l = false.
Proof.
  induction l as [|x r IH]; simpl; [reflexivity|].
  destruct (p x); [discriminate|]. exact IH.
Qed.

Section ToggleFavorite.
Variables (user : User.t) (song_pk : nat) (s : Song.t).

Lemma toggle_absent (now : nat) (db : DB) (ajax : bool) :
  song_by_pk db song_pk = inr s ->
  favorite_count user db song_pk = 0 ->
  let r := toggle_favorite user now db song_pk POST ajax in
  response r = (if ajax then Content true
                else Redirect "music:song_detail" (Some song_pk))
  /\ songs (store r) = songs db
  /\ favorite_count user (store r) song_pk = 1.
Proof.
  intros Hs Hc. pose proof Hs as Hg. unfold song_by_pk in Hg.
  destruct (get_inr_In _ _ _ Hg) as [_ Hpk]. apply Nat.eqb_eq in Hpk.
  apply count_0_filter in Hc.
  unfold toggle_favorite. rewrite (proj2 (get_404_inr _ _ _) Hg).
  unfold Favorite_get_or_create, Favorite_create, ORM.get, favorite_of.
  rewrite Hpk, Hc, (filter_nil_existsb _ _ Hc). simpl.
  split; [reflexivity|]. split; [reflexivity|].
  unfold favorite_count, ORM.count. simpl.
  rewrite filter_app_one, Hc. simpl. now rewrite !Nat.eqb_refl.
Qed.

Lemma toggle_present (now : nat) (db : DB) (ajax : bool) :
  song_by_pk db song_pk = inr s ->
  favorite_count user db song_pk = 1 ->
  let r := toggle_favorite user now db song_pk POST ajax in
  response r = (if ajax then Content false
                else Redirect "music:song_detail" (Some song_pk))
  /\ songs (store r) = songs db
  /\ favorite_count user (store r) song_pk = 0.
Proof.
  intros Hs Hc. pose proof Hs as Hg. unfold song_by_pk in Hg.
  destruct (get_inr_In _ _ _ Hg) as [_ Hpk]. apply Nat.eqb_eq in Hpk.
  destruct (count_1_get _ _ Hc) as (f & Hf & Hfl).
  unfold toggle_favorite. rewrite (proj2 (get_404_inr _ _ _) Hg).
  unfold Favorite_get_or_create, favorite_of.
  rewrite Hpk, Hf. simpl.
  split; [reflexivity|]. split; [reflexivity|].
  unfold favorite_count, ORM.count. simpl.
  set (p := fun f0 => Nat.eqb (Favorite.user f0) (User.pk user)
                      && Nat.eqb (Favorite.song f0) song_pk) in *.
  set (q := fun g => negb (Nat.eqb (Favorite.pk g) (Favorite.pk f))).
  assert (E : filter p (filter q (favorites db)) = filter q (filter p (favorites db))).
  { clear. induction (favorites db) as [|x r IH]; simpl; [reflexivity|].
    destruct (q x) eqn:Eq, (p x) eqn:Ep; simpl; rewrite ?Eq, ?Ep, IH; reflexivity. }
  rewrite E, Hfl. simpl. unfold q. now rewrite Nat.eqb_refl.
Qed.

End ToggleFavorite.

Lemma toggle_flashed (user : User.t) (now : nat) (db : DB) (song_pk : nat) (s : Song.t)
  (ajax : bool) :
  song_by_pk db song_pk = inr s ->
  favorite_count user db song_pk <= 1 ->
  flashed (toggle_favorite user now db song_pk POST ajax)
  = [if Nat.eqb (favorite_count user db song_pk) 0
     then (success, ("Added " ++ quote ++ Song.title s ++ quote ++ " to favorites")%string)
     else (info, ("Removed " ++ quote ++ Song.title s ++ quote
                  ++ " from favorites")%string)].
Proof.
  intros Hs Hle. pose proof Hs as Hg. unfold song_by_pk in Hg.
  destruct (get_inr_In _ _ _ Hg) as [_ Hpk]. apply Nat.eqb_eq in Hpk.
  unfold toggle_favorite. rewrite (proj2 (get_404_inr _ _ _) Hg).
  destruct (favorite_count user db song_pk) as [|[|n]] eqn:Hc; [| |lia].
  - apply count_0_filter in Hc.
    unfold Favorite_get_or_create, Favorite_create, ORM.get, favorite_of.
    rewrite Hpk, Hc, (filter_nil_existsb _ _ Hc). reflexivity.
  - destruct (count_1_get _ _ Hc) as (f & Hf & _).
    unfold Favorite_get_or_create, favorite_of. rewrite Hpk, Hf. reflexivity.
Qed.

(** C8.  For a song that exists and a user with at most one Favorite row
    for it (the table's unique constraint), every call of toggle_favorite,
    from a script or from a plain form, adds the row when there is none and
    removes it when there is one.  It tells the new state: a script gets
    true or false in the body; a form post is sent back to the song with the
    message that the song was added (new state true) or removed (new state
    false).  Two calls in a row report true then false from the unfavorited
    state (leaving no row) and false then true from the favorited state
    (leaving one row), so the row count is back at its first value. *)
Theorem toggle_favorite_twice (user : User.t) (song_pk : nat) (s : Song.t)
        (db : DB) (now1 now2 : nat) (ajax1 ajax2 : bool) :
  song_by_pk db song_pk = inr s ->
  favorite_count user db song_pk <= 1 ->
  let r1 := toggle_favorite user now1 db song_pk POST ajax1 in
  let r2 := toggle_favorite user now2 (store r1) song_pk POST ajax2 in
  let answer (ajax state : bool) : HttpResponse bool :=
    if ajax then Content state else Redirect "music:song_detail" (Some song_pk) in
  let said (state : bool) : list message :=
    [if state
     then (success, ("Added " ++ quote ++ Song.title s ++ quote ++ " to favorites")%string)
     else (info, ("Removed " ++ quote ++ Song.title s ++ quote
                  ++ " from favorites")%string)] in
  (favorite_count user db song_pk = 0 ->
   response r1 = answer ajax1 true /\ flashed r1 = said true
   /\ favorite_count user (store r1) song_pk = 1
   /\ response r2 = answer ajax2 false /\ flashed r2 = said false
   /\ favorite_count user (store r2) song_pk = 0)
  /\ (favorite_count user db song_pk = 1 ->
      response r1 = answer ajax1 false /\ flashed r1 = said false
      /\ favorite_count user (store r1) song_pk = 0
      /\ response r2 = answer ajax2 true /\ flashed r2 = said true
      /\ favorite_count user (store r2) song_pk = 1)
  /\ favorite_count user (store r2) song_pk = favorite_count user db song_pk.
Proof.
  intros Hs Hle r1 r2 answer said.
  assert (H0 : favorite_count user db song_pk = 0 ->
               response r1 = answer ajax1 true /\ flashed r1 = said true
               /\ favorite_count user (store r1) song_pk = 1
               /\ response r2 = answer ajax2 false /\ flashed r2 = said false
               /\ favorite_count user (store r2) song_pk = 0).
  { intros Hc.
    destruct (toggle_absent user song_pk s now1 db ajax1 Hs Hc) as (R1 & S1 & C1).
    fold r1 in R1, S1, C1.
    assert (Hs1 : song_by_pk (store r1) song_pk = inr s)
      by (unfold song_by_pk; rewrite S1; exact Hs).
    destruct (toggle_present user song_pk s now2 (store r1) ajax2 Hs1 C1) as (R2 & _ & C2).
    pose proof (toggle_flashed user now1 db song_pk s ajax1 Hs Hle) as F1.
    pose proof (toggle_flashed user now2 (store r1) song_pk s ajax2 Hs1) as F2.
    rewrite Hc in F1. rewrite C1 in F2. specialize (F2 (le_n 1)).
    repeat split; assumption. }
  assert (H1 : favorite_count user db song_pk = 1 ->
               response r1 = answer ajax1 false /\ flashed r1 = said false
               /\ favorite_count user (store r1) song_pk = 0
               /\ response r2 = answer ajax2 true /\ flashed r2 = said true
               /\ favorite_count user (store r2) song_pk = 1).
  { intros Hc.
    destruct (toggle_present user song_pk s now1 db ajax1 Hs Hc) as (R1 & S1 & C1).
    fold r1 in R1, S1, C1.
    assert (Hs1 : song_by_pk (store r1) song_pk = inr s)
      by (unfold song_by_pk; rewrite S1; exact Hs).
    destruct (toggle_absent user song_pk s now2 (store r1) ajax2 Hs1 C1) as (R2 & _ & C2).
    pose proof (toggle_flashed user now1 db song_pk s ajax1 Hs Hle) as F1.
    pose proof (toggle_flashed user now2 (store r1) song_pk s ajax2 Hs1) as F2.
    rewrite Hc in F1. rewrite C1 in F2. specialize (F2 (Nat.le_0_l 1)).
    repeat split; assumption. }
  split; [exact H0|]. split; [exact H1|].
  destruct (favorite_count user db song_pk) as [|[|n]] eqn:E; [| |lia].
  - now destruct H0 as (_ & _ & _ & _ & _ & ->).
  - now destruct H1 as (_ & _ & _ & _ & _ & ->).
Qed.

Lemma toggle_favorite_twice_witness :
  song_by_pk sample_db 1 = inr creep
  /\ favorite_count bob sample_db 1 <= 1
  /\ favorite_count bob
       (store (toggle_favorite bob 41
                 (store (toggle_favorite bob 40 sample_db 1 POST false)) 1 POST true)) 1
     = 0.
Proof.
  split; [reflexivity|]. split; [vm_compute; lia|].
  exact (proj2 (proj2
           (toggle_favorite_twice bob 1 creep sample_db 40 41 false true
              eq_refl (Nat.le_0_l 1)))).
Defined.

(** ** Rating a song *)

Lemma str_inj (a b : Z) : Py.str a = Py.str b -> a = b.
Proof.
  assert (N : forall z, Z.to_int z <> Decimal.Pos Decimal.Nil
                        /\ Z.to_int z <> Decimal.Neg Decimal.Nil).
  { intros [|p|p]; simpl; split; try discriminate;
      intros [= E]; now apply (DecimalPos.Unsigned.to_uint_nonnil p). }
  unfold Py.str. intros E.
  apply DecimalZ.to_int_inj.
  destruct (N a) as [Ha1 Ha2], (N b) as [Hb1 Hb2].
  pose proof (NilZero.isi _ Ha1 Ha2) as Ia.
  pose proof (NilZero.isi _ Hb1 Hb2) as Ib.
  rewrite E in Ia. congruence.
Qed.

(** The form accepts the text of 1, 2, 3, 4 and 5 and nothing else. *)
Lemma RatingForm_valid_iff (s : string) (v : Z) :
  RatingForm.is_valid (Some s) = Some v <-> (1 <= v <= 5)%Z /\ s = Py.str v.
Proof.
  unfold RatingForm.is_valid, Rating.choices. split.
  - intros H. apply find_some in H as [Hin He].
    apply String.eqb_eq in He. split; [|now symmetry].
    simpl in Hin. lia.
  - intros [Hv ->].
    assert (C : (v = 1 \/ v = 2 \/ v = 3 \/ v = 4 \/ v = 5)%Z) by lia.
    destruct C as [->|[->|[->|[->| ->]]]]; reflexivity.
Qed.

Lemma RatingForm_rejects (z : Z) :
  ~ (1 <= z <= 5)%Z -> RatingForm.is_valid (Some (Py.str z)) = None.
Proof.
  intros Hz. destruct (RatingForm.is_valid (Some (Py.str z))) as [v|] eqn:E;
    [|reflexivity].
  apply RatingForm_valid_iff in E as [Hv E]. apply str_inj in E. lia.
Qed.

Lemma next_pk_fresh {A : Type} (pk : A -> nat) (rows : list A) :
  ~ In (ORM.next_pk pk rows) (map pk rows).
Proof.
  unfold ORM.next_pk.
  assert (H : forall k, In k (map pk rows) -> k <= fold_right Nat.max 0 (map pk rows)).
  { induction (map pk rows) as [|x r IH]; simpl; [contradiction|].
    intros k [->|Hk]; [lia|]. specialize (IH k Hk). lia. }
  intros Hin. apply H in Hin. lia.
Qed.

Lemma update_by_pk_filter {A : Type} (pk : A -> nat) (p : A -> bool)
      (l : list A) (r0 r' : A) :
  NoDup (map pk l) -> filter p l = [r0] -> p r' = true ->
  filter p (map (fun x => if Nat.eqb (pk x) (pk r0) then r' else x) l) = [r'].
Proof.
  intros Hnd Hf Hp'. induction l as [|x l IH]; [discriminate|].
  simpl in Hnd. inversion Hnd as [|? ? Hx Hl]; subst.
  assert (Hin : In r0 (x :: l) /\ p r0 = true)
    by (apply filter_In; rewrite Hf; now left).
  destruct Hin as [Hin Hpr0].
  simpl. destruct (Nat.eqb (pk x) (pk r0)) eqn:E.
  - apply Nat.eqb_eq in E.
    assert (x = r0).
    { destruct Hin as [->|Hin]; [reflexivity|].
      exfalso. apply Hx. rewrite E. now apply in_map. }
    subst x. rewrite Hp'. f_equal.
    simpl in Hf. rewrite Hpr0 in Hf. injection Hf as Hf.
    rewrite <- Hf. f_equal.
    rewrite <- (map_id l) at 2. apply map_ext_in.
    intros y Hy. destruct (Nat.eqb (pk y) (pk r0)) eqn:Ey; [|reflexivity].
    apply Nat.eqb_eq in Ey. exfalso. apply Hx. rewrite <- Ey. now apply in_map.
  - simpl in Hf. destruct (p x) eqn:Epx.
    + injection Hf as -> _. rewrite Nat.eqb_refl in E. discriminate.
    + now apply IH.
Qed.

Section AddRating.
Variables (user : User.t) (song_pk : nat) (s : Song.t).

Lemma add_rating_valid (now : nat) (db : DB) (posted : option string) (v : Z) :
  song_by_pk db song_pk = inr s ->
  NoDup (map Rating.pk (ratings db)) ->
  List.length (ratings_of user db song_pk) <= 1 ->
  RatingForm.is_valid posted = Some v ->
  let r := add_rating user now db song_pk POST posted in
  songs (store r) = songs db
  /\ NoDup (map Rating.pk (ratings (store r)))
  /\ exists row,
      ratings_of user (store r) song_pk = [row]
      /\ Rating.rating row = v /\ Rating.updated_at row = now
      /\ match ratings_of user db song_pk with
         | r0 :: _ => row = Rating.set_rating v now r0
         | [] => Rating.created_at row = now
         end.
Proof.
  intros Hs Hnd Hlen Hv. pose proof Hs as Hg. unfold song_by_pk in Hg.
  destruct (get_inr_In _ _ _ Hg) as [_ Hpk]. apply Nat.eqb_eq in Hpk.
  unfold add_rating. rewrite (proj2 (get_404_inr _ _ _) Hg), Hv.
  unfold Rating_update_or_create, Rating_create, ORM.get, rating_of.
  rewrite Hpk. unfold ratings_of in *.
  set (p := fun r => Nat.eqb (Rating.user r) (User.pk user)
                     && Nat.eqb (Rating.song r) song_pk) in *.
  destruct (filter p (ratings db)) as [|r0 [|r1 t]] eqn:Ef; [| |simpl in Hlen; lia].
  - rewrite (filter_nil_existsb _ _ Ef). simpl.
    split; [reflexivity|]. split.
    + rewrite map_app. simpl. apply NoDup_app_remove_l with (l := []).
      simpl. apply Permutation_NoDup with (l := ORM.next_pk Rating.pk (ratings db)
                                                 :: map Rating.pk (ratings db)).
      * apply Permutation_cons_append.
      * constructor; [apply next_pk_fresh|exact Hnd].
    + eexists. rewrite filter_app_one, Ef. simpl.
      unfold p at 1. simpl. rewrite !Nat.eqb_refl. simpl.
      repeat split; reflexivity.
  - simpl.
    assert (Hp0 : p r0 = true)
      by (apply (proj1 (filter_In p r0 (ratings db))); rewrite Ef; now left).
    split; [reflexivity|]. split.
    + rewrite map_map.
      replace (map _ (ratings db)) with (map Rating.pk (ratings db)); [exact Hnd|].
      apply map_ext. intros x.
      destruct (Nat.eqb (Rating.pk x) (Rating.pk r0)) eqn:E; [|reflexivity].
      apply Nat.eqb_eq in E. now rewrite E.
    + exists (Rating.set_rating v now r0).
      split; [|repeat split; reflexivity].
      apply (update_by_pk_filter Rating.pk p); assumption.
Qed.

Lemma add_rating_invalid (now : nat) (db : DB) (posted : option string) (m : Method) :
  RatingForm.is_valid posted = None ->
  store (add_rating user now db song_pk m posted) = db.
Proof.
  intros Hv. unfold add_rating. destruct m; [reflexivity|].
  destruct (get_object_or_404 _ _); [reflexivity|]. now rewrite Hv.
Qed.

End AddRating.

(** C7.  add_rating writes by (user, song): for a song that exists, with
    the Rating table's primary keys distinct and at most one row of this user
    and song, a posted value that is the text of 1..5 leaves exactly one row
    of the user and song, carrying the value and the new updated_at; an
    existing row is overwritten in place, otherwise one row is created.
    Rating 3 and then 5 leaves one row with value 5.  Any other posted value,
    in particular the text of an integer outside 1..5, leaves the store as it
    was. *)
Theorem add_rating_upsert (user : User.t) (song_pk : nat) (s : Song.t) (db : DB) :
  song_by_pk db song_pk = inr s ->
  NoDup (map Rating.pk (ratings db)) ->
  List.length (ratings_of user db song_pk) <= 1 ->
  (forall now posted v,
      RatingForm.is_valid posted = Some v ->
      (1 <= v <= 5)%Z
      /\ exists row,
          ratings_of user (store (add_rating user now db song_pk POST posted)) song_pk
          = [row]
          /\ Rating.rating row = v /\ Rating.updated_at row = now
          /\ match ratings_of user db song_pk with
             | r0 :: _ => row = Rating.set_rating v now r0
             | [] => Rating.created_at row = now
             end)
  /\ (forall now1 now2,
         let db1 := store (add_rating user now1 db song_pk POST (Some "3")) in
         let db2 := store (add_rating user now2 db1 song_pk POST (Some "5")) in
         exists row, ratings_of user db2 song_pk = [row] /\ Rating.rating row = 5%Z)
  /\ (forall now posted m,
         RatingForm.is_valid posted = None ->
         store (add_rating user now db song_pk m posted) = db)
  /\ (forall z, RatingForm.is_valid (Some (Py.str z))
                = if ((1 <=? z) && (z <=? 5))%Z then Some z else None).
Proof.
  intros Hs Hnd Hlen. split; [|split; [|split]].
  - intros now posted v Hv. split.
    + destruct posted as [p|]; [|discriminate].
      now apply RatingForm_valid_iff in Hv.
    + destruct (add_rating_valid user song_pk s now db posted v Hs Hnd Hlen Hv)
        as (_ & _ & H). exact H.
  - intros now1 now2 db1 db2.
    destruct (add_rating_valid user song_pk s now1 db (Some "3") 3 Hs Hnd Hlen eq_refl)
      as (S1 & N1 & row1 & R1 & _).
    fold db1 in S1, N1, R1.
    assert (Hs1 : song_by_pk db1 song_pk = inr s)
      by (unfold song_by_pk; rewrite S1; exact Hs).
    assert (Hlen1 : List.length (ratings_of user db1 song_pk) <= 1)
      by (rewrite R1; simpl; lia).
    destruct (add_rating_valid user song_pk s now2 db1 (Some "5") 5 Hs1 N1 Hlen1 eq_refl)
      as (_ & _ & row2 & R2 & V2 & _).
    exists row2. split; assumption.
  - intros now posted m. apply add_rating_invalid.
  - intros z. destruct ((1 <=? z) && (z <=? 5))%Z eqn:E.
    + apply RatingForm_valid_iff. split; [lia|reflexivity].
    + apply RatingForm_rejects. lia.
Qed.

Lemma add_rating_upsert_witness :
  song_by_pk sample_db 1 = inr creep
  /\ NoDup (map Rating.pk (ratings sample_db))
  /\ List.length (ratings_of bob sample_db 1) <= 1
  /\ exists row,
      ratings_of bob
        (store (add_rating bob 51
                  (store (add_rating bob 50 sample_db 1 POST (Some "3")))
                  1 POST (Some "5"))) 1
      = [row]
      /\ Rating.rating row = 5%Z.
Proof.
  split; [reflexivity|]. split; [constructor|]. split; [vm_compute; lia|].
  exact (proj1 (proj2
           (add_rating_upsert bob 1 creep sample_db eq_refl (NoDup_nil nat)
                              (Nat.le_0_l 1))) 50 51).
Defined.

(** ** Access checks *)

Lemma filter_andb {A : Type} (a b : A -> bool) (l : list A) :
  filter (fun x => a x && b x) l = filter b (filter a l).
Proof.
  induction l as [|x r IH]; simpl; [reflexivity|].
  destruct (a x); simpl; [destruct (b x)|]; now rewrite IH.
Qed.

Section AccessChecks.
Variables (user : User.t) (db : DB).

Lemma song_detail_check (pk : nat) (s : Song.t) :
  song_by_pk db pk = inr s ->
  permission_denied (song_detail user db pk)
  = negb (Song.is_public s) && negb (Nat.eqb (Song.uploaded_by s) (User.pk user))
  /\ (permission_denied (song_detail user db pk) = true ->
      store (song_detail user db pk) = db).
Proof.
  intros Hs. unfold song_by_pk in Hs. unfold song_detail.
  rewrite (proj2 (get_404_inr _ _ _) Hs).
  destruct (negb (Song.is_public s) && _); split; reflexivity.
Qed.

Lemma download_song_check (pk : nat) (s : Song.t) :
  song_by_pk db pk = inr s ->
  permission_denied (download_song user db pk)
  = negb (Song.is_public s) && negb (Nat.eqb (Song.uploaded_by s) (User.pk user))
  /\ (permission_denied (download_song user db pk) = true ->
      store (download_song user db pk) = db).
Proof.
  intros Hs. unfold song_by_pk in Hs. unfold download_song.
  rewrite (proj2 (get_404_inr _ _ _) Hs).
  destruct (negb (Song.is_public s) && _); split; try reflexivity; discriminate.
Qed.

Lemma edit_song_check (pk : nat) (s : Song.t) (m : Method) (d : SongUploadForm.data) :
  song_by_pk db pk = inr s ->
  permission_denied (edit_song user db pk m d)
  = negb (Nat.eqb (Song.uploaded_by s) (User.pk user)) && negb (User.is_staff user)
  /\ (permission_denied (edit_song user db pk m d) = true ->
      store (edit_song user db pk m d) = db).
Proof.
  intros Hs. unfold song_by_pk in Hs. unfold edit_song.
  rewrite (proj2 (get_404_inr _ _ _) Hs).
  destruct (negb (Nat.eqb (Song.uploaded_by s) (User.pk user)) && _);
    [split; reflexivity|].
  destruct m; [split; [reflexivity|discriminate]|].
  destruct (SongUploadForm.is_valid d db) as [e|[[[[a al] g]|] db1]];
    split; try reflexivity; discriminate.
Qed.

Lemma delete_song_check (pk : nat) (s : Song.t) :
  song_by_pk db pk = inr s ->
  permission_denied (delete_song user db pk POST)
  = negb (Nat.eqb (Song.uploaded_by s) (User.pk user)) && negb (User.is_staff user)
  /\ (permission_denied (delete_song user db pk POST) = true ->
      store (delete_song user db pk POST) = db).
Proof.
  intros Hs. unfold song_by_pk in Hs. unfold delete_song.
  rewrite (proj2 (get_404_inr _ _ _) Hs).
  destruct (negb (Nat.eqb (Song.uploaded_by s) (User.pk user)) && _);
    split; try reflexivity; discriminate.
Qed.

Lemma playlist_detail_check (pk : nat) (p : Playlist.t) :
  playlist_by_pk db pk = inr p ->
  permission_denied (playlist_detail user db pk)
  = negb (Playlist.is_public p) && negb (Nat.eqb (Playlist.user p) (User.pk user))
  /\ (permission_denied (playlist_detail user db pk) = true ->
      store (playlist_detail user db pk) = db).
Proof.
  intros Hp. unfold playlist_by_pk in Hp. unfold playlist_detail.
  rewrite (proj2 (get_404_inr _ _ _) Hp).
  destruct (negb (Playlist.is_public p) && _); split; reflexivity.
Qed.

Lemma own_playlist_lookup (pk : nat) (p : Playlist.t) :
  playlist_by_pk db pk = inr p ->
  get_object_or_404 (own_playlist user pk) (playlists db)
  = if Nat.eqb (Playlist.user p) (User.pk user) then inr p else inl Http404.
Proof.
  intros Hp. apply get_inr_filter in Hp.
  unfold get_object_or_404, ORM.get, own_playlist.
  rewrite filter_andb, Hp. simpl.
  destruct (Nat.eqb (Playlist.user p) (User.pk user)); reflexivity.
Qed.

Lemma edit_playlist_check (pk : nat) (p : Playlist.t) (m : Method) (d : playlist_data) :
  playlist_by_pk db pk = inr p ->
  not_found (edit_playlist user db pk m d)
  = negb (Nat.eqb (Playlist.user p) (User.pk user))
  /\ permission_denied (edit_playlist user db pk m d) = false
  /\ (not_found (edit_playlist user db pk m d) = true ->
      store (edit_playlist user db pk m d) = db).
Proof.
  intros Hp. unfold edit_playlist. rewrite (own_playlist_lookup pk p Hp).
  destruct (Nat.eqb (Playlist.user p) (User.pk user)); [|repeat split].
  destruct m; [repeat split; discriminate|].
  destruct (playlist_field_errors d); repeat split; discriminate.
Qed.

Lemma delete_playlist_check (pk : nat) (p : Playlist.t) :
  playlist_by_pk db pk = inr p ->
  not_found (delete_playlist user db pk POST)
  = negb (Nat.eqb (Playlist.user p) (User.pk user))
  /\ permission_denied (delete_playlist user db pk POST) = false
  /\ (not_found (delete_playlist user db pk POST) = true ->
      store (delete_playlist user db pk POST) = db).
Proof.
  intros Hp. unfold delete_playlist. rewrite (own_playlist_lookup pk p Hp).
  destruct (Nat.eqb (Playlist.user p) (User.pk user)); repeat split; discriminate.
Qed.

End AccessChecks.

(** C1 as the code has it.  Each view looks the row up in the current store
    and decides from its current flags.  song_detail and download_song answer
    with the permission error exactly when the song is not public and the
    requester is not its uploader; edit_song and delete_song exactly when the
    requester is neither the uploader nor staff; playlist_detail exactly when
    the playlist is not public and the requester is not its owner.
    edit_playlist and delete_playlist look the playlist up by (pk, owner):
    every requester other than the owner, staff included, gets Http404 and
    never the permission error.  A refused request leaves the store as it
    was. *)
Theorem access_checks_by_view (user : User.t) (db : DB) :
  (forall pk s,
      song_by_pk db pk = inr s ->
      let hidden :=
        negb (Song.is_public s) && negb (Nat.eqb (Song.uploaded_by s) (User.pk user)) in
      let foreign :=
        negb (Nat.eqb (Song.uploaded_by s) (User.pk user)) && negb (User.is_staff user) in
      (permission_denied (song_detail user db pk) = hidden
       /\ (hidden = true -> store (song_detail user db pk) = db))
      /\ (permission_denied (download_song user db pk) = hidden
          /\ (hidden = true -> store (download_song user db pk) = db))
      /\ (forall m d,
             permission_denied (edit_song user db pk m d) = foreign
             /\ (foreign = true -> store (edit_song user db pk m d) = db))
      /\ (permission_denied (delete_song user db pk POST) = foreign
          /\ (foreign = true -> store (delete_song user db pk POST) = db)))
  /\ (forall pk p,
         playlist_by_pk db pk = inr p ->
         let hidden :=
           negb (Playlist.is_public p)
           && negb (Nat.eqb (Playlist.user p) (User.pk user)) in
         let foreign := negb (Nat.eqb (Playlist.user p) (User.pk user)) in
         (permission_denied (playlist_detail user db pk) = hidden
          /\ (hidden = true -> store (playlist_detail user db pk) = db))
         /\ (forall m d,
                not_found (edit_playlist user db pk m d) = foreign
                /\ permission_denied (edit_playlist user db pk m d) = false
                /\ (foreign = true -> store (edit_playlist user db pk m d) = db))
         /\ (not_found (delete_playlist user db pk POST) = foreign
             /\ permission_denied (delete_playlist user db pk POST) = false
             /\ (foreign = true -> store (delete_playlist user db pk POST) = db))).
Proof.
  split.
  - intros pk s Hs hidden foreign.
    destruct (song_detail_check user db pk s Hs) as [A1 A2].
    destruct (download_song_check user db pk s Hs) as [B1 B2].
    destruct (delete_song_check user db pk s Hs) as [D1 D2].
    fold hidden in A1, B1. fold foreign in D1.
    repeat split; try assumption.
    + intros H. apply A2. now rewrite A1.
    + intros H. apply B2. now rewrite B1.
    + apply (edit_song_check user db pk s m d Hs).
    + intros H. destruct (edit_song_check user db pk s m d Hs) as [C1 C2].
      apply C2. now rewrite C1.
    + intros H. apply D2. now rewrite D1.
  - intros pk p Hp hidden foreign.
    destruct (playlist_detail_check user db pk p Hp) as [A1 A2].
    destruct (delete_playlist_check user db pk p Hp) as (D1 & D2 & D3).
    fold hidden in A1. fold foreign in D1.
    repeat split; try assumption.
    + intros H. apply A2. now rewrite A1.
    + apply (edit_playlist_check user db pk p m d Hp).
    + apply (edit_playlist_check user db pk p m d Hp).
    + intros H. destruct (edit_playlist_check user db pk p m d Hp) as (C1 & _ & C3).
      apply C3. now rewrite C1.
    + intros H. apply D3. now rewrite D1.
Qed.

Lemma access_checks_by_view_witness :
  song_by_pk sample_db 2 = inr airbag
  /\ permission_denied (song_detail bob sample_db 2) = true
  /\ store (song_detail bob sample_db 2) = sample_db.
Proof.
  split; [reflexivity|].
  pose proof (proj1 (access_checks_by_view bob sample_db) 2 airbag eq_refl) as H.
  split.
  - exact (proj1 (proj1 H)).
  - exact (proj2 (proj1 H) eq_refl).
Defined.

(** C1 as stated fails twice: play_song serves a private song to a user who
    is neither its uploader nor staff and records the play, and a foreign
    edit of a playlist ends in Http404, not in the permission error. *)
Lemma access_check_not_uniform :
  Song.is_public airbag = false
  /\ Song.uploaded_by airbag <> User.pk bob
  /\ User.is_staff bob = false
  /\ song_by_pk sample_db 2 = inr airbag
  /\ permission_denied (play_song bob 30 sample_db 2) = false
  /\ response (play_song bob 30 sample_db 2)
     = Content (mk_play_json "success" 1 "Playing Airbag")
  /\ song_by_pk (store (play_song bob 30 sample_db 2)) 2
     = inr (Song.set_play_count 1 airbag)
  /\ playlist_by_pk sample_db 1 = inr mix
  /\ Playlist.user mix <> User.pk bob
  /\ permission_denied (edit_playlist bob sample_db 1 POST renamed_mix) = false
  /\ response (edit_playlist bob sample_db 1 POST renamed_mix) = Raised Http404.
Proof. repeat split; try reflexivity; discriminate. Qed.

(** ** Default visibility *)

(** C10.  A Song built without is_public is public: every user passes the
    visibility rule and the check of song_detail.  A Playlist built without
    is_public is private: playlist_detail refuses everyone but its owner.
    The views agree: the blank upload form shows is_public set and the blank
    playlist form shows it unset, and a valid post that keeps what the form
    showed creates a public song, or a private playlist. *)
Theorem default_visibility :
  (forall pk title artist album genre uploader date,
      let s := Song.init pk title artist album genre uploader date None in
      Song.is_public s = true
      /\ (forall viewer, visible viewer s = true)
      /\ (forall viewer db,
             song_by_pk db pk = inr s ->
             permission_denied (song_detail viewer db pk) = false
             /\ exists c, response (song_detail viewer db pk) = Content c))
  /\ (forall pk name owner created collaborative,
         let p := Playlist.init pk name owner created None collaborative in
         Playlist.is_public p = false
         /\ (forall viewer db,
                playlist_by_pk db pk = inr p ->
                permission_denied (playlist_detail viewer db pk)
                = negb (Nat.eqb owner (User.pk viewer))
                /\ (User.pk viewer = owner ->
                    exists c, response (playlist_detail viewer db pk) = Content c)))
  /\ (forall user now db d,
         response (upload_song user now db GET d) = Content (Unbound true)
         /\ forall a al g db1,
             SongUploadForm.is_valid d db = inr (Some (a, al, g), db1) ->
             SongUploadForm.is_public d = true ->
             exists song,
               songs (store (upload_song user now db POST d)) = songs db1 ++ [song]
               /\ Song.is_public song = true
               /\ Song.uploaded_by song = User.pk user)
  /\ (forall user now db d,
         response (create_playlist user now db GET d) = Content (Unbound false)
         /\ (playlist_field_errors d = false ->
             posted_is_public d = false ->
             exists p,
               playlists (store (create_playlist user now db POST d))
               = playlists db ++ [p]
               /\ Playlist.is_public p = false
               /\ Playlist.user p = User.pk user)).
Proof.
  split; [|split; [|split]].
  - intros pk title artist album genre uploader date s.
    split; [reflexivity|]. split; [reflexivity|].
    intros viewer db Hs. unfold song_by_pk in Hs. unfold song_detail.
    rewrite (proj2 (get_404_inr _ _ _) Hs). simpl. split; [reflexivity|eauto].
  - intros pk name owner created collaborative p.
    split; [reflexivity|].
    intros viewer db Hp. unfold playlist_by_pk in Hp. unfold playlist_detail.
    rewrite (proj2 (get_404_inr _ _ _) Hp). simpl.
    destruct (Nat.eqb owner (User.pk viewer)) eqn:E; simpl.
    + split; [reflexivity|eauto].
    + split; [reflexivity|]. intros H. rewrite H, Nat.eqb_refl in E. discriminate.
  - intros user now db d. split; [reflexivity|].
    intros a al g db1 Hv Hpub. unfold upload_song. rewrite Hv. simpl.
    eexists. split; [reflexivity|]. split; [exact Hpub|reflexivity].
  - intros user now db d. split; [reflexivity|].
    intros He Hpub. unfold create_playlist. rewrite He. simpl.
    eexists. split; [reflexivity|]. split; [exact Hpub|reflexivity].
Qed.

Lemma default_visibility_witness :
  playlist_by_pk fresh_db 7 = inr fresh_playlist
  /\ permission_denied (playlist_detail bob fresh_db 7) = true.
Proof.
  split; [reflexivity|].
  exact (proj1 (proj2 (proj1 (proj2 default_visibility) 7 "New" 1 60 None)
                  bob fresh_db eq_refl)).
Defined.

(** ** Catalog resolution *)

Section Resolution.
Variable db : DB.

Lemma resolve_artist_twice (name : string) :
  List.length (artists_named db (Py.strip name)) <= 1 ->
  exists a created db1,
    resolve_artist name db = inr (a, created, db1)
    /\ Artist.name a = Py.strip name
    /\ artists_named db1 (Py.strip name) = [a]
    /\ (created = false -> db1 = db)
    /\ forall name', Py.strip name' = Py.strip name ->
                     resolve_artist name' db1 = inr (a, false, db1).
Proof.
  unfold resolve_artist, Artist_get_or_create, Artist_create, ORM.get, artists_named.
  set (key := Py.strip name).
  set (p := fun a => String.eqb (Artist.name a) key).
  destruct (filter p (artists db)) as [|a0 [|a1 t]] eqn:Ef; intros Hlen;
    [| |simpl in Hlen; lia].
  - set (a := Artist.mk (ORM.next_pk Artist.pk (artists db)) key).
    assert (E1 : filter p (artists db ++ [a]) = [a]).
    { rewrite filter_app_one, Ef. unfold p at 1. simpl. now rewrite String.eqb_refl. }
    exists a, true, (with_artists (artists db ++ [a]) db).
    split; [reflexivity|]. split; [reflexivity|]. split; [exact E1|].
    split; [discriminate|].
    intros name' ->. simpl. fold p. now rewrite E1.
  - assert (Hn : p a0 = true)
      by (apply (proj1 (filter_In p a0 (artists db))); rewrite Ef; now left).
    exists a0, false, db.
    split; [reflexivity|]. split; [now apply String.eqb_eq in Hn|].
    split; [exact Ef|]. split; [reflexivity|].
    intros name' ->. fold p. now rewrite Ef.
Qed.

Lemma resolve_album_twice (title : string) (artist : Artist.t) :
  List.length (albums_named db (Py.strip title) (Artist.pk artist)) <= 1 ->
  exists a created db1,
    resolve_album title artist db = inr (a, created, db1)
    /\ Album.title a = Py.strip title /\ Album.artist a = Artist.pk artist
    /\ albums_named db1 (Py.strip title) (Artist.pk artist) = [a]
    /\ (created = false -> db1 = db)
    /\ forall title', Py.strip title' = Py.strip title ->
                      resolve_album title' artist db1 = inr (a, false, db1).
Proof.
  unfold resolve_album, Album_get_or_create, Album_create, ORM.get, albums_named.
  set (key := Py.strip title).
  set (p := fun a => String.eqb (Album.title a) key
                     && Nat.eqb (Album.artist a) (Artist.pk artist)).
  destruct (filter p (albums db)) as [|a0 [|a1 t]] eqn:Ef; intros Hlen;
    [| |simpl in Hlen; lia].
  - set (a := Album.mk (ORM.next_pk Album.pk (albums db)) key (Artist.pk artist)).
    assert (E1 : filter p (albums db ++ [a]) = [a]).
    { rewrite filter_app_one, Ef. unfold p at 1. simpl.
      now rewrite String.eqb_refl, Nat.eqb_refl. }
    exists a, true, (with_albums (albums db ++ [a]) db).
    split; [reflexivity|]. split; [reflexivity|]. split; [reflexivity|].
    split; [exact E1|]. split; [discriminate|].
    intros title' ->. simpl. fold p. now rewrite E1.
  - assert (Hn : p a0 = true)
      by (apply (proj1 (filter_In p a0 (albums db))); rewrite Ef; now left).
    apply andb_true_iff in Hn as [Hn1 Hn2].
    exists a0, false, db.
    split; [reflexivity|]. split; [now apply String.eqb_eq in Hn1|].
    split; [now apply Nat.eqb_eq in Hn2|].
    split; [exact Ef|]. split; [reflexivity|].
    intros title' ->. fold p. now rewrite Ef.
Qed.

Lemma resolve_genre_twice (name : string) :
  List.length (genres_named db (Py.strip name)) <= 1 ->
  exists g created db1,
    resolve_genre name db = inr (g, created, db1)
    /\ Genre.name g = Py.strip name
    /\ genres_named db1 (Py.strip name) = [g]
    /\ (created = false -> db1 = db)
    /\ forall name', Py.strip name' = Py.strip name ->
                     resolve_genre name' db1 = inr (g, false, db1).
Proof.
  unfold resolve_genre, Genre_get_or_create, Genre_create, ORM.get, genres_named.
  set (key := Py.strip name).
  set (p := fun g => String.eqb (Genre.name g) key).
  destruct (filter p (genres db)) as [|g0 [|g1 t]] eqn:Ef; intros Hlen;
    [| |simpl in Hlen; lia].
  - rewrite (filter_nil_existsb _ _ Ef).
    set (g := Genre.mk (ORM.next_pk Genre.pk (genres db)) key).
    assert (E1 : filter p (genres db ++ [g]) = [g]).
    { rewrite filter_app_one, Ef. unfold p at 1. simpl. now rewrite String.eqb_refl. }
    exists g, true, (with_genres (genres db ++ [g]) db).
    split; [reflexivity|]. split; [reflexivity|]. split; [exact E1|].
    split; [discriminate|].
    intros name' ->. simpl. fold p. now rewrite E1.
  - assert (Hn : p g0 = true)
      by (apply (proj1 (filter_In p g0 (genres db))); rewrite Ef; now left).
    exists g0, false, db.
    split; [reflexivity|]. split; [now apply String.eqb_eq in Hn|].
    split; [exact Ef|]. split; [reflexivity|].
    intros name' ->. fold p. now rewrite Ef.
Qed.

Lemma Genre_create_unique (name : string) :
  genres_named db name <> [] -> Genre_create name db = inl ORM.IntegrityError.
Proof.
  unfold genres_named, Genre_create. intros H.
  destruct (existsb _ (genres db)) eqn:E; [reflexivity|].
  exfalso. apply H. clear H.
  induction (genres db) as [|g r IH]; [reflexivity|].
  simpl in *. apply orb_false_iff in E as [-> E]. now apply IH.
Qed.

Lemma Artist_create_adds (name : string) :
  artists_named (snd (Artist_create name db)) name
  = artists_named db name ++ [fst (Artist_create name db)].
Proof.
  unfold artists_named, Artist_create. simpl.
  rewrite filter_app_one. simpl. now rewrite String.eqb_refl.
Qed.

Lemma Album_create_adds (title : string) (artist : Artist.t) :
  albums_named (snd (Album_create title artist db)) title (Artist.pk artist)
  = albums_named db title (Artist.pk artist) ++ [fst (Album_create title artist db)].
Proof.
  unfold albums_named, Album_create. simpl.
  rewrite filter_app_one. simpl. now rewrite String.eqb_refl, Nat.eqb_refl.
Qed.

End Resolution.

(** C3 as the code has it.  On a store with at most one row for the
    stripped key, resolving an artist, an album or a genre returns a row with
    that key and leaves exactly that one row for it; resolving again, under
    any name that strips to the same text, returns the same row and creates
    nothing.  Only Genre rejects a second row with the same name; a direct
    insert of an Artist or an Album with an existing key adds a second
    row. *)
Theorem catalog_resolution_idempotent (db : DB) :
  (forall name,
      List.length (artists_named db (Py.strip name)) <= 1 ->
      exists a created db1,
        resolve_artist name db = inr (a, created, db1)
        /\ Artist.name a = Py.strip name
        /\ artists_named db1 (Py.strip name) = [a]
        /\ (created = false -> db1 = db)
        /\ forall name', Py.strip name' = Py.strip name ->
                         resolve_artist name' db1 = inr (a, false, db1))
  /\ (forall title artist,
         List.length (albums_named db (Py.strip title) (Artist.pk artist)) <= 1 ->
         exists a created db1,
           resolve_album title artist db = inr (a, created, db1)
           /\ Album.title a = Py.strip title /\ Album.artist a = Artist.pk artist
           /\ albums_named db1 (Py.strip title) (Artist.pk artist) = [a]
           /\ (created = false -> db1 = db)
           /\ forall title', Py.strip title' = Py.strip title ->
                             resolve_album title' artist db1 = inr (a, false, db1))
  /\ (forall name,
         List.length (genres_named db (Py.strip name)) <= 1 ->
         exists g created db1,
           resolve_genre name db = inr (g, created, db1)
           /\ Genre.name g = Py.strip name
           /\ genres_named db1 (Py.strip name) = [g]
           /\ (created = false -> db1 = db)
           /\ forall name', Py.strip name' = Py.strip name ->
                            resolve_genre name' db1 = inr (g, false, db1))
  /\ (forall name, genres_named db name <> [] ->
                   Genre_create name db = inl ORM.IntegrityError)
  /\ (forall name,
         artists_named (snd (Artist_create name db)) name
         = artists_named db name ++ [fst (Artist_create name db)])
  /\ (forall title artist,
         albums_named (snd (Album_create title artist db)) title (Artist.pk artist)
         = albums_named db title (Artist.pk artist)
           ++ [fst (Album_create title artist db)]).
Proof.
  split; [exact (resolve_artist_twice db)|].
  split; [exact (resolve_album_twice db)|].
  split; [exact (resolve_genre_twice db)|].
  split; [exact (Genre_create_unique db)|].
  split; [exact (Artist_create_adds db)|exact (Album_create_adds db)].
Qed.

Lemma catalog_resolution_idempotent_witness :
  List.length (artists_named empty_db (Py.strip " Radiohead ")) <= 1
  /\ exists a created db1,
      resolve_artist " Radiohead " empty_db = inr (a, created, db1)
      /\ Artist.name a = "Radiohead"
      /\ artists_named db1 "Radiohead" = [a]
      /\ resolve_artist "Radiohead" db1 = inr (a, false, db1).
Proof.
  split; [vm_compute; lia|].
  destruct (proj1 (catalog_resolution_idempotent empty_db) " Radiohead "
                  (Nat.le_0_l 1))
    as (a & created & db1 & H1 & H2 & H3 & _ & H5).
  exists a, created, db1.
  split; [exact H1|]. split; [exact H2|]. split; [exact H3|].
  exact (H5 "Radiohead" eq_refl).
Defined.

(** C3 as stated fails on its last part: the store accepts a second Artist
    row named like an existing one, and resolution then returns no
    identifier at all. *)
Lemma artist_name_not_unique :
  artists_named sample_db "Radiohead" = [Artist.mk 1 "Radiohead"]
  /\ artists_named (snd (Artist_create "Radiohead" sample_db)) "Radiohead"
     = [Artist.mk 1 "Radiohead"; Artist.mk 2 "Radiohead"]
  /\ resolve_artist "Radiohead" (snd (Artist_create "Radiohead" sample_db))
     = inl ORM.MultipleObjectsReturned.
Proof. repeat split. Qed.

(** ** Sort keys of the song listing *)

Lemma String_leb_total (a b : string) : String.leb a b = true \/ String.leb b a = true.
Proof.
  unfold String.leb. rewrite (String.compare_antisym a b).
  destruct (String.compare b a); simpl; auto.
Qed.

(** The four keys of [valid_sorts] do order the listing. *)
Lemma song_list_accepted_keys (user : User.t) (db : DB) :
  (exists qs, song_list_queryset user db None None None (Some "-upload_date") = inr qs
              /\ Sorted (fun a b => Song.upload_date b <= Song.upload_date a) qs)
  /\ (exists qs, song_list_queryset user db None None None (Some "title") = inr qs
                 /\ Sorted (fun a b => String.leb (Song.title a) (Song.title b) = true) qs)
  /\ (exists qs, song_list_queryset user db None None None (Some "-play_count") = inr qs
                 /\ Sorted (fun a b => (Song.play_count b <= Song.play_count a)%Z) qs)
  /\ (exists qs, song_list_queryset user db None None None (Some "artist__name") = inr qs
                 /\ Sorted (fun a b => String.leb (artist__name db a) (artist__name db b)
                                       = true) qs).
Proof.
  unfold song_list_queryset, filter_id. simpl. repeat split; eexists; (split; [reflexivity|]).
  - eapply Sorted_ind with (P := fun l => Sorted _ l);
      [constructor| |apply (order_by_sorted by_upload_date_desc)].
    + intros a l _ IH Hhd. constructor; [exact IH|].
      destruct Hhd; constructor. now apply Nat.leb_le.
    + intros a b. unfold by_upload_date_desc. rewrite !Nat.leb_le. lia.
  - apply (order_by_sorted by_title). intros a b. apply String_leb_total.
  - eapply Sorted_ind with (P := fun l => Sorted _ l);
      [constructor| |apply (order_by_sorted by_play_count_desc)].
    + intros a l _ IH Hhd. constructor; [exact IH|].
      destruct Hhd; constructor. now apply Z.leb_le.
    + intros a b. unfold by_play_count_desc. rewrite !Z.leb_le. lia.
  - apply (order_by_sorted (by_artist_name db)). intros a b. apply String_leb_total.
Qed.

(** C5, where the code departs from it.  The two keys that only the form
    lists, upload_date (oldest first) and -title (Z-A), are not in the view's
    allow-list: with either of them the listing keeps the default order,
    newest first.  In the sample store Airbag (uploaded at 20) comes before
    Creep (uploaded at 10) under both keys, where oldest-first and Z-A both
    put Creep first. *)
Theorem song_list_drops_two_form_keys :
  (forall user db,
      song_list_queryset user db None None None (Some "upload_date")
      = inr (filter (visible user) (Song_objects db))
      /\ song_list_queryset user db None None None (Some "-title")
         = inr (filter (visible user) (Song_objects db))
      /\ song_list_queryset user db None None None None
         = inr (ORM.order_by by_upload_date_desc (filter (visible user) (Song_objects db))))
  /\ song_list_queryset alice sample_db None None None (Some "upload_date")
     = inr [airbag; creep]
  /\ song_list_queryset alice sample_db None None None (Some "-title")
     = inr [airbag; creep]
  /\ Song.upload_date creep < Song.upload_date airbag
  /\ String.ltb (Song.title airbag) (Song.title creep) = true.
Proof. repeat split; try reflexivity. vm_compute. lia. Qed.

(** ** Most played songs *)

Lemma firstn_incl {A : Type} (n : nat) (l : list A) (x : A) :
  In x (firstn n l) -> In x l.
Proof.
  intros H. rewrite <- (firstn_skipn n l). apply in_or_app. now left.
Qed.

Lemma firstn_NoDup {A : Type} (n : nat) (l : list A) : NoDup l -> NoDup (firstn n l).
Proof.
  intros H. rewrite <- (firstn_skipn n l) in H. now apply NoDup_app_remove_r in H.
Qed.

Lemma StronglySorted_app_le {A : Type} (R : A -> A -> Prop) (l1 l2 : list A) :
  StronglySorted R (l1 ++ l2) -> forall a b, In a l1 -> In b l2 -> R a b.
Proof.
  induction l1 as [|x r IH]; simpl; intros H a b Ha Hb; [contradiction|].
  inversion H as [|? ? Hs Hall]; subst.
  destruct Ha as [->|Ha].
  - rewrite Forall_forall in Hall. apply Hall, in_or_app. now right.
  - now apply IH.
Qed.

Lemma StronglySorted_firstn {A : Type} (R : A -> A -> Prop) (n : nat) (l : list A) :
  StronglySorted R l -> StronglySorted R (firstn n l).
Proof.
  intros H. revert n. induction H as [|x r Hs IH Hall]; intros [|n]; simpl;
    try constructor.
  - apply IH.
  - rewrite Forall_forall in *. intros y Hy. apply Hall. eapply firstn_incl; eauto.
Qed.

Lemma count_occ_map_filter {A : Type} (f : A -> nat) (l : list A) (k : nat) :
  count_occ Nat.eq_dec (map f l) k = ORM.count (fun x => Nat.eqb (f x) k) l.
Proof.
  unfold ORM.count. induction l as [|x r IH]; simpl; [reflexivity|].
  destruct (Nat.eq_dec (f x) k) as [E|E].
  - apply Nat.eqb_eq in E. rewrite E. simpl. now rewrite IH.
  - apply Nat.eqb_neq in E. now rewrite E.
Qed.

Section MostPlayed.
Variables (user : User.t) (db : DB).

Let rows := filter (by_user user) (playhistory db).
Let groups := values_song_count rows.
Let ordered := ORM.order_by by_count_desc groups.

Lemma groups_In (song n : nat) :
  In (song, n) groups
  <-> In song (map PlayHistory.song rows)
      /\ n = ORM.count (fun h => Nat.eqb (PlayHistory.song h) song) rows.
Proof.
  unfold groups, values_song_count. rewrite in_map_iff. split.
  - intros (k & [= <- <-] & Hk). apply order_by_In, nodup_In in Hk.
    split; [exact Hk|apply count_occ_map_filter].
  - intros [Hs ->]. exists song. split.
    + f_equal. apply count_occ_map_filter.
    + now apply order_by_In, nodup_In.
Qed.

Lemma groups_fst :
  Permutation (map fst groups) (nodup Nat.eq_dec (map PlayHistory.song rows)).
Proof.
  unfold groups, values_song_count. rewrite map_map. simpl. rewrite map_id.
  apply order_by_perm.
Qed.

Lemma ordered_sorted : StronglySorted (fun a b => snd b <= snd a) ordered.
Proof.
  apply Sorted_StronglySorted; [intros a b c; lia|].
  assert (H : Sorted (fun a b => by_count_desc a b = true) ordered).
  { apply order_by_sorted. intros a b. unfold by_count_desc.
    rewrite !Nat.leb_le. lia. }
  induction H as [|a l _ IH Hhd]; constructor; [exact IH|].
  destruct Hhd as [|b l' Hb]; constructor. now apply Nat.leb_le in Hb.
Qed.

Lemma most_played_facts :
  let res := most_played user db in
  (forall song n,
      In (song, n) res ->
      n = ORM.count (fun h => Nat.eqb (PlayHistory.song h) song) rows /\ 1 <= n)
  /\ NoDup (map fst res)
  /\ StronglySorted (fun a b => snd b <= snd a) res
  /\ List.length res
     = Nat.min 10 (List.length (nodup Nat.eq_dec (map PlayHistory.song rows)))
  /\ (forall song,
         In song (map PlayHistory.song rows) -> ~ In song (map fst res) ->
         forall song' n', In (song', n') res ->
           ORM.count (fun h => Nat.eqb (PlayHistory.song h) song) rows <= n').
Proof.
  unfold most_played. fold rows groups ordered. cbv zeta.
  split; [|split; [|split; [|split]]].
  - intros song n H. apply firstn_incl, order_by_In, groups_In in H as [Hs Hn].
    split; [exact Hn|]. subst n. rewrite <- count_occ_map_filter.
    now apply count_occ_In.
  - rewrite <- firstn_map. apply firstn_NoDup.
    apply Permutation_NoDup with (l := map fst groups).
    + apply Permutation_map. symmetry. apply order_by_perm.
    + apply Permutation_NoDup with (l := nodup Nat.eq_dec (map PlayHistory.song rows));
        [symmetry; apply groups_fst|apply NoDup_nodup].
  - apply StronglySorted_firstn, ordered_sorted.
  - rewrite length_firstn. unfold ordered.
    rewrite order_by_length, <- (Permutation_length groups_fst), length_map.
    reflexivity.
  - intros song Hs Hout song' n' Hin.
    set (c := ORM.count (fun h => Nat.eqb (PlayHistory.song h) song) rows).
    assert (Hg : In (song, c) ordered).
    { apply order_by_In, groups_In. split; [exact Hs|reflexivity]. }
    rewrite <- (firstn_skipn 10 ordered) in Hg.
    apply in_app_or in Hg as [Hg|Hg].
    + exfalso. apply Hout. change song with (fst (song, c)). now apply in_map.
    + pose proof ordered_sorted as Hso.
      rewrite <- (firstn_skipn 10 ordered) in Hso.
      exact (StronglySorted_app_le _ _ _ Hso _ _ Hin Hg).
Qed.

End MostPlayed.

(** C4 as the code has it.  The most_played query of user_stats has one
    entry per song the user played, carrying the number of the user's history
    rows of that song; the entries are in descending order of that count and
    at most ten are kept, so a song left out has no more plays than any song
    kept.  The order among equal counts is not fixed by the query.  On the
    history with song 1 three times, song 2 five times and song 3 once the
    result is song 2, song 1, song 3. *)
Theorem most_played_by_count :
  (forall user db,
      let rows := filter (by_user user) (playhistory db) in
      let res := most_played user db in
      (forall song n,
          In (song, n) res ->
          n = ORM.count (fun h => Nat.eqb (PlayHistory.song h) song) rows /\ 1 <= n)
      /\ NoDup (map fst res)
      /\ StronglySorted (fun a b => snd b <= snd a) res
      /\ List.length res
         = Nat.min 10 (List.length (nodup Nat.eq_dec (map PlayHistory.song rows)))
      /\ (forall song,
             In song (map PlayHistory.song rows) -> ~ In song (map fst res) ->
             forall song' n', In (song', n') res ->
               ORM.count (fun h => Nat.eqb (PlayHistory.song h) song) rows <= n'))
  /\ most_played alice stats_db = [(2, 5); (1, 3); (3, 1)]
  /\ most_played alice stats_db = most_played_spec alice stats_db 10
  /\ exists c, response (user_stats alice stats_db) = Content c
               /\ map (fun x => (Song.pk (fst x), snd x)) (ctx_most_played_songs c)
                  = [(2, 5); (1, 3); (3, 1)].
Proof.
  split; [intros user db; apply most_played_facts|].
  split; [reflexivity|]. split; [reflexivity|].
  eexists. split; reflexivity.
Qed.

Lemma most_played_by_count_witness :
  In (2, 5) (most_played alice stats_db)
  /\ 5 = ORM.count (fun h => Nat.eqb (PlayHistory.song h) 2)
                   (filter (by_user alice) (playhistory stats_db)).
Proof.
  split; [left; reflexivity|].
  exact (proj1 (proj1 (proj1 most_played_by_count alice stats_db) 2 5
                      (or_introl eq_refl))).
Defined.

(** C4 as stated fails on ties and on the limit.  With song 2 played once
    and then song 1 played once, the most recent play is of song 1 and
    should lead; the query has no such order key and the code lists song 2
    first.  With eleven songs a limit of eleven still yields ten rows. *)
Lemma most_played_ties_and_limit :
  most_played alice tie_db = [(2, 1); (1, 1)]
  /\ most_played_spec alice tie_db 10 = [(1, 1); (2, 1)]
  /\ by_count_desc (1, 1) (2, 1) = true /\ by_count_desc (2, 1) (1, 1) = true
  /\ List.length (most_played alice eleven_db) = 10
  /\ List.length (most_played_spec alice eleven_db 11) = 11.
Proof. repeat split. Qed.


(** * Further properties of the code *)

(** ** The pages of a paginator *)

Lemma chunks_concat {A : Type} (p k : nat) :
  forall l : list A,
    List.length l <= k * p ->
    List.concat (map (fun i => firstn p (skipn (i * p) l)) (seq 0 k)) = l.
Proof.
  induction k as [|k IH]; intros l Hl.
  - destruct l; [reflexivity|simpl in Hl; lia].
  - cbn [seq map List.concat]. rewrite <- seq_shift, map_map.
    rewrite skipn_0.
    transitivity (firstn p l ++ skipn p l); [|apply firstn_skipn]. f_equal.
    rewrite <- (IH (skipn p l)) by (rewrite length_skipn; lia).
    f_equal. apply map_ext. intros i.
    rewrite skipn_skipn. do 2 f_equal. lia.
Qed.

Section Pages.
Context {A : Type} (objects : list A) (per_page : Z).
Hypothesis per_page_pos : (0 < per_page)%Z.

Lemma num_pages_cover :
  (Z.of_nat (List.length objects) <= Paginator.num_pages objects per_page * per_page)%Z.
Proof.
  unfold Paginator.num_pages, Paginator.orphans, Paginator.count.
  set (a := (Z.max 1 (Z.of_nat (List.length objects) - 0) + per_page - 1)%Z).
  pose proof (Z.div_mod a per_page ltac:(lia)) as Hd.
  pose proof (Z.mod_pos_bound a per_page per_page_pos) as Hm.
  assert (Z.of_nat (List.length objects) <= a - (per_page - 1))%Z by (unfold a; lia).
  nia.
Qed.

Lemma num_pages_tight :
  (1 <= Z.of_nat (List.length objects) ->
   (Paginator.num_pages objects per_page - 1) * per_page
   < Z.of_nat (List.length objects))%Z.
Proof.
  intros Hc.
  unfold Paginator.num_pages, Paginator.orphans, Paginator.count.
  set (a := (Z.max 1 (Z.of_nat (List.length objects) - 0) + per_page - 1)%Z).
  pose proof (Z.div_mod a per_page ltac:(lia)) as Hd.
  pose proof (Z.mod_pos_bound a per_page per_page_pos) as Hm.
  assert (a = Z.of_nat (List.length objects) + per_page - 1)%Z by (unfold a; lia).
  nia.
Qed.

Lemma page_objects_chunk (n : Z) :
  (1 <= n <= Paginator.num_pages objects per_page)%Z ->
  Paginator.page objects per_page (Paginator.PyInt n)
  = inr (Paginator.mkPage
           (firstn (Z.to_nat per_page)
                   (skipn (Z.to_nat (n - 1) * Z.to_nat per_page) objects)) n).
Proof.
  intros [H1 H2]. unfold Paginator.page, Paginator.validate_number. simpl.
  destruct (n <? 1)%Z eqn:E1; [apply Z.ltb_lt in E1; lia|].
  destruct (n >? Paginator.num_pages objects per_page)%Z eqn:E2;
    [apply Z.gtb_lt in E2; lia|].
  do 2 f_equal.
  unfold Paginator.slice, Paginator.orphans, Paginator.count.
  replace (Z.to_nat ((n - 1) * per_page)) with (Z.to_nat (n - 1) * Z.to_nat per_page)
    by (rewrite Z2Nat.inj_mul by lia; reflexivity).
  set (b := Z.to_nat (n - 1) * Z.to_nat per_page).
  assert (Hb : ((n - 1) * per_page = Z.of_nat b)%Z)
    by (unfold b; rewrite Nat2Z.inj_mul, !Z2Nat.id by lia; reflexivity).
  rewrite Hb.
  destruct (Z.of_nat b + per_page + 0 >=? Z.of_nat (List.length objects))%Z eqn:E.
  - apply Z.geb_le in E.
    rewrite !firstn_all2; [reflexivity| |]; rewrite length_skipn; lia.
  - f_equal. lia.
Qed.

Lemma all_pages_chunks :
  all_pages objects per_page
  = map (fun i => firstn (Z.to_nat per_page) (skipn (i * Z.to_nat per_page) objects))
        (seq 0 (Z.to_nat (Paginator.num_pages objects per_page))).
Proof.
  unfold all_pages. rewrite <- seq_shift, map_map.
  apply map_ext_in. intros i Hi. apply in_seq in Hi.
  unfold page_objects. rewrite page_objects_chunk by lia.
  cbn [Paginator.object_list].
  replace (Z.to_nat (Z.of_nat (S i) - 1)) with i by lia. reflexivity.
Qed.

End Pages.

(** For a positive page size the pages 1 .. num_pages, read in order, are
    the object list cut into consecutive pieces. *)
Lemma pages_partition (A : Type) (objects : list A) (per_page : Z) :
  (0 < per_page)%Z ->
  List.concat (all_pages objects per_page) = objects
  /\ Forall (fun l => Z.of_nat (List.length l) <= per_page)%Z (all_pages objects per_page)
  /\ (forall n, (1 <= n < Paginator.num_pages objects per_page)%Z ->
                Z.of_nat (List.length (page_objects objects per_page n)) = per_page).
Proof.
  intros Hpp. pose proof (num_pages_pos objects per_page Hpp) as Hn.
  pose proof (num_pages_cover objects per_page Hpp) as Hc.
  rewrite (all_pages_chunks objects per_page Hpp). split; [|split].
  - apply chunks_concat.
    apply Nat2Z.inj_le. rewrite Nat2Z.inj_mul, !Z2Nat.id by lia. exact Hc.
  - apply Forall_forall. intros l Hl. apply in_map_iff in Hl as (i & <- & _).
    rewrite length_firstn. lia.
  - intros n Hr. unfold page_objects.
    rewrite (page_objects_chunk objects per_page Hpp n) by lia.
    cbn [Paginator.object_list].
    rewrite length_firstn, length_skipn.
    assert (Hl : (1 <= Z.of_nat (List.length objects))%Z).
    { destruct objects; [|cbn [List.length]; lia].
      assert (E : Paginator.num_pages (@nil A) per_page = 1%Z).
      { unfold Paginator.num_pages, Paginator.orphans, Paginator.count.
        cbn [List.length Z.of_nat].
        replace (Z.max 1 (0 - 0) + per_page - 1)%Z with (1 * per_page)%Z by lia.
        apply Z.div_mul. lia. }
      lia. }
    pose proof (num_pages_tight objects per_page Hpp Hl) as Ht.
    assert (Hb : (Z.of_nat (Z.to_nat (n - 1) * Z.to_nat per_page) = (n - 1) * per_page)%Z)
      by (rewrite Nat2Z.inj_mul, !Z2Nat.id by lia; reflexivity).
    assert ((n - 1) * per_page + per_page
            <= (Paginator.num_pages objects per_page - 1) * per_page)%Z by nia.
    lia.
Qed.

Lemma get_page_in_range {A : Type} (objects : list A) (per_page : Z) (n : nat) :
  (0 < per_page)%Z ->
  (1 <= Z.of_nat n <= Paginator.num_pages objects per_page)%Z ->
  Paginator.get_page objects per_page (page_param n)
  = inr (Paginator.mkPage (page_objects objects per_page (Z.of_nat n)) (Z.of_nat n)).
Proof.
  intros Hpp Hn. unfold Paginator.get_page, page_param.
  assert (E : Paginator.page objects per_page (Paginator.PyStr (Py.str (Z.of_nat n)))
              = Paginator.page objects per_page (Paginator.PyInt (Z.of_nat n))).
  { unfold Paginator.page, Paginator.validate_number. cbn [Paginator.to_int].
    now rewrite int_str by lia. }
  rewrite E. unfold page_objects.
  rewrite (page_objects_chunk objects per_page Hpp (Z.of_nat n) Hn). reflexivity.
Qed.

(** ** Pagination of the listings *)

Section GetPageCases.
Context {A : Type} (objects : list A) (per_page : Z).
Hypothesis per_page_pos : (0 < per_page)%Z.

Let last : Z := last_page_number (Z.of_nat (List.length objects)) per_page.
Let rows (k : Z) : list A := rows_of_page objects per_page k.

Lemma num_pages_value : Paginator.num_pages objects per_page = last.
Proof.
  unfold Paginator.num_pages, Paginator.orphans, Paginator.count, last,
    last_page_number.
  now rewrite Z.sub_0_r.
Qed.

Lemma page_rows (n : Z) :
  (1 <= n <= last)%Z ->
  Paginator.page objects per_page (Paginator.PyInt n) = inr (Paginator.mkPage (rows n) n).
Proof.
  intros Hn. rewrite <- num_pages_value in Hn.
  rewrite (page_objects_chunk objects per_page per_page_pos n Hn).
  unfold rows, rows_of_page.
  rewrite Z2Nat.inj_mul by lia. reflexivity.
Qed.

Lemma last_pos : (1 <= last)%Z.
Proof. rewrite <- num_pages_value. now apply num_pages_pos. Qed.

(** The try/except block, case by case. *)
Lemma get_page_cases (param : option string) :
  Paginator.get_page objects per_page param
  = inr (match match param with Some s => Py.int s | None => None end with
         | None => Paginator.mkPage (rows 1) 1
         | Some n =>
             if ((1 <=? n) && (n <=? last))%Z
             then Paginator.mkPage (rows n) n
             else Paginator.mkPage (rows last) last
         end).
Proof.
  pose proof last_pos as Hl. unfold Paginator.get_page.
  set (arg := match param with
              | Some s => Paginator.PyStr s
              | None => Paginator.PyNone
              end).
  assert (E : Paginator.to_int arg
              = match param with Some s => Py.int s | None => None end)
    by now destruct param.
  destruct (match param with Some s => Py.int s | None => None end) as [n|].
  - assert (En : Paginator.page objects per_page arg
                 = Paginator.page objects per_page (Paginator.PyInt n)).
    { unfold Paginator.page, Paginator.validate_number. now rewrite E. }
    rewrite En.
    destruct ((1 <=? n) && (n <=? last))%Z eqn:Er.
    + apply andb_true_iff in Er as [E1 E2]. apply Z.leb_le in E1, E2.
      now rewrite page_rows by lia.
    + assert (Ee : Paginator.page objects per_page (Paginator.PyInt n)
                   = inl Paginator.EmptyPage).
      { unfold Paginator.page, Paginator.validate_number. cbn [Paginator.to_int].
        rewrite num_pages_value.
        destruct (n <? 1)%Z eqn:E1; [reflexivity|].
        destruct (n >? last)%Z eqn:E2; [reflexivity|].
        apply Z.ltb_ge in E1. rewrite Z.gtb_ltb in E2. apply Z.ltb_ge in E2.
        apply andb_false_iff in Er as [Er|Er]; apply Z.leb_gt in Er; lia. }
      rewrite Ee, num_pages_value. apply page_rows. lia.
  - assert (En : Paginator.page objects per_page arg = inl Paginator.PageNotAnInteger).
    { unfold Paginator.page, Paginator.validate_number. now rewrite E. }
    rewrite En. apply page_rows. lia.
Qed.

(** A page of a list that is not empty has a row. *)
Lemma rows_nonempty (n : Z) :
  objects <> [] -> (1 <= n <= last)%Z -> rows n <> [].
Proof.
  intros Hne Hn.
  assert (Hc : (1 <= Z.of_nat (List.length objects))%Z)
    by (destruct objects; [congruence|cbn [List.length]; lia]).
  pose proof (num_pages_tight objects per_page per_page_pos Hc) as Ht.
  rewrite num_pages_value in Ht.
  assert (Hs : Z.to_nat ((n - 1) * per_page) < List.length objects) by nia.
  unfold rows, rows_of_page. intros E.
  apply (f_equal (@List.length A)) in E.
  rewrite length_firstn, length_skipn in E. cbn [List.length] in E. lia.
Qed.

End GetPageCases.

(** C9.  The listings are cut into pages of 20 songs, 24 artists and 50
    history rows, and the pagination step the three views share never lets
    an exception out.  With [last] the number of the last page (the count,
    or 1 when there is nothing, divided by the page size and rounded up):
    a parameter that is missing, or is ASCII text that [int] rejects, gets
    page 1; an integer beyond [last], written in at most 4300 characters,
    gets page [last], whose rows are the tail of the listing.  So "abc" and
    "9999" on three items give page 1 with the three items, and "9999" on 45
    items gives page 3 with the last five.  song_list and play_history
    render the page so chosen, for such a page parameter and for filter
    values of at most 18 ASCII characters.  artist_list does not: its rows
    cannot be built, and on a store with an artist it raises AttributeError
    whatever page is asked; only the empty artist table renders. *)
Theorem listing_pagination :
  (songs_per_page = 20 /\ artists_per_page = 24 /\ history_per_page = 50)%Z
  /\ (forall (A : Type) (objects : list A) (per_page : Z) (param : option string),
         (0 < per_page)%Z ->
         let last := last_page_number (Z.of_nat (List.length objects)) per_page in
         (exists pg, Paginator.get_page objects per_page param = inr pg)
         /\ (ascii_param param -> not_an_integer param ->
             Paginator.get_page objects per_page param
             = inr (Paginator.mkPage (rows_of_page objects per_page 1) 1))
         /\ (forall s n,
                param = Some s -> Py.int s = Some n -> String.length s <= 4300 ->
                (last < n)%Z ->
                Paginator.get_page objects per_page param
                = inr (Paginator.mkPage (rows_of_page objects per_page last) last)
                /\ rows_of_page objects per_page last
                   = skipn (Z.to_nat ((last - 1) * per_page)) objects))
  /\ (forall (A : Type) (a b c : A),
         Paginator.get_page [a; b; c] songs_per_page (Some "abc")
         = inr (Paginator.mkPage [a; b; c] 1)
         /\ Paginator.get_page [a; b; c] songs_per_page (Some "9999")
            = inr (Paginator.mkPage [a; b; c] 1))
  /\ (Paginator.get_page (seq 1 45) songs_per_page (Some "9999")
      = inr (Paginator.mkPage [41; 42; 43; 44; 45] 3)
      /\ Paginator.get_page (seq 1 45) songs_per_page (Some "abc")
         = inr (Paginator.mkPage (seq 1 20) 1))
  /\ (forall user db genre artist album sort page,
         (forall e, response (song_list user db genre artist album sort page)
                    <> Raised (PageError e))
         /\ (short_id genre -> short_id artist -> short_id album -> plain_page page ->
             forall qs,
               song_list_queryset user db genre artist album sort = inr qs ->
               exists c,
                 response (song_list user db genre artist album sort page) = Content c
                 /\ Paginator.get_page qs songs_per_page page = inr (ctx_songs c)))
  /\ (forall user db page,
         plain_page page ->
         exists pg,
           response (play_history user db page) = Content pg
           /\ Paginator.get_page
                (ORM.order_by
                   (fun a b => Nat.leb (PlayHistory.played_at b) (PlayHistory.played_at a))
                   (filter (by_user user) (playhistory db)))
                history_per_page page
              = inr pg)
  /\ (forall db page e, response (artist_list db page) <> Raised (PageError e))
  /\ response (artist_list sample_db (Some "9999")) = Raised AttributeError
  /\ response (artist_list sample_db None) = Raised AttributeError
  /\ response (artist_list empty_db (Some "9999")) = Content (Paginator.mkPage [] 1).
Proof.
  split; [repeat split|].
  split.
  { intros A objects per_page param Hpp last.
    pose proof (get_page_cases objects per_page Hpp param) as Hc. cbv zeta in Hc.
    fold last in Hc.
    split; [rewrite Hc; eauto|]. split.
    - intros _ Hn. rewrite Hc.
      destruct param as [s|]; cbn [not_an_integer] in Hn; [now rewrite Hn|reflexivity].
    - intros s n -> Hs _ Hn. split.
      + rewrite Hc, Hs.
        replace (n <=? last)%Z with false by (symmetry; apply Z.leb_gt; lia).
        now rewrite andb_false_r.
      + unfold rows_of_page. apply firstn_all2. rewrite length_skipn.
        pose proof (num_pages_cover objects per_page Hpp) as Hcov.
        rewrite (num_pages_value objects per_page) in Hcov. fold last in Hcov.
        pose proof (last_pos objects per_page Hpp) as Hl. fold last in Hl.
        nia. }
  split.
  { intros A a b c. split; reflexivity. }
  split.
  { split; vm_compute; reflexivity. }
  split.
  { intros user db genre artist album sort page. split.
    - intros e. unfold song_list.
      destruct (song_list_queryset user db genre artist album sort) as [e'|qs] eqn:Hq.
      + simpl. intros [= ->].
        revert Hq. unfold song_list_queryset, filter_id.
        repeat match goal with
               | |- context [match ?p with Some _ => _ | None => _ end] =>
                   destruct p
               | |- context [if ?c then _ else _] => destruct c
               end; discriminate.
      + destruct (get_page_total qs songs_per_page eq_refl page) as [pg ->].
        discriminate.
    - intros _ _ _ _ qs Hq. unfold song_list. rewrite Hq.
      destruct (get_page_total qs songs_per_page eq_refl page) as [pg ->].
      eexists. split; reflexivity. }
  split.
  { intros user db page _. unfold play_history.
    match goal with
    | |- context [Paginator.get_page ?l history_per_page page] =>
        destruct (get_page_total l history_per_page eq_refl page) as [pg ->]
    end.
    exists pg. split; reflexivity. }
  split.
  { intros db page e. unfold artist_list.
    destruct (get_page_total (artist_list_queryset db) artists_per_page eq_refl page)
      as [pg ->].
    destruct (Paginator.object_list pg); discriminate. }
  repeat split.
Qed.

(** X1.  Asking song_list for the pages 1, 2, ... up to the last one, with
    the same filters and sort key, shows the whole filtered and ordered
    listing cut into consecutive pieces: no song is lost or shown twice, no
    page has more than 20 songs and every page before the last has 20. *)
Theorem song_list_pages_partition (user : User.t) (db : DB)
        (genre artist album sort : option string) (qs : list Song.t) :
  song_list_queryset user db genre artist album sort = inr qs ->
  let last := Z.to_nat (Paginator.num_pages qs songs_per_page) in
  let shown n := shown_songs (song_list user db genre artist album sort (page_param n)) in
  List.concat (map shown (seq 1 last)) = qs
  /\ (forall n, 1 <= n <= last -> List.length (shown n) <= 20)
  /\ (forall n, 1 <= n < last -> List.length (shown n) = 20).
Proof.
  intros Hq last shown.
  assert (Hpp : (0 < songs_per_page)%Z) by reflexivity.
  pose proof (num_pages_pos qs songs_per_page Hpp) as Hn.
  assert (Hs : forall n, 1 <= n <= last ->
                         shown n = page_objects qs songs_per_page (Z.of_nat n)).
  { intros n Hr. unfold shown, shown_songs, song_list. rewrite Hq.
    rewrite (get_page_in_range qs songs_per_page n Hpp) by (unfold last in Hr; lia).
    reflexivity. }
  destruct (pages_partition Song.t qs songs_per_page Hpp) as (P1 & P2 & P3).
  split; [|split].
  - transitivity (List.concat (all_pages qs songs_per_page)); [|exact P1].
    unfold all_pages. fold last. f_equal.
    apply map_ext_in. intros n Hi. apply in_seq in Hi. apply Hs. lia.
  - intros n Hr. rewrite (Hs n Hr).
    rewrite Forall_forall in P2.
    assert (Hin : In (page_objects qs songs_per_page (Z.of_nat n))
                     (all_pages qs songs_per_page)).
    { unfold all_pages. apply in_map_iff. exists n. split; [reflexivity|].
      apply in_seq. fold last. lia. }
    apply P2 in Hin. cbv beta in Hin. unfold songs_per_page in *. lia.
  - intros n Hr. rewrite (Hs n) by lia.
    specialize (P3 (Z.of_nat n)). unfold songs_per_page in *.
    unfold last in Hr. lia.
Qed.

Lemma song_list_pages_partition_witness :
  song_list_queryset alice sample_db None None None None = inr [airbag; creep]
  /\ List.concat
       (map (fun n => shown_songs
                        (song_list alice sample_db None None None None (page_param n)))
            (seq 1 1))
     = [airbag; creep].
Proof.
  split; [reflexivity|].
  exact (proj1 (song_list_pages_partition alice sample_db None None None None
                                          [airbag; creep] eq_refl)).
Defined.

(** X2.  A page parameter that is an integer, written in at most 4300
    characters, gets that page when it lies between 1 and the last page,
    and the last page otherwise: so an integer below 1, such as 0 or -3,
    gets the last page of the listing and not the first.  The last page is
    the count (or 1 for an empty listing) divided by the page size and
    rounded up; page k holds the rows from (k - 1) times the page size
    on, a page size of them at most. *)
Theorem get_page_integer (A : Type) (objects : list A) (per_page : Z)
        (s : string) (n : Z) :
  (0 < per_page)%Z ->
  Py.int s = Some n ->
  String.length s <= 4300 ->
  let last := last_page_number (Z.of_nat (List.length objects)) per_page in
  Paginator.get_page objects per_page (Some s)
  = inr (if ((1 <=? n) && (n <=? last))%Z
         then Paginator.mkPage (rows_of_page objects per_page n) n
         else Paginator.mkPage (rows_of_page objects per_page last) last).
Proof.
  intros Hpp Hs _ last.
  pose proof (get_page_cases objects per_page Hpp (Some s)) as Hc. cbv zeta in Hc.
  now rewrite Hc, Hs.
Qed.

Lemma get_page_integer_witness :
  (0 < 2)%Z /\ Py.int "-3" = Some (-3)%Z
  /\ Paginator.get_page [1; 2; 3; 4; 5] 2 (Some "-3") = inr (Paginator.mkPage [5] 3).
Proof.
  split; [reflexivity|]. split; [reflexivity|].
  refine (get_page_integer nat [1; 2; 3; 4; 5] 2%Z "-3" (-3)%Z eq_refl eq_refl _).
  cbn [String.length]. lia.
Defined.

(** ** What cleaning an upload form does to the store *)

Lemma existsb_false_not_In {A B : Type} (f : A -> B) (eqb : B -> B -> bool)
      (eqb_eq : forall x y, eqb x y = true <-> x = y) (l : list A) (k : B) :
  existsb (fun x => eqb (f x) k) l = false -> ~ In k (map f l).
Proof.
  intros H Hin. apply in_map_iff in Hin as (x & <- & Hx).
  assert (existsb (fun y => eqb (f y) (f x)) l = true).
  { apply existsb_exists. exists x. split; [exact Hx|now apply eqb_eq]. }
  congruence.
Qed.

Lemma resolve_artist_effect (name : string) (db db1 : DB) (a : Artist.t) (c : bool) :
  resolve_artist name db = inr (a, c, db1) ->
  In a (artists db1)
  /\ songs db1 = songs db /\ playlists db1 = playlists db
  /\ favorites db1 = favorites db /\ playhistory db1 = playhistory db
  /\ ratings db1 = ratings db /\ albums db1 = albums db /\ genres db1 = genres db
  /\ appended (artists db) (artists db1)
       (fun x => x = Artist.mk (ORM.next_pk Artist.pk (artists db)) (Py.strip name)).
Proof.
  unfold resolve_artist, Artist_get_or_create, Artist_create.
  destruct (ORM.get _ (artists db)) as [[]|a0] eqn:E; try discriminate; intros [= <- <- <-].
  - split; [simpl; apply in_or_app; right; now left|].
    repeat (split; [reflexivity|]). right. eexists. split; reflexivity.
  - apply get_inr_In in E as [E _].
    split; [exact E|]. repeat (split; [reflexivity|]). now left.
Qed.

Lemma resolve_album_effect (title : string) (artist : Artist.t) (db db1 : DB)
      (a : Album.t) (c : bool) :
  resolve_album title artist db = inr (a, c, db1) ->
  In a (albums db1)
  /\ songs db1 = songs db /\ playlists db1 = playlists db
  /\ favorites db1 = favorites db /\ playhistory db1 = playhistory db
  /\ ratings db1 = ratings db /\ artists db1 = artists db /\ genres db1 = genres db
  /\ appended (albums db) (albums db1)
       (fun x => x = Album.mk (ORM.next_pk Album.pk (albums db)) (Py.strip title)
                              (Artist.pk artist)).
Proof.
  unfold resolve_album, Album_get_or_create, Album_create.
  destruct (ORM.get _ (albums db)) as [[]|a0] eqn:E; try discriminate; intros [= <- <- <-].
  - split; [simpl; apply in_or_app; right; now left|].
    repeat (split; [reflexivity|]). right. eexists. split; reflexivity.
  - apply get_inr_In in E as [E _].
    split; [exact E|]. repeat (split; [reflexivity|]). now left.
Qed.

Lemma resolve_genre_effect (name : string) (db db1 : DB) (g : Genre.t) (c : bool) :
  resolve_genre name db = inr (g, c, db1) ->
  In g (genres db1)
  /\ songs db1 = songs db /\ playlists db1 = playlists db
  /\ favorites db1 = favorites db /\ playhistory db1 = playhistory db
  /\ ratings db1 = ratings db /\ artists db1 = artists db /\ albums db1 = albums db
  /\ appended (genres db) (genres db1)
       (fun x => x = Genre.mk (ORM.next_pk Genre.pk (genres db)) (Py.strip name)
                 /\ ~ In (Genre.name x) (map Genre.name (genres db))).
Proof.
  unfold resolve_genre, Genre_get_or_create, Genre_create.
  destruct (ORM.get _ (genres db)) as [[]|g0] eqn:E; try discriminate.
  - destruct (existsb _ (genres db)) eqn:Ex.
    + discriminate.
    + intros [= <- <- <-].
      split; [simpl; apply in_or_app; right; now left|].
      repeat (split; [reflexivity|]). right. eexists. split; [reflexivity|].
      split; [reflexivity|]. simpl.
      exact (existsb_false_not_In Genre.name String.eqb String.eqb_eq _ _ Ex).
  - intros [= <- <- <-]. apply get_inr_In in E as [E _].
    split; [exact E|]. repeat (split; [reflexivity|]). now left.
Qed.

Lemma appended_refl {A : Type} (l : list A) (P : A -> Prop) : appended l l P.
Proof. now left. Qed.

Lemma appended_incl {A : Type} (l l' : list A) (P : A -> Prop) (x : A) :
  appended l l' P -> In x l -> In x l'.
Proof.
  intros [->|(y & -> & _)] H; [exact H|]. apply in_or_app. now left.
Qed.

Lemma clean_steps (d : SongUploadForm.data) (db : DB) :
  SongUploadForm.clean d db
  = if match SongUploadForm.artist d with
       | Some _ => false
       | None => negb (SongUploadForm.truthy (SongUploadForm.artist_name d))
       end
    then inr (SongUploadForm.ValidationError
                "Please select an artist or enter a new artist name.", db)
    else
      match clean_artist d db with
      | inl e => inl e
      | inr (artist1, db1) =>
          match clean_album d artist1 db1 with
          | inl e => inl e
          | inr (album2, db2) =>
              match clean_genre d db2 with
              | inl e => inl e
              | inr (genre3, db3) =>
                  if match SongUploadForm.audio_file_size d with
                     | Some n => (n >? SongUploadForm.max_audio_size)%Z
                     | None => false
                     end
                  then inr (SongUploadForm.ValidationError
                              "Audio file size cannot exceed 50MB.", db3)
                  else inr (SongUploadForm.Cleaned artist1 album2 genre3, db3)
              end
          end
      end.
Proof. reflexivity. Qed.

Lemma clean_artist_effect (d : SongUploadForm.data) (db db1 : DB) (a1 : option Artist.t) :
  (forall a, SongUploadForm.artist d = Some a -> In a (artists db)) ->
  clean_artist d db = inr (a1, db1) ->
  (exists x, a1 = Some x /\ In x (artists db1))
  /\ songs db1 = songs db /\ playlists db1 = playlists db
  /\ favorites db1 = favorites db /\ playhistory db1 = playhistory db
  /\ ratings db1 = ratings db /\ albums db1 = albums db /\ genres db1 = genres db
  /\ appended (artists db) (artists db1)
       (fun a => SongUploadForm.artist d = None
                 /\ a = Artist.mk (ORM.next_pk Artist.pk (artists db))
                                  (Py.strip (SongUploadForm.artist_name d))).
Proof.
  intros Sa. unfold clean_artist.
  destruct (SongUploadForm.artist d) as [a0|] eqn:Ea.
  - intros [= <- <-]. split; [exists a0; split; [reflexivity|now apply Sa]|].
    repeat (split; [reflexivity|]). apply appended_refl.
  - destruct (resolve_artist _ db) as [e|[[a c] db']] eqn:Er; [discriminate|].
    intros [= <- <-].
    destruct (resolve_artist_effect _ _ _ _ _ Er)
      as (I & E1 & E2 & E3 & E4 & E5 & E6 & E7 & Ap).
    split; [exists a; split; [reflexivity|exact I]|].
    repeat (split; [assumption|]).
    destruct Ap as [->|(x & -> & ->)]; [now left|].
    right. eexists. split; [reflexivity|]. split; reflexivity.
Qed.

Lemma clean_album_effect (d : SongUploadForm.data) (db1 db2 : DB)
      (a1 : Artist.t) (al2 : option Album.t) :
  (forall a, SongUploadForm.album d = Some a -> In a (albums db1)) ->
  clean_album d (Some a1) db1 = inr (al2, db2) ->
  (forall x, al2 = Some x -> In x (albums db2))
  /\ songs db2 = songs db1 /\ playlists db2 = playlists db1
  /\ favorites db2 = favorites db1 /\ playhistory db2 = playhistory db1
  /\ ratings db2 = ratings db1 /\ artists db2 = artists db1 /\ genres db2 = genres db1
  /\ appended (albums db1) (albums db2)
       (fun a => SongUploadForm.album d = None
                 /\ Album.pk a = ORM.next_pk Album.pk (albums db1)
                 /\ Album.title a = Py.strip (SongUploadForm.album_title d)
                 /\ Album.artist a = Artist.pk a1).
Proof.
  intros Sal. unfold clean_album.
  destruct (SongUploadForm.album d) as [al0|] eqn:Ea.
  - intros [= <- <-]. split; [intros x [= <-]; now apply Sal|].
    repeat (split; [reflexivity|]). apply appended_refl.
  - destruct (SongUploadForm.truthy (SongUploadForm.album_title d)).
    + destruct (resolve_album _ a1 db1) as [e|[[al c] db']] eqn:Er; [discriminate|].
      intros [= <- <-].
      destruct (resolve_album_effect _ _ _ _ _ _ Er)
        as (I & E1 & E2 & E3 & E4 & E5 & E6 & E7 & Ap).
      split; [intros x [= <-]; exact I|].
      repeat (split; [assumption|]).
      destruct Ap as [->|(x & -> & ->)]; [now left|].
      right. eexists. split; [reflexivity|]. repeat split.
    + intros [= <- <-]. split; [discriminate|].
      repeat (split; [reflexivity|]). apply appended_refl.
Qed.

Lemma clean_genre_effect (d : SongUploadForm.data) (db2 db3 : DB) (g3 : option Genre.t) :
  (forall g, SongUploadForm.genre d = Some g -> In g (genres db2)) ->
  clean_genre d db2 = inr (g3, db3) ->
  (forall x, g3 = Some x -> In x (genres db3))
  /\ songs db3 = songs db2 /\ playlists db3 = playlists db2
  /\ favorites db3 = favorites db2 /\ playhistory db3 = playhistory db2
  /\ ratings db3 = ratings db2 /\ artists db3 = artists db2 /\ albums db3 = albums db2
  /\ appended (genres db2) (genres db3)
       (fun g => SongUploadForm.genre d = None
                 /\ g = Genre.mk (ORM.next_pk Genre.pk (genres db2))
                                 (Py.strip (SongUploadForm.genre_name d))
                 /\ ~ In (Genre.name g) (map Genre.name (genres db2))).
Proof.
  intros Sg. unfold clean_genre.
  destruct (SongUploadForm.genre d) as [g0|] eqn:Eg.
  - intros [= <- <-]. split; [intros x [= <-]; now apply Sg|].
    repeat (split; [reflexivity|]). apply appended_refl.
  - destruct (SongUploadForm.truthy (SongUploadForm.genre_name d)).
    + destruct (resolve_genre _ db2) as [e|[[g c] db']] eqn:Er; [discriminate|].
      intros [= <- <-].
      destruct (resolve_genre_effect _ _ _ _ _ Er)
        as (I & E1 & E2 & E3 & E4 & E5 & E6 & E7 & Ap).
      split; [intros x [= <-]; exact I|].
      repeat (split; [assumption|]).
      destruct Ap as [->|(x & -> & -> & Hn)]; [now left|].
      right. eexists. split; [reflexivity|]. repeat split. exact Hn.
    + intros [= <- <-]. split; [discriminate|].
      repeat (split; [reflexivity|]). apply appended_refl.
Qed.

Lemma catalog_step_refl (d : SongUploadForm.data) (db : DB) : catalog_step d db db.
Proof. repeat (split; [reflexivity|]). repeat split; apply appended_refl. Qed.

Lemma clean_effect (d : SongUploadForm.data) (db db' : DB) (out : SongUploadForm.outcome) :
  selection_ok db d ->
  SongUploadForm.clean d db = inr (out, db') ->
  catalog_step d db db'
  /\ match out with
     | SongUploadForm.Cleaned a al g =>
         (exists x, a = Some x /\ In x (artists db'))
         /\ (forall x, al = Some x -> In x (albums db'))
         /\ (forall x, g = Some x -> In x (genres db'))
     | SongUploadForm.ValidationError _ => True
     end.
Proof.
  intros (Sa & Sal & Sg). rewrite clean_steps.
  destruct (match SongUploadForm.artist d with
            | Some _ => false
            | None => _
            end).
  { intros [= <- <-]. split; [apply catalog_step_refl|exact I]. }
  destruct (clean_artist d db) as [e|[a1 db1]] eqn:E1; [discriminate|].
  destruct (clean_artist_effect d db db1 a1 Sa E1)
    as ((x1 & -> & I1) & A1 & A2 & A3 & A4 & A5 & A6 & A7 & Ap1).
  destruct (clean_album d (Some x1) db1) as [e|[al2 db2]] eqn:E2; [discriminate|].
  assert (Sal1 : forall a, SongUploadForm.album d = Some a -> In a (albums db1))
    by (intros a Ha; rewrite A6; now apply Sal).
  destruct (clean_album_effect d db1 db2 x1 al2 Sal1 E2)
    as (I2 & B1 & B2 & B3 & B4 & B5 & B6 & B7 & Ap2).
  destruct (clean_genre d db2) as [e|[g3 db3]] eqn:E3; [discriminate|].
  assert (Sg2 : forall g, SongUploadForm.genre d = Some g -> In g (genres db2))
    by (intros g Hg; rewrite B7, A7; now apply Sg).
  destruct (clean_genre_effect d db2 db3 g3 Sg2 E3)
    as (I3 & C1 & C2 & C3 & C4 & C5 & C6 & C7 & Ap3).
  assert (Hstep : catalog_step d db db3).
  { unfold catalog_step.
    rewrite C1, B1, A1, C2, B2, A2, C3, B3, A3, C4, B4, A4, C5, B5, A5.
    repeat (split; [reflexivity|]).
    rewrite C6, B6, C7. rewrite A6 in Ap2. rewrite B7, A7 in Ap3.
    split; [exact Ap1|].
    split; [|exact Ap3].
    destruct Ap2 as [->|(x & -> & H1 & H2 & H3 & H4)]; [now left|].
    right. exists x. split; [reflexivity|]. repeat split; try assumption.
    rewrite H4. now apply in_map. }
  destruct (match SongUploadForm.audio_file_size d with
            | Some n => _
            | None => false
            end); intros [= <- <-]; (split; [exact Hstep|]); [exact I|].
  split; [exists x1; split; [reflexivity|]|split].
  - rewrite C6, B6. exact I1.
  - intros x Hx. rewrite C7. now apply I2.
  - exact I3.
Qed.

(** ** What every write keeps *)

Lemma NoDup_map_filter {R K : Type} (key : R -> K) (keep : R -> bool)
  (rows : list R) :
  NoDup (map key rows) -> NoDup (map key (filter keep rows)).
Proof.
  induction rows as [|x r IH]; simpl; [auto|].
  intros H. inversion H as [|? ? Hx Hr]; subst.
  destruct (keep x); [|now apply IH]. simpl. constructor; [|now apply IH].
  intros Hin. apply Hx. apply in_map_iff in Hin as (y & E & Hy).
  apply in_map_iff. exists y. split; [exact E|]. now apply filter_In in Hy.
Qed.

Lemma NoDup_map_snoc {A B : Type} (f : A -> B) (l : list A) (x : A) :
  NoDup (map f l) -> ~ In (f x) (map f l) -> NoDup (map f (l ++ [x])).
Proof.
  intros H Hx. rewrite map_app. simpl.
  apply Permutation_NoDup with (l := f x :: map f l).
  - apply Permutation_cons_append.
  - now constructor.
Qed.

Lemma NoDup_map_next {A : Type} (pk : A -> nat) (l : list A) (x : A) :
  NoDup (map pk l) -> pk x = ORM.next_pk pk l -> NoDup (map pk (l ++ [x])).
Proof.
  intros H E. apply NoDup_map_snoc; [exact H|]. rewrite E. apply next_pk_fresh.
Qed.

Lemma map_map_same {A B : Type} (f : A -> B) (g : A -> A) (l : list A) :
  (forall x, f (g x) = f x) -> map f (map g l) = map f l.
Proof. intros H. rewrite map_map. now apply map_ext. Qed.

Lemma NoDup_appended {A : Type} (pk : A -> nat) (l l' : list A) (P : A -> Prop) :
  appended l l' P -> (forall x, P x -> pk x = ORM.next_pk pk l) ->
  NoDup (map pk l) -> NoDup (map pk l').
Proof.
  intros [->|(x & -> & Hx)] HP H; [exact H|]. apply NoDup_map_next; auto.
Qed.

Ltac open_store_ok :=
  unfold store_ok, keys_ok, unique_ok, refs_ok, ratings_in_range in *.

Section KeepOk.
Variable db : DB.
Hypothesis Hok : store_ok db.

(** Rows of [songs] rewritten without touching key or references. *)
Lemma ok_songs_map (f : Song.t -> Song.t) :
  (forall s, Song.pk (f s) = Song.pk s) ->
  (forall s, Song.artist (f s) = Song.artist s) ->
  (forall s, Song.album (f s) = Song.album s) ->
  (forall s, Song.genre (f s) = Song.genre s) ->
  store_ok (with_songs (map f (songs db)) db).
Proof.
  intros Hpk Ha Hal Hg. open_store_ok. simpl.
  rewrite (map_map_same Song.pk f _ Hpk).
  destruct Hok as ((K1 & K) & U & (R1 & R2 & R3 & R) & G).
  split; [split; assumption|]. split; [assumption|]. split; [|assumption].
  split; [|split; [|split; [|assumption]]].
  - intros s Hs. apply in_map_iff in Hs as (s0 & <- & Hs0). rewrite Ha. auto.
  - intros s k Hs. apply in_map_iff in Hs as (s0 & <- & Hs0). rewrite Hal. eauto.
  - intros s k Hs. apply in_map_iff in Hs as (s0 & <- & Hs0). rewrite Hg. eauto.
Qed.

Lemma ok_history_append (h : PlayHistory.t) :
  PlayHistory.pk h = ORM.next_pk PlayHistory.pk (playhistory db) ->
  In (PlayHistory.song h) (map Song.pk (songs db)) ->
  store_ok (with_playhistory (playhistory db ++ [h]) db).
Proof.
  intros Hpk Hs. open_store_ok. simpl.
  destruct Hok as ((K1 & K2 & K3 & K4 & K5 & K6 & K7 & K8) & (U1 & U2 & U3)
                   & (R1 & R2 & R3 & R4 & R5 & R6 & R7 & R8) & G).
  repeat split; try assumption.
  - now apply NoDup_map_next.
  - intros x Hx. apply in_app_or in Hx as [Hx|[<-|[]]]; auto.
Qed.

Lemma ok_favorite_append (f : Favorite.t) :
  Favorite.pk f = ORM.next_pk Favorite.pk (favorites db) ->
  ~ In (Favorite.user f, Favorite.song f)
       (map (fun x => (Favorite.user x, Favorite.song x)) (favorites db)) ->
  In (Favorite.song f) (map Song.pk (songs db)) ->
  store_ok (with_favorites (favorites db ++ [f]) db).
Proof.
  intros Hpk Hu Hs. open_store_ok. simpl.
  destruct Hok as ((K1 & K2 & K3 & K4 & K5 & K6 & K7 & K8) & (U1 & U2 & U3)
                   & (R1 & R2 & R3 & R4 & R5 & R6 & R7 & R8) & G).
  repeat split; try assumption.
  - now apply NoDup_map_next.
  - now apply (NoDup_map_snoc (fun x => (Favorite.user x, Favorite.song x))).
  - intros x Hx. apply in_app_or in Hx as [Hx|[<-|[]]]; auto.
Qed.

Lemma ok_favorites_filter (p : Favorite.t -> bool) :
  store_ok (with_favorites (filter p (favorites db)) db).
Proof.
  open_store_ok. simpl.
  destruct Hok as ((K1 & K2 & K3 & K4 & K5 & K6 & K7 & K8) & (U1 & U2 & U3)
                   & (R1 & R2 & R3 & R4 & R5 & R6 & R7 & R8) & G).
  repeat split; try assumption.
  - now apply NoDup_map_filter.
  - now apply NoDup_map_filter.
  - intros x Hx. apply filter_In in Hx as [Hx _]. auto.
Qed.

Lemma ok_rating_append (r : Rating.t) :
  Rating.pk r = ORM.next_pk Rating.pk (ratings db) ->
  ~ In (Rating.user r, Rating.song r)
       (map (fun x => (Rating.user x, Rating.song x)) (ratings db)) ->
  In (Rating.song r) (map Song.pk (songs db)) ->
  (1 <= Rating.rating r <= 5)%Z ->
  store_ok (with_ratings (ratings db ++ [r]) db).
Proof.
  intros Hpk Hu Hs Hv. open_store_ok. simpl.
  destruct Hok as ((K1 & K2 & K3 & K4 & K5 & K6 & K7 & K8) & (U1 & U2 & U3)
                   & (R1 & R2 & R3 & R4 & R5 & R6 & R7 & R8) & G).
  repeat split; try assumption.
  - now apply NoDup_map_next.
  - now apply (NoDup_map_snoc (fun x => (Rating.user x, Rating.song x))).
  - intros x Hx. apply in_app_or in Hx as [Hx|[<-|[]]]; auto.
  - apply Forall_app. split; [exact G|]. now constructor.
Qed.

Lemma ok_ratings_map (f : Rating.t -> Rating.t) :
  (forall r, In r (ratings db) ->
             Rating.pk (f r) = Rating.pk r /\ Rating.user (f r) = Rating.user r
             /\ Rating.song (f r) = Rating.song r
             /\ (1 <= Rating.rating (f r) <= 5)%Z) ->
  store_ok (with_ratings (map f (ratings db)) db).
Proof.
  intros Hf. open_store_ok. simpl.
  destruct Hok as ((K1 & K2 & K3 & K4 & K5 & K6 & K7 & K8) & (U1 & U2 & U3)
                   & (R1 & R2 & R3 & R4 & R5 & R6 & R7 & R8) & G).
  assert (E1 : map Rating.pk (map f (ratings db)) = map Rating.pk (ratings db)).
  { rewrite map_map. apply map_ext_in. intros r Hr. now apply Hf. }
  assert (E2 : map (fun x => (Rating.user x, Rating.song x)) (map f (ratings db))
               = map (fun x => (Rating.user x, Rating.song x)) (ratings db)).
  { rewrite map_map. apply map_ext_in. intros r Hr.
    destruct (Hf r Hr) as (_ & -> & -> & _). reflexivity. }
  rewrite E1, E2.
  repeat split; try assumption.
  - intros x Hx. apply in_map_iff in Hx as (r & <- & Hr).
    destruct (Hf r Hr) as (_ & _ & -> & _). auto.
  - apply Forall_forall. intros x Hx. apply in_map_iff in Hx as (r & <- & Hr).
    now apply Hf.
Qed.

End KeepOk.

Lemma In_map_filter_key {A : Type} (pk : A -> nat) (keep : nat -> bool)
      (l : list A) (k : nat) :
  In k (map pk l) -> keep k = true -> In k (map pk (filter (fun x => keep (pk x)) l)).
Proof.
  intros Hin Hk. apply in_map_iff in Hin as (x & <- & Hx).
  apply in_map. apply filter_In. split; assumption.
Qed.

Section KeepOkMore.
Variable db : DB.
Hypothesis Hok : store_ok db.

Lemma ok_playlist_append (p : Playlist.t) :
  Playlist.pk p = ORM.next_pk Playlist.pk (playlists db) ->
  (forall k, In k (Playlist.songs p) -> In k (map Song.pk (songs db))) ->
  store_ok (with_playlists (playlists db ++ [p]) db).
Proof.
  intros Hpk Hm. open_store_ok. simpl.
  destruct Hok as ((K1 & K2 & K3 & K4 & K5 & K6 & K7 & K8) & (U1 & U2 & U3)
                   & (R1 & R2 & R3 & R4 & R5 & R6 & R7 & R8) & G).
  repeat split; try assumption.
  - now apply NoDup_map_next.
  - intros x k Hx. apply in_app_or in Hx as [Hx|[<-|[]]]; eauto.
Qed.

Lemma ok_playlists_map (f : Playlist.t -> Playlist.t) :
  (forall p, In p (playlists db) ->
             Playlist.pk (f p) = Playlist.pk p
             /\ forall k, In k (Playlist.songs (f p)) -> In k (map Song.pk (songs db))) ->
  store_ok (with_playlists (map f (playlists db)) db).
Proof.
  intros Hf. open_store_ok. simpl.
  destruct Hok as ((K1 & K2 & K3 & K4 & K5 & K6 & K7 & K8) & (U1 & U2 & U3)
                   & (R1 & R2 & R3 & R4 & R5 & R6 & R7 & R8) & G).
  assert (E1 : map Playlist.pk (map f (playlists db)) = map Playlist.pk (playlists db)).
  { rewrite map_map. apply map_ext_in. intros p Hp. now apply Hf. }
  rewrite E1.
  repeat split; try assumption.
  intros x k Hx Hk. apply in_map_iff in Hx as (p & <- & Hp).
  now apply (Hf p Hp).
Qed.

Lemma ok_playlists_filter (keep : Playlist.t -> bool) :
  store_ok (with_playlists (filter keep (playlists db)) db).
Proof.
  open_store_ok. simpl.
  destruct Hok as ((K1 & K2 & K3 & K4 & K5 & K6 & K7 & K8) & (U1 & U2 & U3)
                   & (R1 & R2 & R3 & R4 & R5 & R6 & R7 & R8) & G).
  repeat split; try assumption.
  - now apply NoDup_map_filter.
  - intros x k Hx. apply filter_In in Hx as [Hx _]. eauto.
Qed.

Lemma ok_song_delete (song : Song.t) : store_ok (Song_delete song db).
Proof.
  open_store_ok. unfold Song_delete. simpl.
  destruct Hok as ((K1 & K2 & K3 & K4 & K5 & K6 & K7 & K8) & (U1 & U2 & U3)
                   & (R1 & R2 & R3 & R4 & R5 & R6 & R7 & R8) & G).
  set (other := fun k => negb (Nat.eqb k (Song.pk song))).
  repeat split; try assumption; try (now apply NoDup_map_filter).
  - rewrite map_map. simpl. exact K5.
  - intros s Hs. apply filter_In in Hs as [Hs _]. auto.
  - intros s k Hs. apply filter_In in Hs as [Hs _]. eauto.
  - intros s k Hs. apply filter_In in Hs as [Hs _]. eauto.
  - intros p k Hp Hk. apply in_map_iff in Hp as (p0 & <- & Hp0). simpl in Hk.
    apply filter_In in Hk as [Hk Ho].
    apply (In_map_filter_key Song.pk other); eauto.
  - intros f Hf. apply filter_In in Hf as [Hf Ho].
    apply (In_map_filter_key Song.pk other); auto.
  - intros h Hh. apply filter_In in Hh as [Hh Ho].
    apply (In_map_filter_key Song.pk other); auto.
  - intros r Hr. apply filter_In in Hr as [Hr Ho].
    apply (In_map_filter_key Song.pk other); auto.
  - apply Forall_forall. intros r Hr. apply filter_In in Hr as [Hr _].
    rewrite Forall_forall in G. auto.
Qed.

Lemma ok_catalog_step (d : SongUploadForm.data) (db' : DB) :
  catalog_step d db db' -> store_ok db'.
Proof.
  intros (E1 & E2 & E3 & E4 & E5 & A1 & A2 & A3). open_store_ok.
  destruct Hok as ((K1 & K2 & K3 & K4 & K5 & K6 & K7 & K8) & (U1 & U2 & U3)
                   & (R1 & R2 & R3 & R4 & R5 & R6 & R7 & R8) & G).
  rewrite E1, E2, E3, E4, E5.
  assert (Ia : forall k, In k (map Artist.pk (artists db)) ->
                         In k (map Artist.pk (artists db'))).
  { intros k Hk. apply in_map_iff in Hk as (x & <- & Hx).
    apply in_map. eapply appended_incl; eauto. }
  assert (Il : forall k, In k (map Album.pk (albums db)) ->
                         In k (map Album.pk (albums db'))).
  { intros k Hk. apply in_map_iff in Hk as (x & <- & Hx).
    apply in_map. eapply appended_incl; eauto. }
  assert (Ig : forall k, In k (map Genre.pk (genres db)) ->
                         In k (map Genre.pk (genres db'))).
  { intros k Hk. apply in_map_iff in Hk as (x & <- & Hx).
    apply in_map. eapply appended_incl; eauto. }
  repeat split; try assumption; eauto.
  - eapply NoDup_appended; [exact A1| |exact K2]. now intros x (_ & ->).
  - eapply NoDup_appended; [exact A2| |exact K3]. now intros x (_ & -> & _).
  - eapply NoDup_appended; [exact A3| |exact K4]. now intros x (_ & -> & _).
  - destruct A3 as [->|(g & -> & _ & _ & Hn)]; [exact U3|].
    now apply NoDup_map_snoc.
  - intros a Ha. destruct A2 as [E|(x & E & _ & _ & _ & Hx)]; rewrite E in Ha.
    + auto.
    + apply in_app_or in Ha as [Ha|[<-|[]]]; auto.
Qed.

Lemma ok_song_append (s : Song.t) :
  Song.pk s = ORM.next_pk Song.pk (songs db) ->
  In (Song.artist s) (map Artist.pk (artists db)) ->
  (forall k, Song.album s = Some k -> In k (map Album.pk (albums db))) ->
  (forall k, Song.genre s = Some k -> In k (map Genre.pk (genres db))) ->
  store_ok (with_songs (songs db ++ [s]) db).
Proof.
  intros Hpk Ha Hal Hg. open_store_ok. simpl.
  destruct Hok as ((K1 & K2 & K3 & K4 & K5 & K6 & K7 & K8) & (U1 & U2 & U3)
                   & (R1 & R2 & R3 & R4 & R5 & R6 & R7 & R8) & G).
  assert (Is : forall k, In k (map Song.pk (songs db)) ->
                         In k (map Song.pk (songs db ++ [s]))).
  { intros k Hk. rewrite map_app. apply in_or_app. now left. }
  repeat split; try assumption; eauto.
  - now apply NoDup_map_next.
  - intros x Hx. apply in_app_or in Hx as [Hx|[<-|[]]]; auto.
  - intros x k Hx. apply in_app_or in Hx as [Hx|[<-|[]]]; eauto.
  - intros x k Hx. apply in_app_or in Hx as [Hx|[<-|[]]]; eauto.
Qed.

Lemma ok_songs_rewrite (f : Song.t -> Song.t) :
  (forall s, In s (songs db) ->
             Song.pk (f s) = Song.pk s
             /\ In (Song.artist (f s)) (map Artist.pk (artists db))
             /\ (forall k, Song.album (f s) = Some k -> In k (map Album.pk (albums db)))
             /\ (forall k, Song.genre (f s) = Some k -> In k (map Genre.pk (genres db)))) ->
  store_ok (with_songs (map f (songs db)) db).
Proof.
  intros Hf. open_store_ok. simpl.
  destruct Hok as ((K1 & K2 & K3 & K4 & K5 & K6 & K7 & K8) & (U1 & U2 & U3)
                   & (R1 & R2 & R3 & R4 & R5 & R6 & R7 & R8) & G).
  assert (E1 : map Song.pk (map f (songs db)) = map Song.pk (songs db)).
  { rewrite map_map. apply map_ext_in. intros s Hs. now apply Hf. }
  rewrite E1.
  repeat split; try assumption.
  - intros x Hx. apply in_map_iff in Hx as (s & <- & Hs). now apply Hf.
  - intros x k Hx. apply in_map_iff in Hx as (s & <- & Hs). now apply Hf.
  - intros x k Hx. apply in_map_iff in Hx as (s & <- & Hs). now apply Hf.
Qed.

End KeepOkMore.

Lemma found_song (db : DB) (pk : nat) (s : Song.t) :
  get_object_or_404 (fun s => Nat.eqb (Song.pk s) pk) (songs db) = inr s ->
  In s (songs db) /\ Song.pk s = pk.
Proof.
  intros H. apply get_404_inr, get_inr_In in H as [H1 H2].
  split; [exact H1|now apply Nat.eqb_eq].
Qed.

Section ViewsKeepOk.
Variables (user : User.t) (now : nat) (db : DB).
Hypothesis Hok : store_ok db.

Lemma play_song_ok (pk : nat) : store_ok (store (play_song user now db pk)).
Proof.
  unfold play_song.
  destruct (get_object_or_404 _ (songs db)) as [e|song] eqn:E; [exact Hok|].
  apply found_song in E as [Hin Hpk].
  unfold increment_play_count, PlayHistory_create, Song_save. cbn [store].
  apply ok_history_append.
  - apply ok_songs_map; [exact Hok|..]; intros s;
      destruct (Nat.eqb (Song.pk s) _); reflexivity.
  - reflexivity.
  - cbn [songs with_songs PlayHistory.song Song.set_play_count Song.pk].
    rewrite map_map_same
      by (intros s; destruct (Nat.eqb (Song.pk s) _); reflexivity).
    now apply in_map.
Qed.

Lemma download_song_ok (pk : nat) : store_ok (store (download_song user db pk)).
Proof.
  unfold download_song.
  destruct (get_object_or_404 _ (songs db)) as [e|song] eqn:E; [exact Hok|].
  destruct (negb (Song.is_public song) && _); [exact Hok|].
  unfold increment_download_count, Song_save. cbn [store].
  apply ok_songs_map; [exact Hok|..]; intros s;
    destruct (Nat.eqb (Song.pk s) _); reflexivity.
Qed.

Lemma delete_song_ok (pk : nat) (m : Method) :
  store_ok (store (delete_song user db pk m)).
Proof.
  unfold delete_song. destruct m; [exact Hok|].
  destruct (get_object_or_404 _ (songs db)) as [e|song]; [exact Hok|].
  destruct (negb (Nat.eqb (Song.uploaded_by song) (User.pk user)) && _); [exact Hok|].
  cbn [store]. now apply ok_song_delete.
Qed.

Lemma create_playlist_ok (m : Method) (d : playlist_data) :
  store_ok (store (create_playlist user now db m d)).
Proof.
  unfold create_playlist. destruct m; [exact Hok|].
  destruct (playlist_field_errors d); [exact Hok|].
  unfold Playlist_insert. cbn [store].
  apply ok_playlist_append; [exact Hok|reflexivity|]. intros k [].
Qed.

Lemma edit_playlist_ok (pk : nat) (m : Method) (d : playlist_data) :
  store_ok (store (edit_playlist user db pk m d)).
Proof.
  unfold edit_playlist.
  destruct (get_object_or_404 _ (playlists db)) as [e|p]; [exact Hok|].
  destruct m; [exact Hok|].
  destruct (playlist_field_errors d); [exact Hok|].
  unfold Playlist_update. cbn [store].
  apply ok_playlists_map; [exact Hok|]. intros q Hq.
  destruct (Nat.eqb (Playlist.pk q) (Playlist.pk p)); cbn [Playlist.pk Playlist.songs].
  - split; [reflexivity|]. intros k Hk.
    destruct Hok as (_ & _ & (_ & _ & _ & _ & R5 & _) & _). eauto.
  - split; [reflexivity|]. intros k Hk.
    destruct Hok as (_ & _ & (_ & _ & _ & _ & R5 & _) & _). eauto.
Qed.

Lemma delete_playlist_ok (pk : nat) (m : Method) :
  store_ok (store (delete_playlist user db pk m)).
Proof.
  unfold delete_playlist. destruct m; [exact Hok|].
  destruct (get_object_or_404 _ (playlists db)) as [e|p]; [exact Hok|].
  cbn [store]. now apply ok_playlists_filter.
Qed.

Lemma set_songs_ok (p : Playlist.t) (members : list nat) :
  (forall k, In k members -> In k (map Song.pk (songs db))) ->
  store_ok (Playlist_set_songs p members db).
Proof.
  intros Hm. unfold Playlist_set_songs.
  apply ok_playlists_map; [exact Hok|]. intros q Hq.
  destruct (Nat.eqb (Playlist.pk q) (Playlist.pk p)); cbn [Playlist.pk Playlist.songs].
  - split; [reflexivity|exact Hm].
  - split; [reflexivity|]. intros k Hk.
    destruct Hok as (_ & _ & (_ & _ & _ & _ & R5 & _) & _). eauto.
Qed.

Lemma found_playlist_In {p : Playlist.t} (f : Playlist.t -> bool) :
  get_object_or_404 f (playlists db) = inr p -> In p (playlists db).
Proof. intros H. now apply get_404_inr, get_inr_In in H. Qed.

Lemma add_to_playlist_ok (song_pk : nat) (m : Method) (playlist_id : option string) :
  store_ok (store (add_to_playlist user db song_pk m playlist_id)).
Proof.
  unfold add_to_playlist.
  destruct (get_object_or_404 _ (songs db)) as [e|song] eqn:E; [exact Hok|].
  apply found_song in E as [Hin Hpk].
  destruct m; [exact Hok|].
  destruct (posted_playlist user db playlist_id) as [e|p] eqn:Ep; [exact Hok|].
  destruct (existsb _ (Playlist.songs p)); [exact Hok|].
  cbn [store]. apply set_songs_ok. intros k Hk.
  apply in_app_or in Hk as [Hk|[<-|[]]]; [|now apply in_map].
  assert (Hp : In p (playlists db)).
  { unfold posted_playlist in Ep. destruct playlist_id as [s|]; [|discriminate].
    destruct (Py.int s); [|discriminate]. eapply found_playlist_In; eauto. }
  destruct Hok as (_ & _ & (_ & _ & _ & _ & R5 & _) & _). eauto.
Qed.

Lemma remove_from_playlist_ok (playlist_pk song_pk : nat) (m : Method) :
  store_ok (store (remove_from_playlist user db playlist_pk song_pk m)).
Proof.
  unfold remove_from_playlist. destruct m; [exact Hok|].
  destruct (get_object_or_404 _ (playlists db)) as [e|p] eqn:Ep; [exact Hok|].
  destruct (get_object_or_404 _ (songs db)) as [e|song]; [exact Hok|].
  cbn [store]. apply set_songs_ok. intros k Hk.
  apply filter_In in Hk as [Hk _].
  apply found_playlist_In in Ep.
  destruct Hok as (_ & _ & (_ & _ & _ & _ & R5 & _) & _). eauto.
Qed.

End ViewsKeepOk.

Lemma NoDup_map_In_eq {A : Type} (pk : A -> nat) (l : list A) (x y : A) :
  NoDup (map pk l) -> In x l -> In y l -> pk x = pk y -> x = y.
Proof.
  induction l as [|z r IH]; simpl; [contradiction|].
  intros H Hx Hy E. inversion H as [|? ? Hz Hr]; subst.
  destruct Hx as [->|Hx], Hy as [->|Hy]; auto.
  - exfalso. apply Hz. rewrite E. now apply in_map.
  - exfalso. apply Hz. rewrite <- E. now apply in_map.
Qed.

Lemma is_valid_effect (d : SongUploadForm.data) (db db1 : DB)
      (res : option (Artist.t * option Album.t * option Genre.t)) :
  selection_ok db d ->
  SongUploadForm.is_valid d db = inr (res, db1) ->
  catalog_step d db db1
  /\ match res with
     | Some (a, al, g) =>
         In a (artists db1)
         /\ (forall x, al = Some x -> In x (albums db1))
         /\ (forall x, g = Some x -> In x (genres db1))
         /\ SongUploadForm.field_errors d = false
     | None => True
     end.
Proof.
  intros Hsel. unfold SongUploadForm.is_valid.
  destruct (SongUploadForm.clean d db) as [e|[out db']] eqn:E; [discriminate|].
  destruct (clean_effect d db db' out Hsel E) as [Hstep Hout].
  destruct out as [msg|[a|] al g].
  - intros [= <- <-]. split; [exact Hstep|exact I].
  - destruct (SongUploadForm.field_errors d) eqn:Ef; intros [= <- <-];
      (split; [exact Hstep|]); [exact I|].
    destruct Hout as ((x & [= <-] & Hx) & Hal & Hg). auto.
  - intros [= <- <-]. split; [exact Hstep|exact I].
Qed.

Section ViewsKeepOk2.
Variables (user : User.t) (now : nat) (db : DB).
Hypothesis Hok : store_ok db.

Lemma toggle_favorite_ok (song_pk : nat) (m : Method) (ajax : bool) :
  store_ok (store (toggle_favorite user now db song_pk m ajax)).
Proof.
  unfold toggle_favorite. destruct m; [exact Hok|].
  destruct (get_object_or_404 _ (songs db)) as [e|song] eqn:E; [exact Hok|].
  apply found_song in E as [Hin Hpk].
  unfold Favorite_get_or_create, Favorite_create.
  destruct (ORM.get (favorite_of user song) (favorites db)) as [[]|f] eqn:Eg;
    try exact Hok.
  - destruct (existsb (favorite_of user song) (favorites db)) eqn:Ex; [exact Hok|].
    cbn [negb store]. apply ok_favorite_append; [exact Hok|reflexivity| |].
    + cbn [Favorite.user Favorite.song]. intros Hi.
      apply in_map_iff in Hi as (x & [= E1 E2] & Hx).
      assert (existsb (favorite_of user song) (favorites db) = true); [|congruence].
      apply existsb_exists. exists x. split; [exact Hx|].
      unfold favorite_of. now rewrite E1, E2, !Nat.eqb_refl.
    + cbn [Favorite.song]. now apply in_map.
  - cbn [negb store]. unfold Favorite_delete. now apply ok_favorites_filter.
Qed.

Lemma add_rating_ok (song_pk : nat) (m : Method) (posted : option string) :
  store_ok (store (add_rating user now db song_pk m posted)).
Proof.
  unfold add_rating. destruct m; [exact Hok|].
  destruct (get_object_or_404 _ (songs db)) as [e|song] eqn:E; [exact Hok|].
  apply found_song in E as [Hin Hpk].
  destruct (RatingForm.is_valid posted) as [v|] eqn:Ev; [|exact Hok].
  assert (Hv : (1 <= v <= 5)%Z).
  { destruct posted as [s|]; [|discriminate]. now apply RatingForm_valid_iff in Ev. }
  unfold Rating_update_or_create, Rating_create.
  destruct (ORM.get (rating_of user song) (ratings db)) as [[]|r] eqn:Eg;
    try exact Hok.
  - destruct (existsb (rating_of user song) (ratings db)) eqn:Ex; [exact Hok|].
    cbn [store]. apply ok_rating_append; [exact Hok|reflexivity| | |exact Hv].
    + cbn [Rating.user Rating.song]. intros Hi.
      apply in_map_iff in Hi as (x & [= E1 E2] & Hx).
      assert (existsb (rating_of user song) (ratings db) = true); [|congruence].
      apply existsb_exists. exists x. split; [exact Hx|].
      unfold rating_of. now rewrite E1, E2, !Nat.eqb_refl.
    + cbn [Rating.song]. now apply in_map.
  - cbn [store]. apply get_inr_In in Eg as [Hr _].
    apply ok_ratings_map; [exact Hok|]. intros x Hx.
    destruct (Nat.eqb (Rating.pk x) (Rating.pk r)) eqn:Ep.
    + apply Nat.eqb_eq in Ep.
      assert (x = r).
      { destruct Hok as ((_ & _ & _ & _ & _ & _ & _ & K8) & _).
        eapply NoDup_map_In_eq; eauto. }
      subst x. repeat split; try reflexivity; apply Hv.
    + assert (Hr' : (1 <= Rating.rating x <= 5)%Z).
      { destruct Hok as (_ & _ & _ & G). unfold ratings_in_range in G.
        rewrite Forall_forall in G. now apply G. }
      repeat split; try reflexivity; apply Hr'.
Qed.

Lemma upload_song_ok (m : Method) (d : SongUploadForm.data) :
  selection_ok db d -> store_ok (store (upload_song user now db m d)).
Proof.
  intros Hsel. unfold upload_song. destruct m; [exact Hok|].
  destruct (SongUploadForm.is_valid d db) as [e|[res db1]] eqn:E; [exact Hok|].
  destruct (is_valid_effect d db db1 res Hsel E) as [Hstep Hres].
  pose proof (ok_catalog_step db Hok d db1 Hstep) as Hok1.
  destruct res as [[[a al] g]|]; [|exact Hok1].
  destruct Hres as (Ha & Hal & Hg & _).
  unfold Song_insert. cbn [store].
  apply ok_song_append; [exact Hok1|reflexivity|..]; cbn.
  - now apply in_map.
  - intros k Hk. destruct al as [x|]; [|discriminate].
    injection Hk as <-. apply in_map. now apply Hal.
  - intros k Hk. destruct g as [x|]; [|discriminate].
    injection Hk as <-. apply in_map. now apply Hg.
Qed.

Lemma edit_song_ok (pk : nat) (m : Method) (d : SongUploadForm.data) :
  selection_ok db d -> store_ok (store (edit_song user db pk m d)).
Proof.
  intros Hsel. unfold edit_song.
  destruct (get_object_or_404 _ (songs db)) as [e|song]; [exact Hok|].
  destruct (negb (Nat.eqb (Song.uploaded_by song) (User.pk user)) && _); [exact Hok|].
  destruct m; [exact Hok|].
  destruct (SongUploadForm.is_valid d db) as [e|[res db1]] eqn:E; [exact Hok|].
  destruct (is_valid_effect d db db1 res Hsel E) as [Hstep Hres].
  pose proof (ok_catalog_step db Hok d db1 Hstep) as Hok1.
  destruct res as [[[a al] g]|]; [|exact Hok1].
  destruct Hres as (Ha & Hal & Hg & _).
  unfold Song_update. cbn [store].
  apply ok_songs_rewrite; [exact Hok1|]. intros s Hs.
  destruct (Nat.eqb (Song.pk s) (Song.pk song)); cbn.
  - split; [reflexivity|]. split; [now apply in_map|]. split.
    + intros k Hk. destruct al as [x|]; [|discriminate].
      injection Hk as <-. apply in_map. now apply Hal.
    + intros k Hk. destruct g as [x|]; [|discriminate].
      injection Hk as <-. apply in_map. now apply Hg.
  - destruct Hok1 as (_ & _ & (R1 & R2 & R3 & _) & _).
    split; [reflexivity|]. split; [auto|]. split; eauto.
Qed.

End ViewsKeepOk2.

Lemma handle_ok (user : User.t) (now : nat) (r : request) (db : DB) :
  store_ok db -> request_ok db r -> store_ok (handle user now r db).
Proof.
  intros Hok Hr. destruct r; cbn [handle request_ok] in *.
  - now apply play_song_ok.
  - now apply download_song_ok.
  - now apply upload_song_ok.
  - now apply edit_song_ok.
  - now apply delete_song_ok.
  - now apply create_playlist_ok.
  - now apply edit_playlist_ok.
  - now apply delete_playlist_ok.
  - now apply add_to_playlist_ok.
  - now apply remove_from_playlist_ok.
  - now apply toggle_favorite_ok.
  - now apply add_rating_ok.
Qed.

Lemma empty_db_ok : store_ok empty_db.
Proof.
  open_store_ok. simpl.
  repeat split; try constructor; intros; contradiction.
Qed.

(** X3.  Whatever requests are served, in whatever order and by whichever
    users, the store keeps its promises: primary keys stay distinct in every
    table, no user has two Favorite rows or two Rating rows for one song, no
    two genres share a name, every rating is between 1 and 5, and every
    reference to a song, artist, album or genre points at an existing row
    (deleting a song takes its favorites, ratings, plays and playlist
    entries with it).  The only assumption is that a form's selected artist,
    album and genre are rows of the store at that moment. *)
Theorem session_keeps_store_ok (trace : list (User.t * nat * request)) (db : DB) :
  store_ok db -> trace_ok trace db -> store_ok (run trace db).
Proof.
  revert db. induction trace as [|[[user now] r] rest IH]; intros db Hok Ht.
  - exact Hok.
  - destruct Ht as [Hr Ht]. cbn [run]. apply IH; [|exact Ht].
    now apply handle_ok.
Qed.

Lemma session_keeps_store_ok_witness :
  store_ok empty_db /\ trace_ok sample_session empty_db
  /\ store_ok (run sample_session empty_db).
Proof.
  assert (Ht : trace_ok sample_session empty_db).
  { cbn [trace_ok sample_session request_ok].
    repeat split; discriminate. }
  split; [exact empty_db_ok|]. split; [exact Ht|].
  exact (session_keeps_store_ok sample_session empty_db empty_db_ok Ht).
Defined.

(** ** What a well-kept store rules out *)

Lemma filter_unique {A B : Type} (f : A -> B) (p : A -> bool) (l : list A) :
  NoDup (map f l) ->
  (forall x y, p x = true -> p y = true -> f x = f y) ->
  List.length (filter p l) <= 1.
Proof.
  intros Hnd Hp. induction l as [|x r IH]; simpl; [lia|].
  inversion Hnd as [|? ? Hx Hr]; subst.
  destruct (p x) eqn:Ex; [|now apply IH].
  assert (E : filter p r = []).
  { destruct (filter p r) as [|y t] eqn:Ef; [reflexivity|].
    assert (Hy : In y r /\ p y = true) by (apply filter_In; rewrite Ef; now left).
    destruct Hy as [Hy Py]. exfalso. apply Hx.
    rewrite (Hp x y Ex Py). now apply in_map. }
  rewrite E. simpl. lia.
Qed.

Lemma get_of_short {A : Type} (p : A -> bool) (l : list A) :
  List.length (filter p l) <= 1 ->
  ORM.get p l = inl ORM.DoesNotExist /\ filter p l = []
  \/ exists x, ORM.get p l = inr x /\ filter p l = [x].
Proof.
  unfold ORM.get. destruct (filter p l) as [|x [|y t]]; simpl; intros H.
  - now left.
  - right. now exists x.
  - lia.
Qed.

Section OkStore.
Variable db : DB.
Hypothesis Hok : store_ok db.

Lemma song_filter_short (pk : nat) :
  List.length (filter (fun s => Nat.eqb (Song.pk s) pk) (songs db)) <= 1.
Proof.
  destruct Hok as ((K1 & _) & _). apply (filter_unique Song.pk); [exact K1|].
  intros x y Hx Hy. apply Nat.eqb_eq in Hx, Hy. congruence.
Qed.

Lemma song_lookup_ok (pk : nat) :
  get_object_or_404 (fun s => Nat.eqb (Song.pk s) pk) (songs db) = inl Http404
  \/ exists s, get_object_or_404 (fun s => Nat.eqb (Song.pk s) pk) (songs db) = inr s.
Proof.
  unfold get_object_or_404.
  destruct (get_of_short _ _ (song_filter_short pk)) as [[-> _]|(s & -> & _)].
  - now left.
  - right. now exists s.
Qed.

Lemma song_lookup_found (pk : nat) :
  In pk (map Song.pk (songs db)) -> exists s, song_by_pk db pk = inr s.
Proof.
  intros Hin. unfold song_by_pk.
  destruct (get_of_short _ _ (song_filter_short pk)) as [[_ E]|(s & -> & _)].
  - exfalso. apply in_map_iff in Hin as (s & Hs & Hi).
    assert (In s (filter (fun s => Nat.eqb (Song.pk s) pk) (songs db))).
    { apply filter_In. split; [exact Hi|now apply Nat.eqb_eq]. }
    rewrite E in H. contradiction.
  - now exists s.
Qed.

Lemma favorites_short (user : User.t) (pk : nat) : favorite_count user db pk <= 1.
Proof.
  destruct Hok as (_ & (U1 & _) & _). unfold favorite_count, ORM.count.
  apply (filter_unique (fun f => (Favorite.user f, Favorite.song f))); [exact U1|].
  intros x y Hx Hy.
  apply andb_true_iff in Hx as [X1 X2]. apply andb_true_iff in Hy as [Y1 Y2].
  apply Nat.eqb_eq in X1, X2, Y1, Y2. congruence.
Qed.

Lemma ratings_short (user : User.t) (pk : nat) :
  List.length (ratings_of user db pk) <= 1.
Proof.
  destruct Hok as (_ & (_ & U2 & _) & _). unfold ratings_of.
  apply (filter_unique (fun r => (Rating.user r, Rating.song r))); [exact U2|].
  intros x y Hx Hy.
  apply andb_true_iff in Hx as [X1 X2]. apply andb_true_iff in Hy as [Y1 Y2].
  apply Nat.eqb_eq in X1, X2, Y1, Y2. congruence.
Qed.

Lemma toggle_favorite_no_query_error (user : User.t) (now pk : nat) (m : Method)
      (ajax : bool) (e : ORM.error) :
  response (toggle_favorite user now db pk m ajax) <> Raised (QueryError e).
Proof.
  unfold toggle_favorite. destruct m; [discriminate|].
  destruct (song_lookup_ok pk) as [->|(s & Hs)]; [discriminate|].
  rewrite Hs. apply found_song in Hs as [_ Hpk].
  pose proof (favorites_short user pk) as Hf.
  unfold favorite_count, ORM.count in Hf.
  unfold Favorite_get_or_create, Favorite_create, favorite_of. rewrite Hpk.
  destruct (get_of_short _ _ Hf) as [[-> E]|(f & -> & _)].
  - rewrite (filter_nil_existsb _ _ E). cbn. destruct ajax; discriminate.
  - cbn. destruct ajax; discriminate.
Qed.

Lemma add_rating_no_query_error (user : User.t) (now pk : nat) (m : Method)
      (posted : option string) (e : ORM.error) :
  response (add_rating user now db pk m posted) <> Raised (QueryError e).
Proof.
  unfold add_rating. destruct m; [discriminate|].
  destruct (song_lookup_ok pk) as [->|(s & Hs)]; [discriminate|].
  rewrite Hs. apply found_song in Hs as [_ Hpk].
  destruct (RatingForm.is_valid posted); [|discriminate].
  pose proof (ratings_short user pk) as Hf. unfold ratings_of in Hf.
  unfold Rating_update_or_create, Rating_create, rating_of. rewrite Hpk.
  destruct (get_of_short _ _ Hf) as [[-> E]|(f & -> & _)].
  - rewrite (filter_nil_existsb _ _ E). discriminate.
  - discriminate.
Qed.

Lemma most_played_songs_found (items : list (nat * nat)) :
  (forall i, In i items -> In (fst i) (map Song.pk (songs db))) ->
  exists l, most_played_songs db items = inr l.
Proof.
  induction items as [|[k n] rest IH]; intros H; [now exists []|].
  cbn [most_played_songs].
  destruct (song_lookup_found k) as [s Hs]; [apply (H (k, n)); now left|].
  unfold song_by_pk in Hs. rewrite Hs.
  destruct IH as [l ->]; [intros i Hi; apply H; now right|].
  eauto.
Qed.

Lemma user_stats_renders (user : User.t) :
  exists c, response (user_stats user db) = Content c.
Proof.
  unfold user_stats.
  assert (H : forall i, In i (most_played user db) ->
                        In (fst i) (map Song.pk (songs db))).
  { intros [k n] Hi. cbn [fst].
    apply firstn_incl, order_by_In in Hi.
    unfold values_song_count in Hi. apply in_map_iff in Hi as (k' & [= <- _] & Hk).
    apply order_by_In, nodup_In, in_map_iff in Hk as (h & <- & Hh).
    apply filter_In in Hh as [Hh _].
    destruct Hok as (_ & _ & (_ & _ & _ & _ & _ & _ & R7 & _) & _). auto. }
  destruct (most_played_songs_found (most_played user db) H) as [l ->].
  eexists. reflexivity.
Qed.

End OkStore.

(** X4.  In a store that keeps its promises no lookup trips over a
    duplicate: a song is found by its key or is a plain 404, a user has at
    most one Favorite and one Rating row per song, toggle_favorite and
    add_rating never end in a database error, and user_stats always renders,
    because every song named in a play history row still exists. *)
Theorem ok_store_has_no_query_errors (db : DB) :
  store_ok db ->
  (forall pk,
      (get_object_or_404 (fun s => Nat.eqb (Song.pk s) pk) (songs db) = inl Http404
       \/ exists s, get_object_or_404 (fun s => Nat.eqb (Song.pk s) pk) (songs db)
                    = inr s)
      /\ (In pk (map Song.pk (songs db)) -> exists s, song_by_pk db pk = inr s))
  /\ (forall user pk,
         favorite_count user db pk <= 1 /\ List.length (ratings_of user db pk) <= 1)
  /\ (forall user now pk m ajax e,
         response (toggle_favorite user now db pk m ajax) <> Raised (QueryError e))
  /\ (forall user now pk m posted e,
         response (add_rating user now db pk m posted) <> Raised (QueryError e))
  /\ (forall user, exists c, response (user_stats user db) = Content c).
Proof.
  intros Hok. split; [|split; [|split; [|split]]].
  - intros pk. split; [now apply song_lookup_ok|now apply song_lookup_found].
  - intros user pk. split; [now apply favorites_short|now apply ratings_short].
  - intros. now apply toggle_favorite_no_query_error.
  - intros. now apply add_rating_no_query_error.
  - intros. now apply user_stats_renders.
Qed.

Lemma ok_store_has_no_query_errors_witness :
  store_ok (run sample_session empty_db)
  /\ exists c, response (user_stats bob (run sample_session empty_db)) = Content c.
Proof.
  assert (Ht : trace_ok sample_session empty_db).
  { cbn [trace_ok sample_session request_ok]. repeat split; discriminate. }
  assert (Hok : store_ok (run sample_session empty_db)).
  { revert Ht. generalize empty_db_ok. generalize empty_db.
    induction sample_session as [|[[u t] r] rest IH]; intros db Hok Ht; [exact Hok|].
    destruct Ht as [Hr Ht]. cbn [run]. apply IH; [now apply handle_ok|exact Ht]. }
  split; [exact Hok|].
  exact (proj2 (proj2 (proj2 (proj2
           (ok_store_has_no_query_errors (run sample_session empty_db) Hok)))) bob).
Defined.

(** ** Uploading a song *)

(** X5.  Cleaning an upload form writes to the catalog only and only by
    adding: songs, playlists, favorites, plays and ratings are untouched,
    and each of the artist, album and genre tables gets at most one new row,
    with the next key and the stripped text of the typed name, and only when
    no row was selected in the form.  The artist, album and genre it settles
    on are rows of the store afterwards.  A form with neither a selected
    artist nor a typed name is refused before anything is written. *)
Theorem upload_form_clean_effect (d : SongUploadForm.data) (db : DB) :
  (SongUploadForm.artist d = None -> SongUploadForm.artist_name d = "" ->
   SongUploadForm.clean d db
   = inr (SongUploadForm.ValidationError
            "Please select an artist or enter a new artist name.", db))
  /\ (forall out db',
         selection_ok db d ->
         SongUploadForm.clean d db = inr (out, db') ->
         catalog_step d db db'
         /\ match out with
            | SongUploadForm.Cleaned a al g =>
                (exists x, a = Some x /\ In x (artists db'))
                /\ (forall x, al = Some x -> In x (albums db'))
                /\ (forall x, g = Some x -> In x (genres db'))
            | SongUploadForm.ValidationError _ => True
            end).
Proof.
  split.
  - intros Ha Hn. rewrite clean_steps, Ha, Hn. reflexivity.
  - intros out db'. apply clean_effect.
Qed.

Lemma upload_form_clean_effect_witness :
  selection_ok empty_db creep_upload
  /\ exists out db',
      SongUploadForm.clean creep_upload empty_db = inr (out, db')
      /\ catalog_step creep_upload empty_db db'.
Proof.
  assert (Hs : selection_ok empty_db creep_upload) by (repeat split; discriminate).
  split; [exact Hs|].
  eexists. eexists. split; [reflexivity|].
  exact (proj1 (proj2 (upload_form_clean_effect creep_upload empty_db) _ _ Hs eq_refl)).
Defined.

(** X6.  The size check of the upload form comes last.  A post that types
    a new artist name and carries a file above 50 MB is refused, the upload
    page is shown again and no song is stored, but the artist row created on
    the way stays in the store. *)
Theorem oversize_upload_keeps_new_artist (user : User.t) (now : nat)
        (d : SongUploadForm.data) (db : DB) (n : Z) :
  SongUploadForm.artist d = None ->
  SongUploadForm.artist_name d <> "" ->
  artists_named db (Py.strip (SongUploadForm.artist_name d)) = [] ->
  SongUploadForm.album_title d = "" ->
  SongUploadForm.genre_name d = "" ->
  SongUploadForm.audio_file_size d = Some n ->
  (SongUploadForm.max_audio_size < n)%Z ->
  let created := Artist.mk (ORM.next_pk Artist.pk (artists db))
                           (Py.strip (SongUploadForm.artist_name d)) in
  let r := upload_song user now db POST d in
  SongUploadForm.clean d db
  = inr (SongUploadForm.ValidationError "Audio file size cannot exceed 50MB.",
         with_artists (artists db ++ [created]) db)
  /\ response r = Content Invalid
  /\ songs (store r) = songs db
  /\ artists (store r) = artists db ++ [created].
Proof.
  intros Ha Hn Hnone Hal Hg Hsz Hbig created r.
  assert (Hc : SongUploadForm.clean d db
               = inr (SongUploadForm.ValidationError
                        "Audio file size cannot exceed 50MB.",
                      with_artists (artists db ++ [created]) db)).
  { rewrite clean_steps, Ha.
    assert (Ht : SongUploadForm.truthy (SongUploadForm.artist_name d) = true).
    { unfold SongUploadForm.truthy.
      destruct (String.eqb_spec (SongUploadForm.artist_name d) ""); [contradiction|].
      reflexivity. }
    rewrite Ht. cbn [negb].
    unfold clean_artist, resolve_artist, Artist_get_or_create, Artist_create, ORM.get.
    rewrite Ha. unfold artists_named in Hnone. rewrite Hnone.
    unfold clean_album, clean_genre. rewrite Hal, Hg, Hsz.
    replace (n >? SongUploadForm.max_audio_size)%Z with true
      by (symmetry; apply Z.gtb_lt; exact Hbig).
    destruct (SongUploadForm.album d), (SongUploadForm.genre d); reflexivity. }
  split; [exact Hc|].
  unfold r, upload_song, SongUploadForm.is_valid. rewrite Hc.
  repeat split.
Qed.

Lemma oversize_upload_keeps_new_artist_witness :
  artists
    (store (upload_song alice 9 empty_db POST
              (SongUploadForm.mk "Big" None None None (Some 52428801%Z) true
                                 "Sigur Ros" "" "" false)))
  = [Artist.mk 1 "Sigur Ros"].
Proof.
  refine (proj2 (proj2 (proj2
            (oversize_upload_keeps_new_artist alice 9
               (SongUploadForm.mk "Big" None None None (Some 52428801%Z) true
                                  "Sigur Ros" "" "" false)
               empty_db 52428801%Z eq_refl _ eq_refl eq_refl eq_refl eq_refl eq_refl)))).
  discriminate.
Defined.

Lemma get_map_same {A : Type} (p : A -> bool) (f : A -> A) (l : list A) :
  (forall x, p (f x) = p x) ->
  ORM.get p (map f l)
  = match ORM.get p l with
    | inr x => inr (f x)
    | inl e => inl e
    end.
Proof.
  intros H. unfold ORM.get. rewrite (filter_map_same p f l H).
  destruct (filter p l) as [|x [|y t]]; reflexivity.
Qed.

Lemma get_map_others {A : Type} (p : A -> bool) (f : A -> A) (l : list A) :
  (forall x, p (f x) = p x) -> (forall x, p x = true -> f x = x) ->
  ORM.get p (map f l) = ORM.get p l.
Proof.
  intros H Hid. unfold ORM.get. rewrite (filter_map_same p f l H).
  replace (map f (filter p l)) with (filter p l); [reflexivity|].
  rewrite <- (map_id (filter p l)) at 1. apply map_ext_in.
  intros x Hx. apply filter_In in Hx as [_ Hx]. symmetry. now apply Hid.
Qed.

Lemma get_snoc_fresh {A : Type} (p : A -> bool) (l : list A) (x : A) :
  filter p l = [] -> p x = true -> ORM.get p (l ++ [x]) = inr x.
Proof.
  intros Hl Hx. unfold ORM.get. now rewrite filter_app_one, Hl, Hx.
Qed.

Lemma filter_key_fresh {A : Type} (pk : A -> nat) (l : list A) :
  filter (fun x => Nat.eqb (pk x) (ORM.next_pk pk l)) l = [].
Proof.
  set (p := fun x => Nat.eqb (pk x) (ORM.next_pk pk l)).
  destruct (filter p l) as [|y t] eqn:E; [reflexivity|].
  assert (H : In y l /\ p y = true) by (apply filter_In; rewrite E; now left).
  destruct H as [Hy Hk]. apply Nat.eqb_eq in Hk.
  exfalso. apply (next_pk_fresh pk l). rewrite <- Hk. now apply in_map.
Qed.

(** X7.  A valid upload stores exactly one new song: it gets a key that no
    song of the store has, the requester as uploader, the request time as
    upload date, both counters at zero and no featured flag, together with
    the form's title and visibility and the cleaned artist, album and genre;
    the uploader is sent to the page of that song, and that page shows it.
    A GET, or a post that does not validate, stores no song. *)
Theorem upload_song_adds_one_song (user : User.t) (now : nat) (db : DB)
        (d : SongUploadForm.data) :
  selection_ok db d ->
  (forall a al g db1,
      SongUploadForm.is_valid d db = inr (Some (a, al, g), db1) ->
      let r := upload_song user now db POST d in
      exists k,
        ~ In k (map Song.pk (songs db))
        /\ let song :=
             Song.mk k (SongUploadForm.title d) (Artist.pk a)
                     (option_map Album.pk al) (option_map Genre.pk g) (User.pk user) now
                     0 0 (SongUploadForm.is_public d) false in
           songs (store r) = songs db ++ [song]
           /\ response r = Redirect "music:song_detail" (Some k)
           /\ song_by_pk (store r) k = inr song
           /\ exists c, response (song_detail user (store r) k) = Content c
                        /\ ctx_song c = song)
  /\ (forall db1, SongUploadForm.is_valid d db = inr (None, db1) ->
                  songs (store (upload_song user now db POST d)) = songs db)
  /\ store (upload_song user now db GET d) = db.
Proof.
  intros Hsel. split; [|split; [|reflexivity]].
  - intros a al g db1 Hv r.
    exists (ORM.next_pk Song.pk (songs db)). split; [apply next_pk_fresh|].
    intros song.
    destruct (is_valid_effect d db db1 _ Hsel Hv) as [(E1 & _) _].
    assert (Es : songs (store r) = songs db ++ [song]).
    { unfold r, upload_song. rewrite Hv. unfold Song_insert. cbn [store songs with_songs].
      rewrite E1. reflexivity. }
    assert (El : song_by_pk (store r) (Song.pk song) = inr song).
    { unfold song_by_pk. rewrite Es. apply get_snoc_fresh.
      - apply filter_key_fresh.
      - apply Nat.eqb_refl. }
    split; [exact Es|]. split.
    + unfold r, upload_song. rewrite Hv. unfold Song_insert. cbn [response].
      rewrite E1. reflexivity.
    + split; [exact El|].
      unfold song_detail. unfold song_by_pk in El.
      cbn [Song.pk song] in El.
      rewrite (proj2 (get_404_inr _ _ _) El).
      cbn [Song.is_public Song.uploaded_by song]. rewrite Nat.eqb_refl.
      rewrite andb_false_r. eexists. split; reflexivity.
  - intros db1 Hv. unfold upload_song. rewrite Hv. cbn [store].
    destruct (is_valid_effect d db db1 _ Hsel Hv) as [(E1 & _) _]. exact E1.
Qed.

Lemma upload_song_adds_one_song_witness :
  selection_ok sample_db creep_upload
  /\ exists k,
      ~ In k (map Song.pk (songs sample_db))
      /\ songs (store (upload_song bob 30 sample_db POST creep_upload))
         = songs sample_db
           ++ [Song.mk k "Creep" 1 (Some 1) (Some 1) 2 30 0 0 true false].
Proof.
  assert (Hs : selection_ok sample_db creep_upload) by (repeat split; discriminate).
  split; [exact Hs|].
  destruct (proj1 (upload_song_adds_one_song bob 30 sample_db creep_upload Hs)
                  (Artist.mk 1 "Radiohead") (Some (Album.mk 1 "Pablo Honey" 1))
                  (Some (Genre.mk 1 "Rock")) _ eq_refl)
    as (k & Hk & Hsongs & _).
  exists k. split; [exact Hk|exact Hsongs].
Defined.

(** ** Editing, deleting and downloading a song *)

(** X8.  A valid edit by the uploader or by staff rewrites the song in
    place: title, artist, album, genre and visibility come from the form,
    while the key, the uploader, the upload date, both counters and the
    featured flag stay as they were; every other song is left alone.  The
    next request already sees the new flag: once the song is made private,
    song_detail refuses everyone but the uploader. *)
Theorem edit_song_rewrites_in_place (user : User.t) (db : DB) (pk : nat) (s : Song.t)
        (d : SongUploadForm.data) (a : Artist.t) (al : option Album.t)
        (g : option Genre.t) (db1 : DB) :
  song_by_pk db pk = inr s ->
  Song.uploaded_by s = User.pk user \/ User.is_staff user = true ->
  selection_ok db d ->
  SongUploadForm.is_valid d db = inr (Some (a, al, g), db1) ->
  let r := edit_song user db pk POST d in
  let s' := Song.mk pk (SongUploadForm.title d) (Artist.pk a)
                    (option_map Album.pk al) (option_map Genre.pk g)
                    (Song.uploaded_by s) (Song.upload_date s)
                    (Song.play_count s) (Song.download_count s)
                    (SongUploadForm.is_public d) (Song.is_featured s) in
  song_by_pk (store r) pk = inr s'
  /\ (forall k, k <> pk -> song_by_pk (store r) k = song_by_pk db k)
  /\ (forall viewer,
         permission_denied (song_detail viewer (store r) pk)
         = negb (SongUploadForm.is_public d)
           && negb (Nat.eqb (Song.uploaded_by s) (User.pk viewer))).
Proof.
  intros Hs Hauth Hsel Hv r s'.
  pose proof Hs as Hg. unfold song_by_pk in Hg.
  destruct (get_inr_In _ _ _ Hg) as [Hin Hpk]. apply Nat.eqb_eq in Hpk.
  destruct (is_valid_effect d db db1 _ Hsel Hv) as [(E1 & _) _].
  assert (Er : store r = Song_update s d a al g db1).
  { unfold r, edit_song. rewrite (proj2 (get_404_inr _ _ _) Hg).
    replace (negb (Nat.eqb (Song.uploaded_by s) (User.pk user))
             && negb (User.is_staff user)) with false.
    - now rewrite Hv.
    - destruct Hauth as [-> | ->]; [now rewrite Nat.eqb_refl|now rewrite andb_false_r]. }
  assert (L1 : song_by_pk (store r) pk = inr s').
  { rewrite Er. unfold song_by_pk, Song_update. cbn [songs with_songs]. rewrite E1.
    rewrite get_map_same.
    - rewrite Hg. rewrite Hpk, Nat.eqb_refl. reflexivity.
    - intros x. destruct (Nat.eqb (Song.pk x) (Song.pk s)); reflexivity. }
  split; [exact L1|]. split.
  - intros k Hk. rewrite Er. unfold song_by_pk, Song_update. cbn [songs with_songs].
    rewrite E1. apply get_map_others.
    + intros x. destruct (Nat.eqb (Song.pk x) (Song.pk s)); reflexivity.
    + intros x Hx. apply Nat.eqb_eq in Hx.
      destruct (Nat.eqb (Song.pk x) (Song.pk s)) eqn:E; [|reflexivity].
      apply Nat.eqb_eq in E. congruence.
  - intros viewer. unfold song_detail. unfold song_by_pk in L1.
    rewrite (proj2 (get_404_inr _ _ _) L1). cbn [Song.is_public Song.uploaded_by s'].
    destruct (negb (SongUploadForm.is_public d) && _); reflexivity.
Qed.

Lemma edit_song_rewrites_in_place_witness :
  permission_denied
    (song_detail bob
       (store (edit_song alice sample_db 1 POST
                 (SongUploadForm.mk "Creep (live)" (Some (Artist.mk 1 "Radiohead"))
                                    None None None false "" "" "" false)))
       1)
  = true.
Proof.
  refine (proj2 (proj2
            (edit_song_rewrites_in_place alice sample_db 1 creep
               (SongUploadForm.mk "Creep (live)" (Some (Artist.mk 1 "Radiohead"))
                                  None None None false "" "" "" false)
               (Artist.mk 1 "Radiohead") None None sample_db
               eq_refl (or_introl eq_refl) _ eq_refl)) bob).
  repeat split; try discriminate. intros a [= <-]. simpl. auto.
Defined.

(** X9.  Deleting a song, which only its uploader or staff can do, removes
    the row and everything that hangs on it and nothing else.  Afterwards
    the song's page is a 404; the songs, favorites, ratings and play history
    rows are those of before that do not name the song; every playlist is
    as it was, in the same place, with the same key, name, owner, flags and
    creation time, and with the same members but for the song; artists,
    albums and genres are untouched. *)
Theorem delete_song_cascades (user : User.t) (db : DB) (pk : nat) (s : Song.t) :
  song_by_pk db pk = inr s ->
  Song.uploaded_by s = User.pk user \/ User.is_staff user = true ->
  let r := delete_song user db pk POST in
  response r = Redirect "music:song_list" None
  /\ song_by_pk (store r) pk = inl ORM.DoesNotExist
  /\ not_found (song_detail user (store r) pk) = true
  /\ (forall k, k <> pk -> song_by_pk (store r) k = song_by_pk db k)
  /\ (forall f, In f (favorites (store r))
                <-> In f (favorites db) /\ Favorite.song f <> pk)
  /\ (forall x, In x (ratings (store r)) <-> In x (ratings db) /\ Rating.song x <> pk)
  /\ (forall h, In h (playhistory (store r))
                <-> In h (playhistory db) /\ PlayHistory.song h <> pk)
  /\ (forall p, In p (playlists (store r)) -> ~ In pk (Playlist.songs p))
  /\ map Playlist.pk (playlists (store r)) = map Playlist.pk (playlists db)
  /\ (forall x, In x (songs (store r)) <-> In x (songs db) /\ Song.pk x <> pk)
  /\ Forall2 (fun p p' =>
                Playlist.pk p' = Playlist.pk p
                /\ Playlist.name p' = Playlist.name p
                /\ Playlist.user p' = Playlist.user p
                /\ Playlist.is_public p' = Playlist.is_public p
                /\ Playlist.is_collaborative p' = Playlist.is_collaborative p
                /\ Playlist.created_at p' = Playlist.created_at p
                /\ Playlist.songs p'
                   = filter (fun k => negb (Nat.eqb k pk)) (Playlist.songs p))
             (playlists db) (playlists (store r))
  /\ artists (store r) = artists db
  /\ albums (store r) = albums db
  /\ genres (store r) = genres db.
Proof.
  intros Hs Hauth r.
  pose proof Hs as Hg. unfold song_by_pk in Hg.
  destruct (get_inr_In _ _ _ Hg) as [Hin Hpk]. apply Nat.eqb_eq in Hpk.
  assert (Er : r = mkResult (Redirect "music:song_list" None)
                            [(success, ("Song " ++ quote ++ Song.title s ++ quote
                                        ++ " deleted successfully.")%string)]
                            (Song_delete s db)).
  { unfold r, delete_song. rewrite (proj2 (get_404_inr _ _ _) Hg).
    replace (negb (Nat.eqb (Song.uploaded_by s) (User.pk user))
             && negb (User.is_staff user)) with false; [reflexivity|].
    destruct Hauth as [-> | ->]; [now rewrite Nat.eqb_refl|now rewrite andb_false_r]. }
  rewrite Er. cbn [response store]. unfold Song_delete. rewrite Hpk.
  cbn [songs favorites ratings playhistory playlists].
  assert (Hgone : filter (fun x => Nat.eqb (Song.pk x) pk)
                         (filter (fun x => negb (Nat.eqb (Song.pk x) pk)) (songs db))
                  = []).
  { generalize (songs db) as l. clear. intros l.
    induction l as [|x l IH]; [reflexivity|]. simpl.
    destruct (Nat.eqb (Song.pk x) pk) eqn:E; simpl; [exact IH|].
    rewrite E. exact IH. }
  assert (L : song_by_pk
                (mkDB (filter (fun x => negb (Nat.eqb (Song.pk x) pk)) (songs db))
                      (artists db) (albums db) (genres db)
                      (map (fun p => Playlist.mk (Playlist.pk p) (Playlist.name p)
                                       (Playlist.user p)
                                       (filter (fun k => negb (Nat.eqb k pk))
                                               (Playlist.songs p))
                                       (Playlist.is_public p)
                                       (Playlist.is_collaborative p)
                                       (Playlist.created_at p))
                           (playlists db))
                      (filter (fun f => negb (Nat.eqb (Favorite.song f) pk)) (favorites db))
                      (filter (fun h => negb (Nat.eqb (PlayHistory.song h) pk))
                              (playhistory db))
                      (filter (fun x => negb (Nat.eqb (Rating.song x) pk)) (ratings db)))
                pk = inl ORM.DoesNotExist).
  { unfold song_by_pk, ORM.get. cbn [songs]. now rewrite Hgone. }
  split; [reflexivity|]. split; [exact L|]. split.
  { unfold song_detail, not_found, get_object_or_404. unfold song_by_pk in L.
    now rewrite L. }
  split.
  { intros k Hk. unfold song_by_pk, ORM.get. cbn [songs].
    replace (filter (fun x => Nat.eqb (Song.pk x) k)
                    (filter (fun x => negb (Nat.eqb (Song.pk x) pk)) (songs db)))
      with (filter (fun x => Nat.eqb (Song.pk x) k) (songs db)); [reflexivity|].
    rewrite <- filter_andb. apply filter_ext. intros x.
    destruct (Nat.eqb (Song.pk x) k) eqn:E; [|now rewrite andb_false_r].
    apply Nat.eqb_eq in E. rewrite E.
    apply Nat.eqb_neq in Hk. now rewrite Hk. }
  split.
  { intros f. rewrite filter_In, negb_true_iff, Nat.eqb_neq. reflexivity. }
  split.
  { intros x. rewrite filter_In, negb_true_iff, Nat.eqb_neq. reflexivity. }
  split.
  { intros h. rewrite filter_In, negb_true_iff, Nat.eqb_neq. reflexivity. }
  split.
  { intros p Hp Hk. apply in_map_iff in Hp as (p0 & <- & _). cbn in Hk.
    apply filter_In in Hk as [_ Hk]. now rewrite Nat.eqb_refl in Hk. }
  split; [rewrite map_map; reflexivity|].
  split.
  { intros x. rewrite filter_In, negb_true_iff, Nat.eqb_neq. reflexivity. }
  split; [|repeat split].
  generalize (playlists db) as l. intros l.
  induction l as [|p l IH]; constructor; [repeat split|exact IH].
Qed.

Lemma delete_song_cascades_witness :
  song_by_pk (run (firstn 6 sample_session) empty_db) 1
  = inr (Song.mk 1 "Creep" 1 (Some 1) (Some 1) 1 1 1 0 true false)
  /\ song_by_pk
       (store (delete_song alice (run (firstn 6 sample_session) empty_db) 1 POST)) 1
     = inl ORM.DoesNotExist.
Proof.
  split; [reflexivity|].
  exact (proj1 (proj2 (delete_song_cascades alice
                         (run (firstn 6 sample_session) empty_db) 1
                         _ eq_refl (or_introl eq_refl)))).
Defined.

(** ** Downloads *)

Lemma with_songs_same (db : DB) : with_songs (songs db) db = db.
Proof. now destruct db. Qed.

Lemma with_playlists_same (db : DB) : with_playlists (playlists db) db = db.
Proof. now destruct db. Qed.

Lemma get_by_pk_rewritten (pk : nat) (f : Song.t -> Song.t) (l : list Song.t) (s : Song.t) :
  (forall x, Song.pk (f x) = Song.pk x) ->
  ORM.get (fun x => Nat.eqb (Song.pk x) pk) l = inr s ->
  ORM.get (fun x => Nat.eqb (Song.pk x) pk)
          (map (fun x => if Nat.eqb (Song.pk x) pk then f x else x) l)
  = inr (f s).
Proof.
  intros Hf Hg.
  rewrite (get_map_same _ (fun x => if Nat.eqb (Song.pk x) pk then f x else x)).
  - rewrite Hg. destruct (get_inr_In _ _ _ Hg) as [_ ->]. reflexivity.
  - intros x. destruct (Nat.eqb (Song.pk x) pk) eqn:E; [|exact E].
    now rewrite Hf.
Qed.

Lemma get_by_pk_untouched (pk k : nat) (f : Song.t -> Song.t) (l : list Song.t) :
  k <> pk ->
  (forall x, Song.pk (f x) = Song.pk x) ->
  ORM.get (fun x => Nat.eqb (Song.pk x) k)
          (map (fun x => if Nat.eqb (Song.pk x) pk then f x else x) l)
  = ORM.get (fun x => Nat.eqb (Song.pk x) k) l.
Proof.
  intros Hk Hf. apply get_map_others.
  - intros x. destruct (Nat.eqb (Song.pk x) pk); [now rewrite Hf|reflexivity].
  - intros x Hx. apply Nat.eqb_eq in Hx.
    destruct (Nat.eqb (Song.pk x) pk) eqn:E; [|reflexivity].
    apply Nat.eqb_eq in E. congruence.
Qed.

(** X10.  Downloading a song that the requester may see adds one to its
    download count and changes nothing else: the play count stays, no play
    history row is written, and every other song is as it was.  The file
    served is the counted row. *)
Theorem download_song_counts (user : User.t) (db : DB) (pk : nat) (s : Song.t) :
  song_by_pk db pk = inr s ->
  visible user s = true ->
  let r := download_song user db pk in
  let s' := Song.set_download_count (Song.download_count s + 1) s in
  response r = Content s'
  /\ flashed r = []
  /\ song_by_pk (store r) pk = inr s'
  /\ Song.play_count s' = Song.play_count s
  /\ (forall k, k <> pk -> song_by_pk (store r) k = song_by_pk db k)
  /\ store r = with_songs (songs (store r)) db.
Proof.
  intros Hs Hv r s'. pose proof Hs as Hg. unfold song_by_pk in Hg.
  destruct (get_inr_In _ _ _ Hg) as [_ Hpk]. apply Nat.eqb_eq in Hpk.
  assert (Er : r = mkResult (Content s') []
                            (Song_save (Song.set_download_count (Song.download_count s'))
                                       s' db)).
  { unfold r, download_song. rewrite (proj2 (get_404_inr _ _ _) Hg).
    unfold visible in Hv.
    replace (negb (Song.is_public s)
             && negb (Nat.eqb (Song.uploaded_by s) (User.pk user))) with false.
    - reflexivity.
    - destruct (Song.is_public s); [reflexivity|]. simpl in Hv. now rewrite Hv. }
  rewrite Er. cbn [response flashed store]. unfold Song_save.
  replace (Song.pk s') with pk by (symmetry; exact Hpk).
  repeat split.
  - unfold song_by_pk. cbn [songs with_songs].
    rewrite (get_by_pk_rewritten pk _ _ s); [|reflexivity|exact Hg].
    destruct s; reflexivity.
  - intros k Hk. unfold song_by_pk. cbn [songs with_songs].
    now apply get_by_pk_untouched.
Qed.

Lemma download_song_counts_witness :
  song_by_pk (store (download_song bob sample_db 1)) 1
  = inr (Song.mk 1 "Creep" 1 None None 1 10 0 1 true false).
Proof.
  exact (proj1 (proj2 (proj2 (download_song_counts bob sample_db 1 creep
                                 eq_refl eq_refl)))).
Defined.

(** ** Playlist membership *)

Lemma get_ext {A : Type} (p q : A -> bool) (l : list A) :
  (forall x, p x = q x) -> ORM.get p l = ORM.get q l.
Proof. intros H. unfold ORM.get. now rewrite (filter_ext p q H). Qed.

Lemma posted_playlist_lookup (user : User.t) (db : DB) (n : string) (k : nat) :
  Py.int n = Some (Z.of_nat k) ->
  posted_playlist user db (Some n)
  = get_object_or_404 (own_playlist user k) (playlists db).
Proof.
  intros En. unfold posted_playlist, get_object_or_404. rewrite En.
  rewrite (get_ext _ (own_playlist user k)); [reflexivity|].
  intros x. unfold own_playlist. f_equal.
  destruct (Nat.eqb (Playlist.pk x) k) eqn:E.
  - apply Nat.eqb_eq in E. rewrite E. apply Z.eqb_refl.
  - apply Nat.eqb_neq in E. apply Z.eqb_neq. lia.
Qed.

Lemma posted_playlist_own (user : User.t) (db : DB) (id : option string) (p : Playlist.t) :
  posted_playlist user db id = inr p ->
  exists n, id = Some n
            /\ Py.int n = Some (Z.of_nat (Playlist.pk p))
            /\ ORM.get (own_playlist user (Playlist.pk p)) (playlists db) = inr p
            /\ Playlist.user p = User.pk user.
Proof.
  unfold posted_playlist. destruct id as [n|]; [|discriminate].
  destruct (Py.int n) as [z|] eqn:En; [|discriminate].
  intros H. apply get_404_inr in H. pose proof H as Hg.
  apply get_inr_In in H as [_ H]. apply andb_true_iff in H as [Hk Hu].
  apply Z.eqb_eq in Hk. apply Nat.eqb_eq in Hu. subst z.
  exists n. split; [reflexivity|]. split; [exact En|]. split; [|exact Hu].
  rewrite <- Hg. apply get_ext. intros x. unfold own_playlist. f_equal.
  destruct (Nat.eqb (Playlist.pk x) (Playlist.pk p)) eqn:E.
  - apply Nat.eqb_eq in E. rewrite E. symmetry. apply Z.eqb_refl.
  - apply Nat.eqb_neq in E. symmetry. apply Z.eqb_neq. lia.
Qed.

(** The playlist row after its member list is replaced. *)
Lemma set_songs_lookup (user : User.t) (db : DB) (p : Playlist.t) (members : list nat) :
  ORM.get (own_playlist user (Playlist.pk p)) (playlists db) = inr p ->
  ORM.get (own_playlist user (Playlist.pk p))
          (playlists (Playlist_set_songs p members db))
  = inr (Playlist.mk (Playlist.pk p) (Playlist.name p) (Playlist.user p) members
                     (Playlist.is_public p) (Playlist.is_collaborative p)
                     (Playlist.created_at p)).
Proof.
  intros Hg. unfold Playlist_set_songs. cbn [playlists with_playlists].
  rewrite get_map_same.
  - rewrite Hg. now rewrite Nat.eqb_refl.
  - intros x. destruct (Nat.eqb (Playlist.pk x) (Playlist.pk p)); reflexivity.
Qed.

Lemma set_songs_twice (db : DB) (p : Playlist.t) (m1 m2 : list nat) :
  Playlist_set_songs
    (Playlist.mk (Playlist.pk p) (Playlist.name p) (Playlist.user p) m1
                 (Playlist.is_public p) (Playlist.is_collaborative p)
                 (Playlist.created_at p))
    m2 (Playlist_set_songs p m1 db)
  = Playlist_set_songs p m2 db.
Proof.
  unfold Playlist_set_songs, with_playlists. cbn. f_equal.
  rewrite map_map. apply map_ext. intros x.
  destruct (Nat.eqb (Playlist.pk x) (Playlist.pk p)) eqn:E; cbn; now rewrite E.
Qed.

Lemma set_songs_same (db : DB) (p : Playlist.t) :
  NoDup (map Playlist.pk (playlists db)) ->
  In p (playlists db) ->
  Playlist_set_songs p (Playlist.songs p) db = db.
Proof.
  intros Hnd Hin. unfold Playlist_set_songs.
  transitivity (with_playlists (map (fun x => x) (playlists db)) db);
    [|rewrite map_id; apply with_playlists_same].
  f_equal. apply map_ext_in. intros x Hx.
  destruct (Nat.eqb (Playlist.pk x) (Playlist.pk p)) eqn:E; [|reflexivity].
  apply Nat.eqb_eq in E.
  rewrite (NoDup_map_In_eq Playlist.pk _ x p Hnd Hx Hin E). now destruct p.
Qed.

(** X11.  Adding a song to one's playlist puts it there once: the song is a
    member afterwards, a member list without repetitions stays so, and
    posting the same form again changes nothing and only warns. *)
Theorem add_to_playlist_once (user : User.t) (db : DB) (song_pk : nat) (s : Song.t)
  (id : option string) (p : Playlist.t) :
  song_by_pk db song_pk = inr s ->
  posted_playlist user db id = inr p ->
  let r1 := add_to_playlist user db song_pk POST id in
  let r2 := add_to_playlist user (store r1) song_pk POST id in
  (exists p1, posted_playlist user (store r1) id = inr p1
              /\ Playlist.pk p1 = Playlist.pk p
              /\ In song_pk (Playlist.songs p1)
              /\ (NoDup (Playlist.songs p) -> NoDup (Playlist.songs p1)))
  /\ store r2 = store r1
  /\ (exists m, flashed r2 = [(warning, m)])
  /\ response r2 = Redirect "music:song_detail" (Some song_pk).
Proof.
  intros Hs Hp r1 r2. pose proof Hs as Hg. unfold song_by_pk in Hg.
  destruct (get_inr_In _ _ _ Hg) as [_ Hpk]. apply Nat.eqb_eq in Hpk.
  destruct (posted_playlist_own _ _ _ _ Hp) as (n & -> & En & Hown & Hu).
  set (p1 := if existsb (Nat.eqb song_pk) (Playlist.songs p) then p
             else Playlist.mk (Playlist.pk p) (Playlist.name p) (Playlist.user p)
                              (Playlist.songs p ++ [song_pk])
                              (Playlist.is_public p) (Playlist.is_collaborative p)
                              (Playlist.created_at p)).
  assert (E1 : store r1 = if existsb (Nat.eqb song_pk) (Playlist.songs p) then db
                          else Playlist_set_songs p (Playlist.songs p ++ [song_pk]) db).
  { unfold r1, add_to_playlist. rewrite (proj2 (get_404_inr _ _ _) Hg), Hp, Hpk.
    destruct (existsb (Nat.eqb song_pk) (Playlist.songs p)); reflexivity. }
  assert (L1 : posted_playlist user (store r1) (Some n) = inr p1).
  { rewrite (posted_playlist_lookup _ _ _ _ En). apply get_404_inr.
    rewrite E1. unfold p1.
    destruct (existsb (Nat.eqb song_pk) (Playlist.songs p)); [exact Hown|].
    now apply set_songs_lookup. }
  assert (M1 : existsb (Nat.eqb song_pk) (Playlist.songs p1) = true).
  { unfold p1. destruct (existsb (Nat.eqb song_pk) (Playlist.songs p)) eqn:E; [exact E|].
    cbn [Playlist.songs]. rewrite existsb_app. simpl.
    now rewrite Nat.eqb_refl, orb_true_r. }
  assert (S1 : get_object_or_404 (fun x => Nat.eqb (Song.pk x) song_pk) (songs (store r1))
               = inr s).
  { apply get_404_inr. rewrite E1.
    destruct (existsb (Nat.eqb song_pk) (Playlist.songs p)); exact Hg. }
  split.
  { exists p1. split; [exact L1|]. split.
    { unfold p1. now destruct (existsb (Nat.eqb song_pk) (Playlist.songs p)). }
    split.
    { apply existsb_exists in M1 as (k & Hk & Ek). apply Nat.eqb_eq in Ek. now subst k. }
    intros Hnd. unfold p1.
    destruct (existsb (Nat.eqb song_pk) (Playlist.songs p)) eqn:E; [exact Hnd|].
    cbn [Playlist.songs]. apply NoDup_rev in Hnd.
    rewrite <- (rev_involutive (Playlist.songs p ++ [song_pk])).
    apply NoDup_rev. rewrite rev_app_distr. simpl. constructor; [|exact Hnd].
    intros Hin. apply in_rev in Hin.
    assert (existsb (Nat.eqb song_pk) (Playlist.songs p) = true).
    { apply existsb_exists. exists song_pk. split; [exact Hin|apply Nat.eqb_refl]. }
    congruence. }
  unfold r2, add_to_playlist. rewrite S1, L1, Hpk, M1. cbn [store flashed response].
  split; [reflexivity|]. split; [eexists; reflexivity|reflexivity].
Qed.

Lemma add_to_playlist_once_witness :
  store (add_to_playlist alice
           (store (add_to_playlist alice sample_db 2 POST (Some "1"))) 2 POST (Some "1"))
  = store (add_to_playlist alice sample_db 2 POST (Some "1")).
Proof.
  exact (proj1 (proj2 (add_to_playlist_once alice sample_db 2 airbag (Some "1") mix
                         eq_refl eq_refl))).
Defined.

(** X12.  Removing a song from a playlist undoes adding it: when the song
    was not a member, add_to_playlist followed by remove_from_playlist
    leaves the store exactly as it was. *)
Theorem add_then_remove_restores (user : User.t) (db : DB) (song_pk : nat) (s : Song.t)
  (id : option string) (p : Playlist.t) :
  NoDup (map Playlist.pk (playlists db)) ->
  song_by_pk db song_pk = inr s ->
  posted_playlist user db id = inr p ->
  ~ In song_pk (Playlist.songs p) ->
  let r1 := add_to_playlist user db song_pk POST id in
  let r2 := remove_from_playlist user (store r1) (Playlist.pk p) song_pk POST in
  In song_pk (List.concat (map Playlist.songs (playlists (store r1))))
  /\ response r2 = Redirect "music:playlist_detail" (Some (Playlist.pk p))
  /\ store r2 = db.
Proof.
  intros Hnd Hs Hp Hnot r1 r2. pose proof Hs as Hg. unfold song_by_pk in Hg.
  destruct (get_inr_In _ _ _ Hg) as [_ Hpk]. apply Nat.eqb_eq in Hpk.
  destruct (posted_playlist_own _ _ _ _ Hp) as (n & -> & En & Hown & Hu).
  assert (M : existsb (Nat.eqb song_pk) (Playlist.songs p) = false).
  { destruct (existsb (Nat.eqb song_pk) (Playlist.songs p)) eqn:E; [|reflexivity].
    apply existsb_exists in E as (k & Hk & Ek). apply Nat.eqb_eq in Ek. now subst k. }
  assert (E1 : store r1 = Playlist_set_songs p (Playlist.songs p ++ [song_pk]) db).
  { unfold r1, add_to_playlist.
    now rewrite (proj2 (get_404_inr _ _ _) Hg), Hp, Hpk, M. }
  assert (F : filter (fun k => negb (Nat.eqb k song_pk)) (Playlist.songs p ++ [song_pk])
              = Playlist.songs p).
  { rewrite filter_app. simpl. rewrite Nat.eqb_refl. simpl. rewrite app_nil_r.
    apply forallb_filter_id. apply forallb_forall. intros k Hk.
    apply negb_true_iff, Nat.eqb_neq. intros ->. now apply Hnot. }
  split.
  { rewrite E1. apply in_concat.
    exists (Playlist.songs p ++ [song_pk]). split; [|apply in_or_app; right; now left].
    apply in_map_iff.
    destruct (get_inr_In _ _ _ (set_songs_lookup user db p (Playlist.songs p ++ [song_pk])
                                  Hown)) as [Hin _].
    eexists. split; [|exact Hin]. reflexivity. }
  unfold r2, remove_from_playlist. rewrite E1.
  rewrite (proj2 (get_404_inr _ _ _)
             (set_songs_lookup user db p (Playlist.songs p ++ [song_pk]) Hown)).
  cbn [songs Playlist_set_songs with_playlists].
  rewrite (proj2 (get_404_inr _ _ _) Hg). cbn [response store Playlist.pk Playlist.songs].
  split; [reflexivity|]. rewrite Hpk, F.
  change (with_playlists _ db) with (Playlist_set_songs p (Playlist.songs p ++ [song_pk]) db).
  rewrite set_songs_twice. apply set_songs_same; [exact Hnd|].
  now destruct (get_inr_In _ _ _ Hown).
Qed.

Lemma add_then_remove_restores_witness :
  store (remove_from_playlist alice
           (store (add_to_playlist alice sample_db 2 POST (Some "1"))) 1 2 POST)
  = sample_db.
Proof.
  refine (proj2 (proj2 (add_then_remove_restores alice sample_db 2 airbag (Some "1") mix
                          _ eq_refl eq_refl _))).
  - repeat constructor; simpl; tauto.
  - simpl. intros [H|[]]. discriminate H.
Defined.

(** X13.  Only the owner changes the members of a playlist.  For everybody
    else add_to_playlist and remove_from_playlist end in Http404 and write
    nothing, also when the playlist is public and marked collaborative:
    neither flag is read on these paths. *)
Theorem playlist_members_owner_only (user : User.t) (db : DB) (song_pk : nat)
  (s : Song.t) (p : Playlist.t) :
  song_by_pk db song_pk = inr s ->
  playlist_by_pk db (Playlist.pk p) = inr p ->
  Playlist.user p <> User.pk user ->
  let id := Some (Py.str (Z.of_nat (Playlist.pk p))) in
  let r1 := add_to_playlist user db song_pk POST id in
  let r2 := remove_from_playlist user db (Playlist.pk p) song_pk POST in
  response r1 = Raised Http404 /\ flashed r1 = [] /\ store r1 = db
  /\ response r2 = Raised Http404 /\ flashed r2 = [] /\ store r2 = db.
Proof.
  intros Hs Hp Hu id r1 r2. unfold song_by_pk in Hs.
  pose proof (own_playlist_lookup user db _ _ Hp) as L.
  apply Nat.eqb_neq in Hu. rewrite Hu in L.
  unfold r1, r2, id, add_to_playlist, remove_from_playlist.
  rewrite (proj2 (get_404_inr _ _ _) Hs).
  rewrite (posted_playlist_lookup user db _ (Playlist.pk p)); [|apply int_str; lia].
  rewrite L. repeat split.
Qed.

Lemma playlist_members_owner_only_witness :
  response (add_to_playlist bob
              (with_playlists [Playlist.mk 1 "Mix" 1 [] true true 5] sample_db)
              1 POST (Some "1"))
  = Raised Http404.
Proof.
  refine (proj1 (playlist_members_owner_only bob
                   (with_playlists [Playlist.mk 1 "Mix" 1 [] true true 5] sample_db)
                   1 creep (Playlist.mk 1 "Mix" 1 [] true true 5)
                   eq_refl eq_refl _)).
  simpl. discriminate.
Defined.

(** X14.  Deleting a playlist undoes creating it.  A valid create_playlist
    stores one playlist under a key that no playlist of the store has,
    owned by the requester, empty, with the posted name and flags, and
    redirects to that key; delete_playlist on that key then leaves every
    table with the rows it held before both requests. *)
Theorem create_then_delete_playlist (user : User.t) (now : nat) (db : DB)
  (d : playlist_data) :
  playlist_field_errors d = false ->
  let r1 := create_playlist user now db POST d in
  exists k,
    ~ In k (map Playlist.pk (playlists db))
    /\ response r1 = Redirect "music:playlist_detail" (Some k)
    /\ playlists (store r1)
       = playlists db
         ++ [Playlist.mk k (posted_name d) (User.pk user) []
                         (posted_is_public d) (posted_is_collaborative d) now]
    /\ playlist_by_pk (store r1) k
       = inr (Playlist.mk k (posted_name d) (User.pk user) []
                          (posted_is_public d) (posted_is_collaborative d) now)
    /\ response (delete_playlist user (store r1) k POST)
       = Redirect "music:playlist_list" None
    /\ store (delete_playlist user (store r1) k POST) = db.
Proof.
  intros Hd r1. set (pk := ORM.next_pk Playlist.pk (playlists db)).
  exists pk. split; [apply next_pk_fresh|].
  set (p := Playlist.mk pk (posted_name d) (User.pk user) []
                        (posted_is_public d) (posted_is_collaborative d) now).
  assert (E1 : r1 = mkResult (Redirect "music:playlist_detail" (Some pk))
                             [(success, ("Playlist " ++ quote ++ posted_name d ++ quote
                                         ++ " created successfully!")%string)]
                             (with_playlists (playlists db ++ [p]) db)).
  { unfold r1, create_playlist. rewrite Hd. reflexivity. }
  rewrite E1. cbn [response store].
  split; [reflexivity|]. split; [reflexivity|]. split.
  { unfold playlist_by_pk. cbn [playlists with_playlists].
    apply get_snoc_fresh; [apply filter_key_fresh|apply Nat.eqb_refl]. }
  unfold delete_playlist. cbn [playlists with_playlists].
  assert (L : ORM.get (own_playlist user pk) (playlists db ++ [p]) = inr p).
  { apply get_snoc_fresh.
    - unfold own_playlist.
      rewrite (filter_andb (fun x => Nat.eqb (Playlist.pk x) pk)
                           (fun x => Nat.eqb (Playlist.user x) (User.pk user))).
      unfold pk. now rewrite filter_key_fresh.
    - unfold own_playlist, p. cbn. now rewrite !Nat.eqb_refl. }
  rewrite (proj2 (get_404_inr _ _ _) L). cbn [response store Playlist.pk p].
  split; [reflexivity|].
  rewrite filter_app. simpl. rewrite Nat.eqb_refl. simpl. rewrite app_nil_r.
  replace (filter (fun x => negb (Nat.eqb (Playlist.pk x) pk)) (playlists db))
    with (playlists db).
  - now destruct db.
  - symmetry. apply forallb_filter_id. apply forallb_forall. intros x Hx.
    apply negb_true_iff, Nat.eqb_neq. intros E.
    apply (next_pk_fresh Playlist.pk (playlists db)). fold pk. rewrite <- E.
    now apply in_map.
Qed.

Lemma create_then_delete_playlist_witness :
  exists k,
    ~ In k (map Playlist.pk (playlists sample_db))
    /\ response (create_playlist bob 9 sample_db POST renamed_mix)
       = Redirect "music:playlist_detail" (Some k)
    /\ store (delete_playlist bob
                (store (create_playlist bob 9 sample_db POST renamed_mix)) k POST)
       = sample_db.
Proof.
  destruct (create_then_delete_playlist bob 9 sample_db renamed_mix eq_refl)
    as (k & Hk & Hr & _ & _ & _ & Hs).
  exists k. split; [exact Hk|]. split; [exact Hr|exact Hs].
Defined.

(** ** From a listing to the page of a row *)

Lemma get_by_key {A : Type} (pk : A -> nat) (l : list A) (x : A) :
  NoDup (map pk l) -> In x l ->
  ORM.get (fun y => Nat.eqb (pk y) (pk x)) l = inr x.
Proof.
  intros Hnd Hin.
  destruct (get_of_short (fun y => Nat.eqb (pk y) (pk x)) l) as [[_ E]|(y & Hy & _)].
  - apply (filter_unique pk); [exact Hnd|].
    intros a b Ha Hb. apply Nat.eqb_eq in Ha, Hb. congruence.
  - exfalso.
    assert (H : In x (filter (fun y => Nat.eqb (pk y) (pk x)) l)).
    { apply filter_In. split; [exact Hin|apply Nat.eqb_refl]. }
    now rewrite E in H.
  - rewrite Hy. f_equal. destruct (get_inr_In _ _ _ Hy) as [Hy1 Hy2].
    apply Nat.eqb_eq in Hy2. exact (NoDup_map_In_eq pk l y x Hnd Hy1 Hin Hy2).
Qed.

Lemma visible_song_opens (user : User.t) (db : DB) (s : Song.t) :
  NoDup (map Song.pk (songs db)) -> In s (songs db) -> visible user s = true ->
  exists c, response (song_detail user db (Song.pk s)) = Content c
            /\ ctx_song c = s
            /\ flashed (song_detail user db (Song.pk s)) = [].
Proof.
  intros Hnd Hin Hv. unfold song_detail, get_object_or_404.
  rewrite (get_by_key Song.pk _ _ Hnd Hin).
  unfold visible in Hv.
  replace (negb (Song.is_public s) && negb (Nat.eqb (Song.uploaded_by s) (User.pk user)))
    with false.
  - eexists. repeat split.
  - destruct (Song.is_public s); [reflexivity|]. simpl in Hv. now rewrite Hv.
Qed.

(** X15.  Whatever filters, sort key and page the song listing is asked
    for, every song it shows opens: song_detail of its key renders that very
    song, without a 404 and without the permission error. *)
Theorem listed_songs_open (user : User.t) (db : DB)
  (genre artist album sort page : option string) (s : Song.t) :
  NoDup (map Song.pk (songs db)) ->
  listed (song_list user db genre artist album sort page) s ->
  exists c, response (song_detail user db (Song.pk s)) = Content c
            /\ ctx_song c = s
            /\ flashed (song_detail user db (Song.pk s)) = [].
Proof.
  intros Hnd Hl. unfold listed, song_list in Hl.
  destruct (song_list_queryset user db genre artist album sort) as [e|qs] eqn:Eq;
    [contradiction|].
  destruct (Paginator.get_page qs songs_per_page page) as [e|pg] eqn:Ep;
    [contradiction|].
  cbn [response ctx_songs] in Hl.
  apply (get_page_incl _ _ _ _ _ Ep) in Hl.
  destruct (queryset_sound user db _ _ _ _ _ _ Eq Hl) as [Hin Hv].
  now apply visible_song_opens.
Qed.

Lemma listed_songs_open_witness :
  exists c, response (song_detail alice sample_db 2) = Content c
            /\ ctx_song c = airbag
            /\ flashed (song_detail alice sample_db 2) = [].
Proof.
  refine (listed_songs_open alice sample_db None None None (Some "title") None airbag _ _).
  - repeat constructor; simpl; intuition discriminate.
  - vm_compute. auto.
Defined.

(** ** Search, the home page and the playlist index *)

Lemma firstn_short {A : Type} (n : nat) (l : list A) : List.length (firstn n l) <= n.
Proof. rewrite length_firstn. lia. Qed.

(** X16.  A search shows a song only if it is in the store, the requester
    may see it, and its title, artist name, album title or lyrics contain
    the stripped query without regard to case.  It shows at most 50 songs,
    20 artists and 20 albums, the counts are those of the rows shown, and a
    query that is missing or blank after stripping finds nothing. *)
Theorem search_shows_visible_matches (lyrics : Song.t -> string)
  (Album_objects : DB -> list Album.t) (user : User.t) (db : DB) (q : option string) :
  let r := search lyrics Album_objects user db q in
  let query := Py.strip (match q with Some s => s | None => "" end) in
  exists c,
    response r = Content c /\ flashed r = [] /\ store r = db
    /\ search_query c = query
    /\ (forall s, In s (search_songs c) ->
                  In s (songs db) /\ visible user s = true
                  /\ song_matches lyrics db query s = true)
    /\ (forall a, In a (search_artists c) ->
                  In a (artists db) /\ icontains (Artist.name a) query = true)
    /\ (forall a, In a (search_albums c) ->
                  In a (Album_objects db)
                  /\ (icontains (Album.title a) query = true
                      \/ icontains (album_artist__name db a) query = true))
    /\ List.length (search_songs c) <= 50
    /\ List.length (search_artists c) <= 20
    /\ List.length (search_albums c) <= 20
    /\ song_count c = List.length (search_songs c)
    /\ artist_count c = List.length (search_artists c)
    /\ album_count c = List.length (search_albums c)
    /\ (query = "" ->
        search_songs c = [] /\ search_artists c = [] /\ search_albums c = []).
Proof.
  intros r query. unfold r, search. fold query.
  destruct (String.eqb query "") eqn:E; cbn [negb].
  - eexists. cbn [response flashed store search_query search_songs search_artists
                  search_albums song_count artist_count album_count].
    repeat split; try contradiction; simpl; lia.
  - eexists. cbn [response flashed store search_query search_songs search_artists
                  search_albums song_count artist_count album_count].
    repeat split; try apply firstn_short.
    + apply firstn_incl, filter_In in H as [H _]. apply filter_In in H as [H _].
      now apply Song_objects_In in H.
    + now apply firstn_incl, filter_In in H as [_ H].
    + apply firstn_incl, filter_In in H as [H _]. now apply filter_In in H as [_ H].
    + apply firstn_incl, filter_In in H as [H _]. unfold Artist_objects in H.
      now apply order_by_In in H.
    + now apply firstn_incl, filter_In in H as [_ H].
    + now apply firstn_incl, filter_In in H as [H _].
    + apply firstn_incl, filter_In in H as [_ H]. now apply orb_true_iff in H.
    + apply String.eqb_neq in E. contradiction.
    + apply String.eqb_neq in E. contradiction.
    + apply String.eqb_neq in E. contradiction.
Qed.

Lemma order_by_strongly_sorted {A : Type} (le : A -> A -> bool) (R : A -> A -> Prop)
  (l : list A) :
  (forall a b, le a b = true \/ le b a = true) ->
  (forall a b, le a b = true -> R a b) ->
  (forall a b c, R a b -> R b c -> R a c) ->
  StronglySorted R (ORM.order_by le l).
Proof.
  intros Htot Hle Htr. apply Sorted_StronglySorted; [exact Htr|].
  pose proof (order_by_sorted le Htot l) as H.
  induction H as [|a r _ IH Hhd]; constructor; [exact IH|].
  destruct Hhd as [|b r' Hb]; constructor. now apply Hle.
Qed.

(** X17.  The home page shows public songs only: a private song is on none
    of its three lists, not even for its uploader.  The recent list is
    newest first and the popular list most played first, with at most 10
    songs each; at most 5 featured songs, 5 playlists and 5 plays are shown,
    the playlists and plays being the requester's own; the song total counts
    the public songs. *)
Theorem home_shows_public_only (user : User.t) (db : DB) :
  let r := home user db in
  exists c,
    response r = Content c /\ flashed r = [] /\ store r = db
    /\ (forall s, In s (recent_songs c) \/ In s (popular_songs c)
                  \/ In s (featured_songs c) ->
                  In s (songs db) /\ Song.is_public s = true)
    /\ (forall s, In s (featured_songs c) -> Song.is_featured s = true)
    /\ StronglySorted (fun a b => Song.upload_date b <= Song.upload_date a)
                      (recent_songs c)
    /\ StronglySorted (fun a b => (Song.play_count b <= Song.play_count a)%Z)
                      (popular_songs c)
    /\ List.length (recent_songs c) <= 10
    /\ List.length (popular_songs c) <= 10
    /\ List.length (featured_songs c) <= 5
    /\ List.length (home_user_playlists c) <= 5
    /\ List.length (recent_plays c) <= 5
    /\ (forall p, In p (home_user_playlists c) ->
                  In p (playlists db) /\ Playlist.user p = User.pk user)
    /\ (forall h, In h (recent_plays c) ->
                  In h (playhistory db) /\ PlayHistory.user h = User.pk user)
    /\ total_songs c = List.length (filter Song.is_public (songs db))
    /\ total_artists c = List.length (artists db)
    /\ total_albums c = List.length (albums db).
Proof.
  intros r. unfold r, home. eexists.
  cbn [response flashed store recent_songs popular_songs featured_songs
       home_user_playlists recent_plays total_songs total_artists total_albums].
  split; [reflexivity|]. split; [reflexivity|]. split; [reflexivity|]. split.
  { intros s [H|[H|H]]; apply firstn_incl in H.
    - apply order_by_In, filter_In in H. exact H.
    - apply order_by_In, filter_In in H. exact H.
    - apply filter_In in H as [H1 H2]. apply Song_objects_In in H1.
      apply andb_true_iff in H2. tauto. }
  split.
  { intros s H. apply firstn_incl, filter_In in H as [_ H].
    now apply andb_true_iff in H. }
  split.
  { apply StronglySorted_firstn, order_by_strongly_sorted.
    - intros a b. unfold by_upload_date_desc. rewrite !Nat.leb_le. lia.
    - intros a b. unfold by_upload_date_desc. now rewrite Nat.leb_le.
    - intros a b c. lia. }
  split.
  { apply StronglySorted_firstn, order_by_strongly_sorted.
    - intros a b. unfold by_play_count_desc. rewrite !Z.leb_le. lia.
    - intros a b. unfold by_play_count_desc. now rewrite Z.leb_le.
    - intros a b c. lia. }
  repeat (split; [apply firstn_short|]).
  split.
  { intros p H. apply firstn_incl in H. unfold user_playlists in H.
    apply filter_In in H as [H1 H2]. unfold Playlist_objects in H1.
    apply order_by_In in H1. now apply Nat.eqb_eq in H2. }
  split.
  { intros h H. apply firstn_incl, filter_In in H as [H1 H2].
    unfold PlayHistory_objects in H1. apply order_by_In in H1.
    unfold by_user in H2. now apply Nat.eqb_eq in H2. }
  repeat split.
Qed.

(** X18.  The playlist index lists all of the requester's playlists, and of
    the others only public ones (at most 10); no playlist is on both lists.
    With distinct keys every playlist it lists opens: playlist_detail of its
    key renders that playlist without the permission error and tells the
    owner apart. *)
Theorem listed_playlists_open (user : User.t) (db : DB) (p : Playlist.t) :
  NoDup (map Playlist.pk (playlists db)) ->
  let r := playlist_list user db in
  exists c,
    response r = Content c /\ store r = db
    /\ (In p (my_playlists c) <-> In p (playlists db) /\ Playlist.user p = User.pk user)
    /\ (In p (public_playlists c) ->
        In p (playlists db) /\ Playlist.is_public p = true
        /\ Playlist.user p <> User.pk user)
    /\ List.length (public_playlists c) <= 10
    /\ (In p (my_playlists c) \/ In p (public_playlists c) ->
        exists d, response (playlist_detail user db (Playlist.pk p)) = Content d
                  /\ ctx_playlist d = p
                  /\ is_owner d = Nat.eqb (Playlist.user p) (User.pk user)).
Proof.
  intros Hnd r. unfold r, playlist_list. eexists.
  cbn [response store my_playlists public_playlists].
  split; [reflexivity|]. split; [reflexivity|].
  assert (Hmine : In p (user_playlists user db)
                  <-> In p (playlists db) /\ Playlist.user p = User.pk user).
  { unfold user_playlists, Playlist_objects.
    rewrite filter_In, order_by_In, Nat.eqb_eq. reflexivity. }
  assert (Hpub : In p (firstn 10
                         (filter (fun p => negb (Nat.eqb (Playlist.user p) (User.pk user)))
                                 (filter Playlist.is_public (Playlist_objects db)))) ->
                 In p (playlists db) /\ Playlist.is_public p = true
                 /\ Playlist.user p <> User.pk user).
  { intros H. apply firstn_incl, filter_In in H as [H1 H2].
    apply filter_In in H1 as [H1 H3]. unfold Playlist_objects in H1.
    apply order_by_In in H1. apply negb_true_iff, Nat.eqb_neq in H2. tauto. }
  split; [exact Hmine|]. split; [exact Hpub|]. split; [apply firstn_short|].
  intros H.
  assert (Hp : In p (playlists db)
               /\ (Playlist.is_public p = true \/ Playlist.user p = User.pk user)).
  { destruct H as [H|H]; [apply Hmine in H|apply Hpub in H]; tauto. }
  destruct Hp as [Hin Hv].
  unfold playlist_detail, get_object_or_404.
  rewrite (get_by_key Playlist.pk _ _ Hnd Hin).
  replace (negb (Playlist.is_public p)
           && negb (Nat.eqb (Playlist.user p) (User.pk user))) with false.
  - eexists. repeat split.
  - destruct Hv as [-> | ->]; [reflexivity|].
    now rewrite Nat.eqb_refl, andb_false_r.
Qed.

Lemma listed_playlists_open_witness :
  exists c,
    response (playlist_list alice sample_db) = Content c /\ In mix (my_playlists c)
    /\ exists d, response (playlist_detail alice sample_db 1) = Content d
                 /\ ctx_playlist d = mix /\ is_owner d = true.
Proof.
  destruct (listed_playlists_open alice sample_db mix) as (c & Hc & _ & Hm & _ & _ & Hd).
  - repeat constructor; simpl; tauto.
  - exists c. split; [exact Hc|].
    assert (Hin : In mix (my_playlists c)).
    { apply Hm. split; [now left|reflexivity]. }
    split; [exact Hin|]. exact (Hd (or_introl Hin)).
Defined.

(** ** Comments *)

Lemma lstrip_head (l : list ascii) :
  match Py.lstrip_chars l with
  | [] => True
  | c :: _ => Py.isspace c = false
  end.
Proof.
  induction l as [|c r IH]; simpl; [exact I|].
  destruct (Py.isspace c) eqn:E; [exact IH|exact E].
Qed.

Lemma lstrip_fixed (l : list ascii) :
  match l with
  | [] => True
  | c :: _ => Py.isspace c = false
  end ->
  Py.lstrip_chars l = l.
Proof. destruct l as [|c r]; simpl; [reflexivity|]. now intros ->. Qed.

Lemma lstrip_suffix (l : list ascii) : exists p, l = p ++ Py.lstrip_chars l.
Proof.
  induction l as [|c r [p IH]]; simpl; [now exists []|].
  destruct (Py.isspace c); [|now exists []].
  exists (c :: p). simpl. now rewrite <- IH.
Qed.

Lemma strip_chars_head (l : list ascii) :
  match Py.strip_chars l with
  | [] => True
  | c :: _ => Py.isspace c = false
  end.
Proof.
  unfold Py.strip_chars. pose proof (lstrip_head l) as H.
  destruct (lstrip_suffix (rev (Py.lstrip_chars l))) as [p Hp].
  apply (f_equal (@rev ascii)) in Hp. rewrite rev_involutive, rev_app_distr in Hp.
  destruct (rev (Py.lstrip_chars (rev (Py.lstrip_chars l)))) as [|c t]; [exact I|].
  rewrite Hp in H. exact H.
Qed.

Lemma strip_chars_idempotent (l : list ascii) :
  Py.strip_chars (Py.strip_chars l) = Py.strip_chars l.
Proof.
  unfold Py.strip_chars at 1. rewrite (lstrip_fixed _ (strip_chars_head l)).
  unfold Py.strip_chars. rewrite rev_involutive.
  now rewrite (lstrip_fixed _ (lstrip_head (rev (Py.lstrip_chars l)))).
Qed.

Lemma strip_idempotent (s : string) : Py.strip (Py.strip s) = Py.strip s.
Proof.
  unfold Py.strip. rewrite list_ascii_of_string_of_list_ascii.
  now rewrite strip_chars_idempotent.
Qed.

Lemma CommentForm_is_valid (raw : string) :
  CommentForm.is_valid (Some raw)
  = if (2 <=? String.length (Py.strip raw))%nat
       && (String.length (Py.strip raw) <=? 1000)%nat
       && negb (existsb (Ascii.eqb zero) (list_ascii_of_string (Py.strip raw)))
    then Some (Py.strip raw) else None.
Proof.
  unfold CommentForm.is_valid, CommentForm.clean_field, CommentForm.clean_text,
    CommentForm.max_length.
  destruct (String.eqb (Py.strip raw) "") eqn:E0.
  - apply String.eqb_eq in E0. rewrite E0. reflexivity.
  - destruct (existsb (Ascii.eqb zero) (list_ascii_of_string (Py.strip raw)));
      [now rewrite andb_false_r|].
    rewrite andb_true_r.
    destruct (1000 <? String.length (Py.strip raw))%nat eqn:E1.
    + apply Nat.ltb_lt in E1.
      replace (String.length (Py.strip raw) <=? 1000)%nat with false;
        [now rewrite andb_false_r|].
      symmetry. apply Nat.leb_gt. exact E1.
    + apply Nat.ltb_ge in E1.
      replace (String.length (Py.strip raw) <=? 1000)%nat with true
        by (symmetry; now apply Nat.leb_le).
      rewrite andb_true_r, E0. cbn [negb]. rewrite strip_idempotent.
      destruct (String.length (Py.strip raw) <? 2)%nat eqn:E2.
      * apply Nat.ltb_lt in E2.
        replace (2 <=? String.length (Py.strip raw))%nat with false; [reflexivity|].
        symmetry. apply Nat.leb_gt. exact E2.
      * apply Nat.ltb_ge in E2.
        replace (2 <=? String.length (Py.strip raw))%nat with true; [reflexivity|].
        symmetry. now apply Nat.leb_le.
Qed.

(** X19.  A comment posted on an existing song, its text in ASCII (where a
    character is one byte of the string), is stored exactly when the text,
    stripped of surrounding whitespace, has 2 to 1000 characters and no NUL
    character.  Then one row is appended under a key that no comment has:
    it carries the stripped text, the song, the requester and the time of
    the request, and is not marked edited.  Otherwise, and when no text is
    posted, the comments stay as they are and an error is flashed.  Either
    way the answer is a redirect to the song and the music tables are
    untouched. *)
Theorem add_comment_stores_stripped_text (user : User.t) (now : nat) (db : DB)
  (comments : list Comment.t) (song_pk : nat) (s : Song.t) (posted : option string) :
  song_by_pk db song_pk = inr s ->
  (forall raw, posted = Some raw -> Py.isascii raw = true) ->
  let res := add_comment user now db comments song_pk POST posted in
  response (fst res) = Redirect "music:song_detail" (Some song_pk)
  /\ store (fst res) = db
  /\ match posted with
     | Some raw =>
         let text := Py.strip raw in
         if (2 <=? String.length text)%nat && (String.length text <=? 1000)%nat
            && negb (existsb (Ascii.eqb zero) (list_ascii_of_string text))
         then (exists k,
                  ~ In k (map Comment.pk comments)
                  /\ snd res
                     = comments
                       ++ [Comment.mk k song_pk (User.pk user) text now now false])
              /\ flashed (fst res) = [(success, "Comment added successfully!")]
         else snd res = comments
              /\ flashed (fst res) = [(error, "Error adding comment.")]
     | None => snd res = comments
               /\ flashed (fst res) = [(error, "Error adding comment.")]
     end.
Proof.
  intros Hs _ res. unfold song_by_pk in Hs.
  destruct (get_inr_In _ _ _ Hs) as [_ Hpk]. apply Nat.eqb_eq in Hpk.
  unfold res, add_comment. rewrite (proj2 (get_404_inr _ _ _) Hs), Hpk.
  destruct posted as [raw|]; [|repeat split].
  rewrite CommentForm_is_valid. cbv zeta.
  destruct ((2 <=? String.length (Py.strip raw))%nat
            && (String.length (Py.strip raw) <=? 1000)%nat
            && negb (existsb (Ascii.eqb zero) (list_ascii_of_string (Py.strip raw))));
    repeat split.
  exists (ORM.next_pk Comment.pk comments). split; [apply next_pk_fresh|reflexivity].
Qed.

Lemma add_comment_stores_stripped_text_witness :
  exists k,
    snd (add_comment bob 7 sample_db [] 1 POST (Some "  nice one "))
    = [Comment.mk k 1 2 "nice one" 7 7 false].
Proof.
  assert (Ha : forall raw, Some "  nice one "%string = Some raw -> Py.isascii raw = true).
  { intros raw E. injection E as <-. reflexivity. }
  destruct (proj1 (proj2 (proj2 (add_comment_stores_stripped_text bob 7 sample_db [] 1 creep
                                   (Some "  nice one ") eq_refl Ha))))
    as (k & _ & Hk).
  exists k. exact Hk.
Defined.

(** ** Accounts *)

Lemma NoDup_rekey {A K : Type} (pk : A -> nat) (key : A -> K) (k : nat)
  (g : A -> A) (v : K) (l : list A) :
  NoDup (map pk l) -> NoDup (map key l) ->
  (forall x, key (g x) = v) ->
  ~ In v (map key (filter (fun u => negb (Nat.eqb (pk u) k)) l)) ->
  NoDup (map key (map (fun u => if Nat.eqb (pk u) k then g u else u) l)).
Proof.
  intros Hpk Hkey Hg. induction l as [|x r IH]; simpl; intros Hv; [constructor|].
  inversion Hpk as [|? ? Px Pr]; subst. inversion Hkey as [|? ? Kx Kr]; subst.
  destruct (Nat.eqb (pk x) k) eqn:E; simpl in Hv.
  - apply Nat.eqb_eq in E.
    assert (Hr : forall y, In y r -> Nat.eqb (pk y) k = false).
    { intros y Hy. apply Nat.eqb_neq. intros Ey. apply Px. rewrite E, <- Ey.
      now apply in_map. }
    replace (map (fun u => if Nat.eqb (pk u) k then g u else u) r) with r.
    + constructor; [|exact Kr]. rewrite Hg. intros Hin. apply Hv.
      replace (filter (fun u => negb (Nat.eqb (pk u) k)) r) with r; [exact Hin|].
      symmetry. apply forallb_filter_id, forallb_forall. intros y Hy.
      now rewrite (Hr y Hy).
    + rewrite <- (map_id r) at 1. apply map_ext_in. intros y Hy.
      now rewrite (Hr y Hy).
  - constructor.
    + intros Hin. apply in_map_iff in Hin as (y' & Ey' & Hy').
      apply in_map_iff in Hy' as (y & <- & Hy).
      destruct (Nat.eqb (pk y) k).
      * rewrite Hg in Ey'. apply Hv. left. now symmetry.
      * apply Kx. rewrite <- Ey'. now apply in_map.
    + apply IH; [exact Pr|exact Kr|]. intros Hin. apply Hv. now right.
Qed.

Lemma unique_error_false (users : list Accounts.account) (skip : option nat)
  (n e : string) :
  Accounts.unique_error users skip n e = false ->
  let others :=
    match skip with
    | Some k => filter (fun u => negb (Nat.eqb (Accounts.pk u) k)) users
    | None => users
    end in
  ~ In n (map Accounts.username others) /\ ~ In e (map Accounts.email others).
Proof.
  unfold Accounts.unique_error. intros H. cbv zeta in *.
  apply orb_false_iff in H as [Hn He].
  split.
  - exact (existsb_false_not_In Accounts.username String.eqb String.eqb_eq _ _ Hn).
  - exact (existsb_false_not_In Accounts.email String.eqb String.eqb_eq _ _ He).
Qed.

Lemma existsb_taken {K : Type} (key : Accounts.account -> K) (same : K -> K -> bool)
  (same_eq : forall x y, same x y = true <-> x = y)
  (users : list Accounts.account) (v : K) :
  In v (map key users) -> existsb (fun u => same (key u) v) users = true.
Proof.
  intros H. apply in_map_iff in H as (u & Eu & Hu).
  apply existsb_exists. exists u. split; [exact Hu|now apply same_eq].
Qed.

Lemma existsb_free {K : Type} (key : Accounts.account -> K) (same : K -> K -> bool)
  (same_eq : forall x y, same x y = true <-> x = y)
  (users : list Accounts.account) (v : K) :
  ~ In v (map key users) -> existsb (fun u => same (key u) v) users = false.
Proof.
  intros H. destruct (existsb _ users) eqn:E; [|reflexivity].
  exfalso. apply H. apply existsb_exists in E as (u & Hu & Eu).
  apply same_eq in Eu. rewrite <- Eu. now apply in_map.
Qed.

Lemma register_rejects (users : list Accounts.account) (d : Accounts.posted) :
  In (Accounts.posted_username d) (map Accounts.username users)
  \/ In (Accounts.posted_email d) (map Accounts.email users)
  \/ In (Accounts.normalize_email (Accounts.posted_email d)) (map Accounts.email users) ->
  Accounts.register users false POST d
  = (Accounts.Page true, [(error, "Please correct the errors below.")], users).
Proof.
  intros H. unfold Accounts.register, Accounts.register_clean_email,
              Accounts.register_clean_username.
  destruct (existsb (fun u => String.eqb (Accounts.email u) (Accounts.posted_email d))
                    users) eqn:Ee; [reflexivity|].
  destruct (existsb (fun u => String.eqb (Accounts.username u) (Accounts.posted_username d))
                    users) eqn:En; [reflexivity|].
  destruct (Accounts.field_errors d); [reflexivity|].
  cbv zeta. unfold Accounts.unique_error. rewrite En. cbn [orb].
  destruct H as [H|[H|H]].
  - rewrite (existsb_taken Accounts.username String.eqb String.eqb_eq _ _ H) in En.
    discriminate En.
  - rewrite (existsb_taken Accounts.email String.eqb String.eqb_eq _ _ H) in Ee.
    discriminate Ee.
  - now rewrite (existsb_taken Accounts.email String.eqb String.eqb_eq _ _ H).
Qed.

Lemma register_accepts (users : list Accounts.account) (d : Accounts.posted) :
  ~ In (Accounts.posted_username d) (map Accounts.username users) ->
  ~ In (Accounts.posted_email d) (map Accounts.email users) ->
  ~ In (Accounts.normalize_email (Accounts.posted_email d)) (map Accounts.email users) ->
  Accounts.field_errors d = false ->
  Accounts.register users false POST d
  = (Accounts.Go "music:home",
     [(success, ("Account created successfully for " ++ Accounts.posted_username d
                 ++ "! You can now log in.")%string)],
     users ++ [Accounts.mk_account (ORM.next_pk Accounts.pk users)
                 (Accounts.posted_username d)
                 (Accounts.normalize_email (Accounts.posted_email d))
                 (Accounts.posted_first_name d) (Accounts.posted_last_name d)]).
Proof.
  intros Hn He He' Hf. unfold Accounts.register, Accounts.register_clean_email,
                         Accounts.register_clean_username, Accounts.unique_error.
  rewrite (existsb_free Accounts.email String.eqb String.eqb_eq _ _ He).
  rewrite (existsb_free Accounts.username String.eqb String.eqb_eq _ _ Hn).
  rewrite Hf. cbv zeta.
  rewrite (existsb_free Accounts.username String.eqb String.eqb_eq _ _ Hn).
  now rewrite (existsb_free Accounts.email String.eqb String.eqb_eq _ _ He').
Qed.

(** X20.  Registration and the profile form keep user names and email
    addresses distinct.  The posted name and address are ASCII text, and
    the address is stored normalised: stripped, with the part after its
    last [@] in lower case.  Starting from accounts with distinct keys,
    names and addresses, the accounts after register and after profile,
    whatever is posted, are again distinct in all three.  A registration
    whose name, address or normalised address is taken is answered with the
    form and its errors and creates no account; one where none of them is
    taken and the other fields are in order appends one account, under a
    key that no account has, with the posted name and the normalised
    address, and redirects home. *)
Theorem accounts_stay_distinct (users : list Accounts.account) (logged_in : bool)
  (m : Method) (d : Accounts.posted) (instance : Accounts.account) :
  accounts_ok users ->
  Py.isascii (Accounts.posted_username d) = true ->
  Py.isascii (Accounts.posted_email d) = true ->
  accounts_ok (snd (Accounts.register users logged_in m d))
  /\ accounts_ok (snd (Accounts.profile users instance m d))
  /\ (In (Accounts.posted_username d) (map Accounts.username users)
      \/ In (Accounts.posted_email d) (map Accounts.email users)
      \/ In (Accounts.normalize_email (Accounts.posted_email d))
            (map Accounts.email users) ->
      Accounts.register users false POST d
      = (Accounts.Page true, [(error, "Please correct the errors below.")], users))
  /\ (~ In (Accounts.posted_username d) (map Accounts.username users) ->
      ~ In (Accounts.posted_email d) (map Accounts.email users) ->
      ~ In (Accounts.normalize_email (Accounts.posted_email d))
           (map Accounts.email users) ->
      Accounts.field_errors d = false ->
      exists k,
        ~ In k (map Accounts.pk users)
        /\ Accounts.register users false POST d
           = (Accounts.Go "music:home",
              [(success, ("Account created successfully for "
                          ++ Accounts.posted_username d
                          ++ "! You can now log in.")%string)],
              users ++ [Accounts.mk_account k (Accounts.posted_username d)
                          (Accounts.normalize_email (Accounts.posted_email d))
                          (Accounts.posted_first_name d)
                          (Accounts.posted_last_name d)])).
Proof.
  intros (Hpk & Hname & Hmail) _ _.
  split; [|split; [|split; [apply register_rejects|]]].
  - unfold Accounts.register. destruct logged_in; [now repeat split|].
    destruct m; [now repeat split|].
    unfold Accounts.register_clean_email, Accounts.register_clean_username.
    destruct (existsb (fun u => String.eqb (Accounts.email u) (Accounts.posted_email d))
                      users); [now repeat split|].
    destruct (existsb (fun u => String.eqb (Accounts.username u)
                                           (Accounts.posted_username d))
                      users); [now repeat split|].
    destruct (Accounts.field_errors d); [now repeat split|].
    cbv zeta.
    destruct (Accounts.unique_error users None _ _) eqn:Eu; [now repeat split|].
    destruct (unique_error_false _ _ _ _ Eu) as [Un Ue].
    cbn [snd]. repeat split.
    + now apply NoDup_map_next.
    + apply NoDup_map_snoc; [exact Hname|exact Un].
    + apply NoDup_map_snoc; [exact Hmail|exact Ue].
  - unfold Accounts.profile. destruct m; [now repeat split|].
    destruct (Accounts.update_clean_email _ _ _) as [e|]; [|now repeat split].
    destruct (Accounts.update_clean_username _ _ _) as [n|]; [|now repeat split].
    destruct (Accounts.field_errors d); [now repeat split|].
    cbv zeta.
    destruct (Accounts.unique_error users _ _ _) eqn:Eu; [now repeat split|].
    destruct (unique_error_false _ _ _ _ Eu) as [Un Ue].
    cbn [snd]. repeat split.
    + rewrite map_map_same; [exact Hpk|].
      intros x. now destruct (Nat.eqb (Accounts.pk x) (Accounts.pk instance)).
    + apply (NoDup_rekey Accounts.pk Accounts.username (Accounts.pk instance)
               (fun u => Accounts.mk_account (Accounts.pk u) n
                           (Accounts.normalize_email e) (Accounts.posted_first_name d)
                           (Accounts.posted_last_name d))
               n);
        [exact Hpk|exact Hname|reflexivity|exact Un].
    + apply (NoDup_rekey Accounts.pk Accounts.email (Accounts.pk instance)
               (fun u => Accounts.mk_account (Accounts.pk u) n
                           (Accounts.normalize_email e) (Accounts.posted_first_name d)
                           (Accounts.posted_last_name d))
               (Accounts.normalize_email e));
        [exact Hpk|exact Hmail|reflexivity|exact Ue].
  - intros Hn He He' Hf. exists (ORM.next_pk Accounts.pk users).
    split; [apply next_pk_fresh|now apply register_accepts].
Qed.

Lemma accounts_stay_distinct_witness :
  accounts_ok
    (snd (Accounts.register [Accounts.mk_account 1 "alice" "alice@example.org" "" ""]
            false POST
            (Accounts.mk_posted "bob" "Bob@Example.ORG" "Bob" "" false)))
  /\ Accounts.register [Accounts.mk_account 1 "alice" "alice@example.org" "" ""]
       false POST
       (Accounts.mk_posted "al" "alice@EXAMPLE.org" "" "" false)
     = (Accounts.Page true, [(error, "Please correct the errors below.")],
        [Accounts.mk_account 1 "alice" "alice@example.org" "" ""]).
Proof.
  assert (Hok : accounts_ok [Accounts.mk_account 1 "alice" "alice@example.org" "" ""]).
  { repeat split; repeat constructor; simpl; tauto. }
  split.
  - exact (proj1 (accounts_stay_distinct
                    [Accounts.mk_account 1 "alice" "alice@example.org" "" ""]
                    false POST
                    (Accounts.mk_posted "bob" "Bob@Example.ORG" "Bob" "" false)
                    (Accounts.mk_account 1 "alice" "alice@example.org" "" "")
                    Hok eq_refl eq_refl)).
  - apply (proj1 (proj2 (proj2 (accounts_stay_distinct
                    [Accounts.mk_account 1 "alice" "alice@example.org" "" ""]
                    false POST
                    (Accounts.mk_posted "al" "alice@EXAMPLE.org" "" "" false)
                    (Accounts.mk_account 1 "alice" "alice@example.org" "" "")
                    Hok eq_refl eq_refl)))).
    right. right. simpl. left. reflexivity.
Defined.

(** ** The song page after a favorite or a rating *)

Lemma filter_one_existsb {A : Type} (p : A -> bool) (l : list A) (x : A) :
  filter p l = [x] -> existsb p l = true.
Proof.
  intros H. apply existsb_exists. exists x. apply filter_In. rewrite H. now left.
Qed.

Lemma song_detail_shows (user : User.t) (db : DB) (pk : nat) (s : Song.t) :
  song_by_pk db pk = inr s -> visible user s = true ->
  exists c,
    response (song_detail user db pk) = Content c
    /\ ctx_song c = s
    /\ is_favorite c
       = existsb (fun f => Nat.eqb (Favorite.user f) (User.pk user)
                           && Nat.eqb (Favorite.song f) pk)
                 (favorites db)
    /\ user_rating c
       = hd_error (ORM.order_by
                     (fun a b => Nat.leb (Rating.created_at b) (Rating.created_at a))
                     (ratings_of user db pk)).
Proof.
  intros Hs Hv. unfold song_by_pk in Hs.
  destruct (get_inr_In _ _ _ Hs) as [_ Hpk]. apply Nat.eqb_eq in Hpk.
  unfold song_detail. rewrite (proj2 (get_404_inr _ _ _) Hs).
  unfold visible in Hv.
  replace (negb (Song.is_public s) && negb (Nat.eqb (Song.uploaded_by s) (User.pk user)))
    with false.
  - eexists. cbn [response ctx_song is_favorite user_rating]. rewrite Hpk.
    repeat split.
  - destruct (Song.is_public s); [reflexivity|]. simpl in Hv. now rewrite Hv.
Qed.

(** X21.  The song page shows what the requester just did.  In a store that
    keeps its promises, for a song the requester may see: after
    toggle_favorite, called from a script or from a plain form, the page's
    favorite mark is the opposite of what it was and is the state the toggle
    told (the body of the script's answer; for a form post the redirect to
    the song with the message of the success level exactly when the song is
    now a favorite); after add_rating with a valid value the page shows the
    requester's rating with that value. *)
Theorem song_detail_reflects_engagement (user : User.t) (now : nat) (db : DB)
  (pk : nat) (s : Song.t) (posted : option string) (v : Z) (ajax : bool) :
  store_ok db ->
  song_by_pk db pk = inr s ->
  visible user s = true ->
  RatingForm.is_valid posted = Some v ->
  let r1 := toggle_favorite user now db pk POST ajax in
  let r2 := add_rating user now db pk POST posted in
  (exists c c1,
      response (song_detail user db pk) = Content c
      /\ response (song_detail user (store r1) pk) = Content c1
      /\ is_favorite c1 = negb (is_favorite c)
      /\ response r1 = (if ajax then Content (is_favorite c1)
                        else Redirect "music:song_detail" (Some pk))
      /\ exists m, flashed r1 = [(if is_favorite c1 then success else info, m)])
  /\ (exists c2 row,
         response (song_detail user (store r2) pk) = Content c2
         /\ user_rating c2 = Some row
         /\ Rating.rating row = v /\ Rating.user row = User.pk user
         /\ Rating.song row = pk).
Proof.
  intros Hok Hs Hv Hval r1 r2.
  destruct (song_detail_shows user db pk s Hs Hv) as (c & Hc & _ & Fc & _).
  split.
  - pose proof (favorites_short db Hok user pk) as Hshort.
    pose proof (toggle_flashed user now db pk s ajax Hs Hshort) as Hf. fold r1 in Hf.
    assert (Hcases : favorite_count user db pk = 0 \/ favorite_count user db pk = 1)
      by lia.
    destruct Hcases as [H0|H1].
    + destruct (toggle_absent user pk s now db ajax Hs H0) as (R1 & S1 & C1).
      fold r1 in R1, S1, C1.
      assert (Hs1 : song_by_pk (store r1) pk = inr s)
        by (unfold song_by_pk; now rewrite S1).
      destruct (song_detail_shows user (store r1) pk s Hs1 Hv) as (c1 & Hc1 & _ & Fc1 & _).
      exists c, c1. split; [exact Hc|]. split; [exact Hc1|].
      assert (Ec : is_favorite c = false).
      { rewrite Fc. apply filter_nil_existsb. now apply count_0_filter. }
      assert (Ec1 : is_favorite c1 = true).
      { rewrite Fc1. destruct (count_1_get _ _ C1) as (f & _ & Hf1).
        exact (filter_one_existsb _ _ _ Hf1). }
      rewrite Ec, Ec1. split; [reflexivity|]. split; [exact R1|].
      rewrite H0 in Hf. eexists. exact Hf.
    + destruct (toggle_present user pk s now db ajax Hs H1) as (R1 & S1 & C1).
      fold r1 in R1, S1, C1.
      assert (Hs1 : song_by_pk (store r1) pk = inr s)
        by (unfold song_by_pk; now rewrite S1).
      destruct (song_detail_shows user (store r1) pk s Hs1 Hv) as (c1 & Hc1 & _ & Fc1 & _).
      exists c, c1. split; [exact Hc|]. split; [exact Hc1|].
      assert (Ec1 : is_favorite c1 = false).
      { rewrite Fc1. apply filter_nil_existsb. now apply count_0_filter. }
      assert (Ec : is_favorite c = true).
      { rewrite Fc. destruct (count_1_get _ _ H1) as (f & _ & Hf1).
        exact (filter_one_existsb _ _ _ Hf1). }
      rewrite Ec, Ec1. split; [reflexivity|]. split; [exact R1|].
      rewrite H1 in Hf. eexists. exact Hf.
  - assert (Hnd : NoDup (map Rating.pk (ratings db))).
    { destruct Hok as (K & _). unfold keys_ok in K. tauto. }
    destruct (add_rating_valid user pk s now db posted v Hs Hnd
                (ratings_short db Hok user pk) Hval)
      as (S2 & _ & row & Hrow & Hv2 & _).
    fold r2 in S2, Hrow.
    assert (Hs2 : song_by_pk (store r2) pk = inr s)
      by (unfold song_by_pk; now rewrite S2).
    destruct (song_detail_shows user (store r2) pk s Hs2 Hv) as (c2 & Hc2 & _ & _ & Rc2).
    exists c2, row. split; [exact Hc2|]. split; [now rewrite Rc2, Hrow|].
    split; [exact Hv2|].
    assert (Hin : In row (ratings_of user (store r2) pk)) by (rewrite Hrow; now left).
    unfold ratings_of in Hin. apply filter_In in Hin as [_ Hin].
    apply andb_true_iff in Hin as [H1 H2]. now apply Nat.eqb_eq in H1, H2.
Qed.

Lemma sample_db_ok : store_ok sample_db.
Proof.
  unfold store_ok, keys_ok, unique_ok, refs_ok, ratings_in_range, sample_db.
  cbn [songs artists albums genres playlists favorites playhistory ratings map].
  repeat apply conj;
    try (repeat constructor; simpl; intuition discriminate);
    intros; simpl in *; intuition (subst; simpl in *; try discriminate; auto; tauto).
Qed.

Lemma song_detail_reflects_engagement_witness :
  exists c c1,
    response (song_detail bob sample_db 1) = Content c
    /\ response (song_detail bob
                   (store (toggle_favorite bob 9 sample_db 1 POST false)) 1)
       = Content c1
    /\ is_favorite c1 = negb (is_favorite c)
    /\ response (toggle_favorite bob 9 sample_db 1 POST false)
       = Redirect "music:song_detail" (Some 1)
    /\ exists m, flashed (toggle_favorite bob 9 sample_db 1 POST false)
                 = [(if is_favorite c1 then success else info, m)].
Proof.
  exact (proj1 (song_detail_reflects_engagement bob 9 sample_db 1 creep (Some "4") 4
                  false sample_db_ok eq_refl eq_refl eq_refl)).
Defined.

(** ** Playing and downloading together *)

Lemma play_song_store (user : User.t) (now : nat) (db : DB) (pk : nat) (s : Song.t) :
  song_by_pk db pk = inr s ->
  store (play_song user now db pk)
  = with_playhistory
      (playhistory db
       ++ [PlayHistory.mk (ORM.next_pk PlayHistory.pk (playhistory db))
                          (User.pk user) pk now PlayHistory.completed_default])
      (with_songs
         (map (fun x => if Nat.eqb (Song.pk x) pk
                        then Song.set_play_count (Song.play_count s + 1) x else x)
              (songs db))
         db).
Proof.
  intros Hs. unfold song_by_pk in Hs.
  destruct (get_inr_In _ _ _ Hs) as [_ Hpk]. apply Nat.eqb_eq in Hpk.
  subst pk. unfold play_song. rewrite (proj2 (get_404_inr _ _ _) Hs).
  reflexivity.
Qed.

Lemma download_song_store (user : User.t) (db : DB) (pk : nat) (s : Song.t) :
  song_by_pk db pk = inr s ->
  visible user s = true ->
  store (download_song user db pk)
  = with_songs
      (map (fun x => if Nat.eqb (Song.pk x) pk
                     then Song.set_download_count (Song.download_count s + 1) x else x)
           (songs db))
      db.
Proof.
  intros Hs Hv. unfold song_by_pk in Hs.
  destruct (get_inr_In _ _ _ Hs) as [_ Hpk]. apply Nat.eqb_eq in Hpk.
  unfold download_song. rewrite (proj2 (get_404_inr _ _ _) Hs).
  unfold visible in Hv.
  replace (negb (Song.is_public s)
           && negb (Nat.eqb (Song.uploaded_by s) (User.pk user))) with false.
  - subst pk. reflexivity.
  - destruct (Song.is_public s); [reflexivity|]. simpl in Hv. now rewrite Hv.
Qed.

(** X22.  Playing and downloading a song do not interfere: for a song the
    requester may see, play_song after download_song leaves the same store
    as download_song after play_song, and in it the song has one play and
    one download more than before. *)
Theorem play_and_download_commute (user : User.t) (now : nat) (db : DB) (pk : nat)
  (s : Song.t) :
  song_by_pk db pk = inr s ->
  visible user s = true ->
  let played_first := store (download_song user (store (play_song user now db pk)) pk) in
  let downloaded_first := store (play_song user now (store (download_song user db pk)) pk) in
  played_first = downloaded_first
  /\ song_by_pk played_first pk
     = inr (Song.mk (Song.pk s) (Song.title s) (Song.artist s) (Song.album s)
                    (Song.genre s) (Song.uploaded_by s) (Song.upload_date s)
                    (Song.play_count s + 1) (Song.download_count s + 1)
                    (Song.is_public s) (Song.is_featured s)).
Proof.
  intros Hs Hv played_first downloaded_first.
  pose proof Hs as Hg. unfold song_by_pk in Hg.
  set (sp := Song.set_play_count (Song.play_count s + 1) s).
  set (sd := Song.set_download_count (Song.download_count s + 1) s).
  assert (Hp : song_by_pk (store (play_song user now db pk)) pk = inr sp).
  { rewrite (play_song_store user now db pk s Hs). unfold song_by_pk.
    cbn [songs with_playhistory with_songs].
    now apply (get_by_pk_rewritten pk (Song.set_play_count (Song.play_count s + 1))). }
  assert (Hd : song_by_pk (store (download_song user db pk)) pk = inr sd).
  { rewrite (download_song_store user db pk s Hs Hv). unfold song_by_pk.
    cbn [songs with_songs].
    now apply (get_by_pk_rewritten pk
                 (Song.set_download_count (Song.download_count s + 1))). }
  assert (E1 : played_first
               = with_songs
                   (map (fun x => if Nat.eqb (Song.pk x) pk
                                  then Song.set_download_count (Song.download_count s + 1) x
                                  else x)
                        (songs (store (play_song user now db pk))))
                   (store (play_song user now db pk))).
  { unfold played_first. now rewrite (download_song_store user _ pk sp Hp Hv). }
  assert (E2 : downloaded_first
               = with_playhistory
                   (playhistory (store (download_song user db pk))
                    ++ [PlayHistory.mk
                          (ORM.next_pk PlayHistory.pk
                             (playhistory (store (download_song user db pk))))
                          (User.pk user) pk now PlayHistory.completed_default])
                   (with_songs
                      (map (fun x => if Nat.eqb (Song.pk x) pk
                                     then Song.set_play_count (Song.play_count s + 1) x
                                     else x)
                           (songs (store (download_song user db pk))))
                      (store (download_song user db pk)))).
  { unfold downloaded_first. now rewrite (play_song_store user now _ pk sd Hd). }
  assert (E : played_first = downloaded_first).
  { rewrite E1, E2.
    rewrite (play_song_store user now db pk s Hs),
      (download_song_store user db pk s Hs Hv).
    unfold with_songs, with_playhistory. cbn. f_equal.
    rewrite !map_map. apply map_ext. intros x.
    destruct (Nat.eqb (Song.pk x) pk) eqn:Ex; cbn; rewrite Ex; reflexivity. }
  split; [exact E|].
  rewrite E1. unfold song_by_pk. cbn [songs with_songs].
  unfold song_by_pk in Hp.
  rewrite (get_by_pk_rewritten pk
             (Song.set_download_count (Song.download_count s + 1)) _ sp);
    [reflexivity|reflexivity|exact Hp].
Qed.

Lemma play_and_download_commute_witness :
  store (download_song bob (store (play_song bob 8 sample_db 1)) 1)
  = store (play_song bob 8 (store (download_song bob sample_db 1)) 1).
Proof.
  exact (proj1 (play_and_download_commute bob 8 sample_db 1 creep eq_refl eq_refl)).
Defined.

(** ** Durations *)

Lemma format_02d_two_digits (n : nat) :
  n < 60 ->
  String.length (format_02d (Z.of_nat n)) = 2
  /\ Py.int (format_02d (Z.of_nat n)) = Some (Z.of_nat n).
Proof.
  intros H.
  do 60 (destruct n as [|n]; [vm_compute; split; reflexivity|]).
  lia.
Qed.

(** X23.  The formatted duration of a song reads back.  For a duration that
    is not negative and shorter than 2^34 seconds (some 544 years; up to
    there the floating-point seconds of the code are exact) the text is
    minutes, a colon and exactly two digits of seconds below 60; parsing
    both numbers gives back the whole seconds of the duration.  Duration
    zero shows as 0:00. *)
Theorem duration_formatted_reads_back (duration : Song.t -> option Z) (s : Song.t)
  (us : Z) :
  duration s = Some us ->
  (0 <= us < 2 ^ 34 * 1000000)%Z ->
  exists minutes seconds : Z,
    duration_formatted duration s
    = (Py.str minutes ++ ":" ++ format_02d seconds)%string
    /\ (0 <= minutes)%Z /\ (0 <= seconds < 60)%Z
    /\ (60 * minutes + seconds = us / 1000000)%Z
    /\ String.length (format_02d seconds) = 2
    /\ Py.int (Py.str minutes) = Some minutes
    /\ Py.int (format_02d seconds) = Some seconds.
Proof.
  intros Hd [Hus _]. unfold duration_formatted. rewrite Hd.
  set (total := total_seconds us).
  assert (Ht : total = (us / 1000000)%Z).
  { unfold total, total_seconds. apply Z.quot_div_nonneg; lia. }
  assert (H0 : (0 <= total)%Z) by (rewrite Ht; apply Z.div_pos; lia).
  exists (total / 60)%Z, (total mod 60)%Z.
  assert (Hm : (0 <= total / 60)%Z) by (apply Z.div_pos; lia).
  assert (Hs : (0 <= total mod 60 < 60)%Z) by (apply Z.mod_pos_bound; lia).
  destruct (format_02d_two_digits (Z.to_nat (total mod 60))) as [L P]; [lia|].
  rewrite Z2Nat.id in L, P by lia.
  split.
  { destruct (Z.eqb us 0) eqn:E; [|reflexivity].
    apply Z.eqb_eq in E. subst us. reflexivity. }
  split; [exact Hm|]. split; [exact Hs|]. split.
  { rewrite <- Ht. pose proof (Z.div_mod total 60). lia. }
  split; [exact L|]. split; [now apply int_str|exact P].
Qed.

Lemma duration_formatted_reads_back_witness :
  duration_formatted (fun _ => Some 185000000%Z) creep = "3:05"
  /\ exists minutes seconds : Z,
      duration_formatted (fun _ => Some 185000000%Z) creep
      = (Py.str minutes ++ ":" ++ format_02d seconds)%string
      /\ (0 <= minutes)%Z /\ (0 <= seconds < 60)%Z
      /\ (60 * minutes + seconds = 185000000 / 1000000)%Z
      /\ String.length (format_02d seconds) = 2
      /\ Py.int (Py.str minutes) = Some minutes
      /\ Py.int (format_02d seconds) = Some seconds.
Proof.
  split; [reflexivity|].
  apply (duration_formatted_reads_back (fun _ => Some 185000000%Z) creep 185000000);
    [reflexivity|split; [lia|reflexivity]].
Defined.

(** ** Editing a playlist, and what its page shows *)

(** X24.  A valid edit by the owner rewrites the playlist's name and its two
    flags in place: key, owner, members and creation time stay, every other
    playlist and every other table is untouched.  The public flag takes
    effect at once: afterwards playlist_detail refuses every other user
    exactly when the posted flag is off. *)
Theorem edit_playlist_rewrites_in_place (user : User.t) (db : DB) (pk : nat)
  (p : Playlist.t) (d : playlist_data) :
  playlist_by_pk db pk = inr p ->
  Playlist.user p = User.pk user ->
  playlist_field_errors d = false ->
  let r := edit_playlist user db pk POST d in
  let p' := Playlist.mk pk (posted_name d) (Playlist.user p) (Playlist.songs p)
                        (posted_is_public d) (posted_is_collaborative d)
                        (Playlist.created_at p) in
  response r = Redirect "music:playlist_detail" (Some pk)
  /\ playlist_by_pk (store r) pk = inr p'
  /\ (forall k, k <> pk -> playlist_by_pk (store r) k = playlist_by_pk db k)
  /\ store r = with_playlists (playlists (store r)) db
  /\ (forall other, User.pk other <> User.pk user ->
                    permission_denied (playlist_detail other (store r) pk)
                    = negb (posted_is_public d)).
Proof.
  intros Hp Hu Hd r p'. pose proof Hp as Hg. unfold playlist_by_pk in Hg.
  destruct (get_inr_In _ _ _ Hg) as [_ Hpk]. apply Nat.eqb_eq in Hpk. subst pk.
  assert (Er : r = mkResult (Redirect "music:playlist_detail" (Some (Playlist.pk p)))
                            [(success, ("Playlist " ++ quote ++ posted_name d ++ quote
                                        ++ " updated successfully!")%string)]
                            (Playlist_update p d db)).
  { unfold r, edit_playlist. rewrite (own_playlist_lookup user db _ p Hp).
    rewrite Hu, Nat.eqb_refl, Hd. reflexivity. }
  assert (L : playlist_by_pk (Playlist_update p d db) (Playlist.pk p) = inr p').
  { unfold playlist_by_pk, Playlist_update. cbn [playlists with_playlists].
    rewrite get_map_same.
    - rewrite Hg, Nat.eqb_refl. reflexivity.
    - intros x. destruct (Nat.eqb (Playlist.pk x) (Playlist.pk p)) eqn:E; exact E. }
  rewrite Er. cbn [response store].
  split; [reflexivity|]. split; [exact L|]. split.
  { intros k Hk. unfold playlist_by_pk, Playlist_update. cbn [playlists with_playlists].
    apply get_map_others.
    - intros x. destruct (Nat.eqb (Playlist.pk x) (Playlist.pk p)); reflexivity.
    - intros x Hx. apply Nat.eqb_eq in Hx.
      destruct (Nat.eqb (Playlist.pk x) (Playlist.pk p)) eqn:E; [|reflexivity].
      apply Nat.eqb_eq in E. congruence. }
  split; [reflexivity|].
  intros other Ho.
  rewrite (proj1 (playlist_detail_check other _ _ p' L)). unfold p'.
  cbn [Playlist.is_public Playlist.user]. rewrite Hu.
  apply Nat.eqb_neq in Ho. rewrite Nat.eqb_sym, Ho. apply andb_true_r.
Qed.

Lemma edit_playlist_rewrites_in_place_witness :
  permission_denied (playlist_detail bob sample_db 1) = true
  /\ permission_denied
       (playlist_detail bob (store (edit_playlist alice sample_db 1 POST renamed_mix)) 1)
     = false.
Proof.
  split; [reflexivity|].
  refine (proj2 (proj2 (proj2 (proj2
            (edit_playlist_rewrites_in_place alice sample_db 1 mix renamed_mix
               eq_refl eq_refl eq_refl)))) bob _).
  simpl. discriminate.
Defined.

(** X25.  A playlist page lists every member song that is in the store,
    whoever uploaded it and whether or not it is public: unlike the song
    listing, playlist_detail applies no visibility filter, so a viewer who
    may open the playlist also sees the private songs in it. *)
Theorem playlist_detail_shows_all_members (user : User.t) (db : DB) (pk : nat)
  (p : Playlist.t) :
  playlist_by_pk db pk = inr p ->
  Playlist.is_public p = true \/ Playlist.user p = User.pk user ->
  exists c,
    response (playlist_detail user db pk) = Content c
    /\ ctx_playlist c = p
    /\ is_owner c = Nat.eqb (Playlist.user p) (User.pk user)
    /\ forall s, In s (ctx_playlist_songs c)
                 <-> In s (songs db) /\ In (Song.pk s) (Playlist.songs p).
Proof.
  intros Hp Hv. unfold playlist_by_pk in Hp. unfold playlist_detail.
  rewrite (proj2 (get_404_inr _ _ _) Hp).
  replace (negb (Playlist.is_public p)
           && negb (Nat.eqb (Playlist.user p) (User.pk user))) with false.
  - eexists. cbn [response ctx_playlist is_owner ctx_playlist_songs].
    repeat split.
    + apply filter_In in H as [H _]. now apply Song_objects_In in H.
    + apply filter_In in H as [_ H]. apply existsb_exists in H as (k & Hk & E).
      apply Nat.eqb_eq in E. now rewrite E.
    + intros [H1 H2]. apply filter_In. split; [now apply Song_objects_In|].
      apply existsb_exists. exists (Song.pk s). split; [exact H2|apply Nat.eqb_refl].
  - destruct Hv as [-> | ->]; [reflexivity|].
    now rewrite Nat.eqb_refl, andb_false_r.
Qed.

Lemma playlist_detail_shows_all_members_witness :
  permission_denied
    (song_detail bob (with_playlists [Playlist.mk 1 "Mix" 1 [2] true false 5] sample_db) 2)
  = true
  /\ exists c,
      response (playlist_detail bob
                  (with_playlists [Playlist.mk 1 "Mix" 1 [2] true false 5] sample_db) 1)
      = Content c
      /\ In airbag (ctx_playlist_songs c).
Proof.
  split; [reflexivity|].
  destruct (playlist_detail_shows_all_members bob
              (with_playlists [Playlist.mk 1 "Mix" 1 [2] true false 5] sample_db) 1
              (Playlist.mk 1 "Mix" 1 [2] true false 5) eq_refl (or_introl eq_refl))
    as (c & Hc & _ & _ & Hs).
  exists c. split; [exact Hc|]. apply Hs. simpl. auto.
Defined.

(** ** Artist and album pages *)

(** X26.  The page of an artist shows exactly the songs of that artist that
    the requester may see, and exactly the rows of the album table that
    name the artist, whatever order the albums' default ordering lists the
    table in; the page of an album shows exactly the songs of that album
    that the requester may see.  A private song of another user is on
    neither page. *)
Theorem artist_and_album_pages (Album_objects : DB -> list Album.t) (user : User.t)
  (db : DB) (a : Artist.t) (al : Album.t) :
  Permutation (Album_objects db) (albums db) ->
  ORM.get (fun x => Nat.eqb (Artist.pk x) (Artist.pk a)) (artists db) = inr a ->
  ORM.get (fun x => Nat.eqb (Album.pk x) (Album.pk al)) (albums db) = inr al ->
  (exists c,
      response (artist_detail Album_objects user db (Artist.pk a)) = Content c
      /\ detail_artist c = a
      /\ (forall s, In s (detail_artist_songs c)
                    <-> In s (songs db) /\ Song.artist s = Artist.pk a
                        /\ visible user s = true)
      /\ (forall x, In x (detail_artist_albums c)
                    <-> In x (albums db) /\ Album.artist x = Artist.pk a))
  /\ (exists l,
         response (album_detail user db (Album.pk al)) = Content (al, l)
         /\ forall s, In s l
                      <-> In s (songs db) /\ Song.album s = Some (Album.pk al)
                          /\ visible user s = true).
Proof.
  intros Hperm Ha Hal. split.
  - unfold artist_detail. rewrite (proj2 (get_404_inr _ _ _) Ha).
    eexists. cbn [response detail_artist detail_artist_songs detail_artist_albums].
    split; [reflexivity|]. split; [reflexivity|]. split.
    + intros s. split.
      * intros H. apply filter_In in H as [H Hv]. apply filter_In in H as [H Hk].
        apply Song_objects_In in H. apply Nat.eqb_eq in Hk. tauto.
      * intros (H & Hk & Hv). apply filter_In. split; [|exact Hv].
        apply filter_In. split; [now apply Song_objects_In|now apply Nat.eqb_eq].
    + intros x. split.
      * intros H. apply filter_In in H as [H Hk]. apply Nat.eqb_eq in Hk.
        split; [exact (Permutation_in x Hperm H)|exact Hk].
      * intros [H Hk]. apply filter_In.
        split; [exact (Permutation_in x (Permutation_sym Hperm) H)|now apply Nat.eqb_eq].
  - unfold album_detail. rewrite (proj2 (get_404_inr _ _ _) Hal).
    eexists. cbn [response]. split; [reflexivity|].
    intros s. split.
    + intros H. apply filter_In in H as [H Hv]. apply filter_In in H as [H Hk].
      apply Song_objects_In in H. destruct (Song.album s) as [k|]; [|discriminate].
      apply Nat.eqb_eq in Hk. subst k. tauto.
    + intros (H & Hk & Hv). apply filter_In. split; [|exact Hv].
      apply filter_In. split; [now apply Song_objects_In|].
      rewrite Hk. apply Nat.eqb_refl.
Qed.

Lemma artist_and_album_pages_witness :
  exists c,
    response (artist_detail (fun db => albums db) bob
                (with_albums [Album.mk 1 "Pablo Honey" 1] sample_db) 1)
    = Content c
    /\ In creep (detail_artist_songs c) /\ ~ In airbag (detail_artist_songs c).
Proof.
  destruct (artist_and_album_pages (fun db => albums db) bob
              (with_albums [Album.mk 1 "Pablo Honey" 1] sample_db)
              (Artist.mk 1 "Radiohead") (Album.mk 1 "Pablo Honey" 1)
              (Permutation_refl _) eq_refl eq_refl)
    as [(c & Hc & _ & Hs & _) _].
  exists c. split; [exact Hc|]. split.
  - apply Hs. simpl. auto.
  - intros H. apply Hs in H as (_ & _ & H). discriminate H.
Defined.

(** ** What no request does to a song *)

Lemma song_kept_same (user : User.t) (now : nat) (db : DB) (s : Song.t) :
  In s (songs db) -> song_kept user now db s.
Proof. intros H. left. exists s. repeat split; try assumption; lia. Qed.

Lemma songs_untouched_playlists (user : User.t) (now : nat) (db : DB) (pk k : nat)
  (m : Method) (d : playlist_data) (id : option string) :
  songs (store (create_playlist user now db m d)) = songs db
  /\ songs (store (edit_playlist user db pk m d)) = songs db
  /\ songs (store (delete_playlist user db pk m)) = songs db
  /\ songs (store (add_to_playlist user db k m id)) = songs db
  /\ songs (store (remove_from_playlist user db pk k m)) = songs db.
Proof.
  repeat split.
  - unfold create_playlist. destruct m; [reflexivity|].
    now destruct (playlist_field_errors d).
  - unfold edit_playlist. destruct (get_object_or_404 _ _); [reflexivity|].
    destruct m; [reflexivity|]. now destruct (playlist_field_errors d).
  - unfold delete_playlist. destruct m; [reflexivity|].
    now destruct (get_object_or_404 _ _).
  - unfold add_to_playlist. destruct (get_object_or_404 _ _); [reflexivity|].
    destruct m; [reflexivity|]. destruct (posted_playlist _ _ _); [reflexivity|].
    now destruct (existsb _ _).
  - unfold remove_from_playlist. destruct m; [reflexivity|].
    destruct (get_object_or_404 _ (playlists db)); [reflexivity|].
    now destruct (get_object_or_404 _ (songs db)).
Qed.

Lemma songs_untouched_engagement (user : User.t) (now : nat) (db : DB) (k : nat)
  (m : Method) (ajax : bool) (posted : option string) :
  songs (store (toggle_favorite user now db k m ajax)) = songs db
  /\ songs (store (add_rating user now db k m posted)) = songs db.
Proof.
  split.
  - unfold toggle_favorite. destruct m; [reflexivity|].
    destruct (get_object_or_404 _ _) as [e|song]; [reflexivity|].
    unfold Favorite_get_or_create, Favorite_create.
    destruct (ORM.get _ _) as [[]|f]; try reflexivity.
    destruct (existsb _ _); reflexivity.
  - unfold add_rating. destruct m; [reflexivity|].
    destruct (get_object_or_404 _ _) as [e|song]; [reflexivity|].
    destruct (RatingForm.is_valid posted) as [v|]; [|reflexivity].
    unfold Rating_update_or_create, Rating_create.
    destruct (ORM.get _ _) as [[]|f]; try reflexivity.
    destruct (existsb _ _); reflexivity.
Qed.

Lemma song_kept_rewritten (user : User.t) (now : nat) (db : DB) (song : Song.t)
  (f : Song.t -> Song.t) (s' : Song.t) :
  NoDup (map Song.pk (songs db)) ->
  In song (songs db) ->
  song_kept user now db (f song) ->
  In s' (map (fun x => if Nat.eqb (Song.pk x) (Song.pk song) then f x else x) (songs db)) ->
  song_kept user now db s'.
Proof.
  intros Hnd Hin Hf H. apply in_map_iff in H as (x & <- & Hx).
  destruct (Nat.eqb (Song.pk x) (Song.pk song)) eqn:E.
  - apply Nat.eqb_eq in E.
    now rewrite (NoDup_map_In_eq Song.pk _ x song Hnd Hx Hin E).
  - now apply song_kept_same.
Qed.

(** X27.  No request lowers a counter or changes who uploaded a song.  In a
    store that keeps its promises, every song in the store after a request
    either continues a row from before, with the same key, uploader, upload
    time and featured mark and with each counter grown by 0 or 1, or is a
    new row under a fresh key, uploaded by the requester at the time of the
    request, not featured, with both counters at 0. *)
Theorem requests_respect_songs (user : User.t) (now : nat) (r : request) (db : DB)
  (s' : Song.t) :
  store_ok db ->
  request_ok db r ->
  In s' (songs (handle user now r db)) ->
  song_kept user now db s'.
Proof.
  intros Hok Hr Hin.
  assert (Hnd : NoDup (map Song.pk (songs db))).
  { destruct Hok as (K & _). unfold keys_ok in K. tauto. }
  destruct r as [pk|pk|m d|pk m d|pk m|m d|pk m d|pk m|song_pk m playlist_id
                |playlist_pk song_pk m|song_pk m ajax|song_pk m posted];
    cbn [handle request_ok] in *.
  - (* play_song *)
    unfold play_song in Hin.
    destruct (get_object_or_404 _ _) as [e|song] eqn:Eg; [now apply song_kept_same|].
    destruct (found_song _ _ _ Eg) as [Hsong _].
    cbn in Hin.
    apply (song_kept_rewritten user now db song
             (Song.set_play_count (Song.play_count song + 1)) s' Hnd Hsong);
      [|exact Hin].
    left. exists song. cbn. repeat split; try assumption; lia.
  - (* download_song *)
    unfold download_song in Hin.
    destruct (get_object_or_404 _ _) as [e|song] eqn:Eg; [now apply song_kept_same|].
    destruct (found_song _ _ _ Eg) as [Hsong _].
    destruct (negb (Song.is_public song) && _); [now apply song_kept_same|].
    cbn in Hin.
    apply (song_kept_rewritten user now db song
             (Song.set_download_count (Song.download_count song + 1)) s' Hnd Hsong);
      [|exact Hin].
    left. exists song. cbn. repeat split; try assumption; lia.
  - (* upload_song *)
    unfold upload_song in Hin. destruct m; [now apply song_kept_same|].
    destruct (SongUploadForm.is_valid d db) as [e|[res db1]] eqn:E;
      [now apply song_kept_same|].
    destruct (is_valid_effect d db db1 res Hr E) as [(Hsongs & _) _].
    destruct res as [[[a al] g]|];
      [|cbn in Hin; rewrite Hsongs in Hin; now apply song_kept_same].
    cbn in Hin. rewrite Hsongs in Hin. apply in_app_or in Hin as [Hin|[<-|[]]].
    + now apply song_kept_same.
    + right. cbn. repeat split. apply next_pk_fresh.
  - (* edit_song *)
    unfold edit_song in Hin.
    destruct (get_object_or_404 _ _) as [e|song] eqn:Eg; [now apply song_kept_same|].
    destruct (found_song _ _ _ Eg) as [Hsong _].
    destruct (negb (Nat.eqb (Song.uploaded_by song) (User.pk user)) && _);
      [now apply song_kept_same|].
    destruct m; [now apply song_kept_same|].
    destruct (SongUploadForm.is_valid d db) as [e|[res db1]] eqn:E;
      [now apply song_kept_same|].
    destruct (is_valid_effect d db db1 res Hr E) as [(Hsongs & _) _].
    destruct res as [[[a al] g]|];
      [|cbn in Hin; rewrite Hsongs in Hin; now apply song_kept_same].
    cbn in Hin. rewrite Hsongs in Hin.
    apply (song_kept_rewritten user now db song
             (fun s => Song.mk (Song.pk s) (SongUploadForm.title d) (Artist.pk a)
                               (option_map Album.pk al) (option_map Genre.pk g)
                               (Song.uploaded_by song) (Song.upload_date s)
                               (Song.play_count song) (Song.download_count song)
                               (SongUploadForm.is_public d) (Song.is_featured song))
             s' Hnd Hsong); [|exact Hin].
    left. exists song. cbn. repeat split; try assumption; lia.
  - (* delete_song *)
    unfold delete_song in Hin. destruct m; [now apply song_kept_same|].
    destruct (get_object_or_404 _ _) as [e|song]; [now apply song_kept_same|].
    destruct (negb (Nat.eqb (Song.uploaded_by song) (User.pk user)) && _);
      [now apply song_kept_same|].
    cbn in Hin. apply filter_In in Hin as [Hin _]. now apply song_kept_same.
  - rewrite (proj1 (songs_untouched_playlists user now db 0 0 m d None)) in Hin.
    now apply song_kept_same.
  - rewrite (proj1 (proj2 (songs_untouched_playlists user now db pk 0 m d None))) in Hin.
    now apply song_kept_same.
  - rewrite (proj1 (proj2 (proj2
               (songs_untouched_playlists user now db pk 0 m
                  (mk_playlist_data "" false false false) None)))) in Hin.
    now apply song_kept_same.
  - rewrite (proj1 (proj2 (proj2 (proj2
               (songs_untouched_playlists user now db 0 song_pk m
                  (mk_playlist_data "" false false false) playlist_id))))) in Hin.
    now apply song_kept_same.
  - rewrite (proj2 (proj2 (proj2 (proj2
               (songs_untouched_playlists user now db playlist_pk song_pk m
                  (mk_playlist_data "" false false false) None))))) in Hin.
    now apply song_kept_same.
  - rewrite (proj1 (songs_untouched_engagement user now db song_pk m ajax None)) in Hin.
    now apply song_kept_same.
  - rewrite (proj2 (songs_untouched_engagement user now db song_pk m false posted)) in Hin.
    now apply song_kept_same.
Qed.

Lemma requests_respect_songs_witness :
  song_kept bob 4 sample_db (Song.mk 1 "Creep" 1 None None 1 10 1 0 true false).
Proof.
  apply (requests_respect_songs bob 4 (Play 1) sample_db).
  - exact sample_db_ok.
  - exact I.
  - vm_compute. auto.
Defined.

(** ** The artist index and the play history *)

Lemma index_pages {A : Type} (objects : list A) (per_page : Z)
  (view : option string -> Result (Paginator.Page A)) :
  (0 < per_page)%Z ->
  (forall page, shown_rows (view page)
                = match Paginator.get_page objects per_page page with
                  | inr pg => Paginator.object_list pg
                  | inl _ => []
                  end) ->
  let last := Z.to_nat (Paginator.num_pages objects per_page) in
  List.concat (map (fun n => shown_rows (view (page_param n))) (seq 1 last)) = objects
  /\ (forall n, 1 <= n <= last ->
                (Z.of_nat (List.length (shown_rows (view (page_param n)))) <= per_page)%Z).
Proof.
  intros Hpp Hview last.
  pose proof (num_pages_pos objects per_page Hpp) as Hn.
  assert (Hs : forall n, 1 <= n <= last ->
                         shown_rows (view (page_param n))
                         = page_objects objects per_page (Z.of_nat n)).
  { intros n Hr. rewrite Hview.
    rewrite (get_page_in_range objects per_page n Hpp) by (unfold last in Hr; lia).
    reflexivity. }
  destruct (pages_partition A objects per_page Hpp) as (P1 & P2 & _).
  split.
  - transitivity (List.concat (all_pages objects per_page)); [|exact P1].
    unfold all_pages. fold last. f_equal.
    apply map_ext_in. intros n Hi. apply in_seq in Hi. apply Hs. lia.
  - intros n Hr. rewrite (Hs n Hr).
    rewrite Forall_forall in P2. apply P2.
    unfold all_pages. apply in_map_iff. exists n. split; [reflexivity|].
    apply in_seq. fold last. lia.
Qed.

(** X28.  The artist index cannot show an artist.  Whatever page is asked,
    artist_list raises AttributeError as soon as the artist table has a row:
    the annotation song_count cannot be set on an Artist, whose song_count
    is a read-only property.  Only with an empty artist table does it
    render, an empty page 1.  Nothing is written or flashed either way. *)
Theorem artist_list_raises (db : DB) (page : option string) :
  store (artist_list db page) = db
  /\ flashed (artist_list db page) = []
  /\ (artists db = [] ->
      response (artist_list db page) = Content (Paginator.mkPage [] 1))
  /\ (artists db <> [] -> response (artist_list db page) = Raised AttributeError).
Proof.
  unfold artist_list.
  pose proof (get_page_cases (artist_list_queryset db) artists_per_page eq_refl page) as Hc.
  cbv zeta in Hc. rewrite Hc. clear Hc.
  set (last := last_page_number (Z.of_nat (List.length (artist_list_queryset db)))
                                artists_per_page).
  pose proof (last_pos (artist_list_queryset db) artists_per_page eq_refl) as Hl.
  fold last in Hl.
  assert (Hk : exists k,
             (1 <= k <= last)%Z
             /\ match match page with Some s => Py.int s | None => None end with
                | Some n =>
                    if ((1 <=? n) && (n <=? last))%Z
                    then Paginator.mkPage
                           (rows_of_page (artist_list_queryset db) artists_per_page n) n
                    else Paginator.mkPage
                           (rows_of_page (artist_list_queryset db) artists_per_page last)
                           last
                | None =>
                    Paginator.mkPage
                      (rows_of_page (artist_list_queryset db) artists_per_page 1) 1
                end
                = Paginator.mkPage
                    (rows_of_page (artist_list_queryset db) artists_per_page k) k).
  { destruct (match page with Some s => Py.int s | None => None end) as [n|].
    - destruct ((1 <=? n) && (n <=? last))%Z eqn:E.
      + apply andb_true_iff in E as [E1 E2]. apply Z.leb_le in E1, E2.
        exists n. split; [lia|reflexivity].
      + exists last. split; [lia|reflexivity].
    - exists 1%Z. split; [lia|reflexivity]. }
  destruct Hk as (k & Hk & ->). cbn [Paginator.object_list].
  assert (Hq : artist_list_queryset db = [] <-> artists db = []).
  { unfold artist_list_queryset. split; intros H.
    - apply (f_equal (@List.length _)) in H.
      rewrite order_by_length, length_map in H. now destruct (artists db).
    - now rewrite H. }
  destruct (rows_of_page (artist_list_queryset db) artists_per_page k) as [|x t] eqn:Er.
  - repeat split.
    + intros He. apply Hq in He.
      assert (E1 : last = 1%Z) by (unfold last; rewrite He; reflexivity).
      replace k with 1%Z by lia. reflexivity.
    + intros Hne. exfalso.
      apply (rows_nonempty (artist_list_queryset db) artists_per_page eq_refl k);
        [now rewrite Hq|exact Hk|exact Er].
  - repeat split.
    intros He. apply Hq in He. rewrite He in Er.
    unfold rows_of_page in Er. rewrite skipn_nil, firstn_nil in Er. discriminate.
Qed.

(** X29.  The pages of the play history, taken in order, list exactly the
    requester's plays, newest first, at most 50 to a page; plays of other
    users are on no page. *)
Theorem play_history_pages (user : User.t) (db : DB) :
  let last :=
    Z.to_nat (Paginator.num_pages
                (ORM.order_by
                   (fun a b => Nat.leb (PlayHistory.played_at b) (PlayHistory.played_at a))
                   (filter (by_user user) (playhistory db)))
                history_per_page) in
  let shown := List.concat (map (fun n => shown_rows (play_history user db (page_param n)))
                                (seq 1 last)) in
  Permutation shown (filter (by_user user) (playhistory db))
  /\ (forall h, In h shown <-> In h (playhistory db) /\ PlayHistory.user h = User.pk user)
  /\ StronglySorted (fun a b => PlayHistory.played_at b <= PlayHistory.played_at a) shown
  /\ (forall n, 1 <= n <= last ->
                List.length (shown_rows (play_history user db (page_param n))) <= 50).
Proof.
  intros last shown.
  set (history := ORM.order_by
                    (fun a b => Nat.leb (PlayHistory.played_at b) (PlayHistory.played_at a))
                    (filter (by_user user) (playhistory db))) in *.
  destruct (index_pages history history_per_page (play_history user db)) as [P1 P2];
    [reflexivity| |].
  { intros page. unfold shown_rows, play_history. fold history.
    now destruct (Paginator.get_page history history_per_page page). }
  fold last in P1, P2. fold shown in P1.
  split; [|split; [|split]].
  - rewrite P1. apply order_by_perm.
  - intros h. rewrite P1. unfold history.
    rewrite order_by_In, filter_In. unfold by_user. now rewrite Nat.eqb_eq.
  - rewrite P1. apply order_by_strongly_sorted.
    + intros a b. rewrite !Nat.leb_le. lia.
    + intros a b. now rewrite Nat.leb_le.
    + intros a b c. lia.
  - intros n Hr. specialize (P2 n Hr). unfold history_per_page in P2. lia.
Qed.
